(** * QuestBot: the XP and leveling engine

    A shallow embedding of the bot's XP ledger, level table, settings store,
    total-XP aggregator, quest completion handler and level-role
    reconciliation ([main.py] and its later revision [bot 4.py]), with the
    properties of the engine stated and proved over it.

    Conventions of the embedding:
    - Python [int] is [Z] (unbounded).  An SQLite INTEGER holds 64 bits:
      binding a Python [int] outside that range raises [OverflowError].
      Identifiers (of users, guilds, roles, channels, messages) are Discord
      snowflakes, which are within the range; the xp written by
      [update_user_xp] is computed from amounts of any size, and is the
      bound value that is checked.
    - A table with a primary key is a finite map from the key to the rest of
      the row; [INSERT] into an occupied key raises [IntegrityError], as
      SQLite does for a [PRIMARY KEY] column.
    - The JSON text columns are kept as the decoded value
      ([json.loads (json.dumps v) = v] for the lists and objects stored).
    - A Python exception is a [Raise] result; the state reached when it is
      raised is kept, as the connection keeps what was executed.
    - All statements go through the one connection, so [commit] changes
      nothing the process can read and is left out; so are [print] and the
      content of the messages sent.
    - A command is modelled from the first statement of its body: the
      permission decorators run before it.  The slash commands execute the
      statements of the prefix commands of the same name. *)

From Stdlib Require Import ZArith Lia Ascii String.
From stdpp Require Import gmap strings list pretty.
From stdpp Require Import sorting.

Local Open Scope Z_scope.

(** ** Exceptions and results *)

Inductive exn : Set :=
  | IntegrityError   (* sqlite3.IntegrityError *)
  | OverflowError    (* Python int too large to convert to SQLite INTEGER *)
  | KeyError
  | ValueError
  | IndexError
  | Forbidden        (* discord.Forbidden *)
  | HTTPException    (* discord.HTTPException *)
  | OtherException.  (* any other subclass of Exception *)

Inductive result (A : Type) : Type :=
  | Ok (a : A)
  | Raise (e : exn).
Arguments Ok {A} a.
Arguments Raise {A} e.

(** ** The level table *)

(** [LEVEL_THRESHOLDS = {1: 0, 2: 100, ..., 10: 11700}] *)
Definition LEVEL_THRESHOLDS : gmap Z Z :=
  list_to_map
    [ (1, 0); (2, 100); (3, 500); (4, 1200); (5, 2200);
      (6, 3500); (7, 5100); (8, 7000); (9, 9200); (10, 11700) ].

(** [range(10, 0, -1)] *)
Definition range_10_0 : list Z := reverse (seqZ 1 10).

(** [range(1, 11)] *)
Definition range_1_11 : list Z := seqZ 1 10.

(** The loop of [calculate_level]: [LEVEL_THRESHOLDS[level]] raises
    [KeyError] on a missing key, the final [return 1] is the [[]] case. *)
Fixpoint calculate_level_loop (levels : list Z) (xp : Z) : result Z :=
  match levels with
  | [] => Ok 1
  | level :: rest =>
      match LEVEL_THRESHOLDS !! level with
      | None => Raise KeyError
      | Some threshold =>
          if xp >=? threshold then Ok level
          else calculate_level_loop rest xp
      end
  end.

Definition calculate_level (xp : Z) : result Z :=
  calculate_level_loop range_10_0 xp.

(** The same function with the table looked up, as a cascade of tests. *)
Definition level_cascade (xp : Z) : Z :=
  if xp >=? 11700 then 10 else
  if xp >=? 9200 then 9 else
  if xp >=? 7000 then 8 else
  if xp >=? 5100 then 7 else
  if xp >=? 3500 then 6 else
  if xp >=? 2200 then 5 else
  if xp >=? 1200 then 4 else
  if xp >=? 500 then 3 else
  if xp >=? 100 then 2 else
  if xp >=? 0 then 1 else 1.

(** ** The stored data

    The three tables created by [init_database]. *)

(** [users]: [user_id INTEGER PRIMARY KEY, guild_id, xp, level,
    UNIQUE(user_id, guild_id)].  The primary key is [user_id] alone, so the
    table holds at most one row per user. *)
Record user_row : Set := mk_user_row {
  u_guild_id : Z;
  u_xp : Z;
  u_level : Z
}.

(** [quests]: [message_id INTEGER PRIMARY KEY, guild_id, channel_id, title,
    content, completed_users TEXT DEFAULT '[]'] *)
Record quest_row : Set := mk_quest_row {
  q_guild_id : Z;
  q_channel_id : Z;
  q_title : string;
  q_content : string;
  q_completed_users : list Z
}.

(** [settings]: [guild_id INTEGER PRIMARY KEY, quest_ping_role_id,
    quest_channel_id, role_xp_assignments TEXT DEFAULT '{}'] *)
Record settings_row : Type := mk_settings_row {
  s_quest_ping_role_id : option Z;
  s_quest_channel_id : option Z;
  s_role_xp_assignments : gmap string Z
}.

Record Database : Type := mk_Database {
  users : gmap Z user_row;
  quests : gmap Z quest_row;
  settings : gmap Z settings_row
}.

(** The tables right after [init_database] on a fresh file. *)
Definition empty_database : Database :=
  {| users := ∅; quests := ∅; settings := ∅ |}.

(** [class QuestBot]: the attributes set in [__init__]. *)
Record QuestBot : Type := mk_QuestBot {
  db_connection : option Database;
  quest_ping_role_id : option Z;
  quest_channel_id : option Z;
  role_xp_assignments : gmap Z (gmap string Z)
}.

(** ** The platform, as the client caches it *)

Record Role : Set := mk_Role {
  role_id : Z;
  role_name : string
}.

Record Channel : Set := mk_Channel {
  channel_id : Z;
  channel_can_send : bool  (* permissions_for(guild.me).send_messages *)
}.

(** A guild: its roles, its text channels, and for each cached member the
    roles the member holds ([member.roles]). *)
Record Guild : Type := mk_Guild {
  guild_roles : list Role;
  guild_text_channels : list Channel;
  guild_members : gmap Z (list Role)
}.

(** [asyncio.create_task(self.update_user_level_role(user_id, guild_id,
    old_level, new_level))]: a task handed to the event loop. *)
Record level_role_task : Set := mk_level_role_task {
  t_user_id : Z;
  t_guild_id : Z;
  t_old_level : Z;
  t_new_level : Z
}.

(** The state of the process: the [quest_bot] object, the client's guild
    cache ([bot.get_guild]), and the tasks created on the event loop that
    have not run yet. *)
Record World : Type := mk_World {
  bot : QuestBot;
  client : gmap Z Guild;
  loop_tasks : list level_role_task
}.

Definition set_bot (f : QuestBot -> QuestBot) (w : World) : World :=
  {| bot := f (bot w); client := client w; loop_tasks := loop_tasks w |}.

Definition set_client (c : gmap Z Guild) (w : World) : World :=
  {| bot := bot w; client := c; loop_tasks := loop_tasks w |}.

Definition set_loop_tasks (ts : list level_role_task) (w : World) : World :=
  {| bot := bot w; client := client w; loop_tasks := ts |}.

Definition set_db_connection (c : option Database) (b : QuestBot) : QuestBot :=
  {| db_connection := c;
     quest_ping_role_id := quest_ping_role_id b;
     quest_channel_id := quest_channel_id b;
     role_xp_assignments := role_xp_assignments b |}.

Definition set_quest_ping_role_id (r : option Z) (b : QuestBot) : QuestBot :=
  {| db_connection := db_connection b;
     quest_ping_role_id := r;
     quest_channel_id := quest_channel_id b;
     role_xp_assignments := role_xp_assignments b |}.

Definition set_quest_channel_id (c : option Z) (b : QuestBot) : QuestBot :=
  {| db_connection := db_connection b;
     quest_ping_role_id := quest_ping_role_id b;
     quest_channel_id := c;
     role_xp_assignments := role_xp_assignments b |}.

Definition set_role_xp_assignments (m : gmap Z (gmap string Z)) (b : QuestBot)
  : QuestBot :=
  {| db_connection := db_connection b;
     quest_ping_role_id := quest_ping_role_id b;
     quest_channel_id := quest_channel_id b;
     role_xp_assignments := m |}.

Definition set_users (u : gmap Z user_row) (db : Database) : Database :=
  {| users := u; quests := quests db; settings := settings db |}.

Definition set_quests (q : gmap Z quest_row) (db : Database) : Database :=
  {| users := users db; quests := q; settings := settings db |}.

Definition set_settings (s : gmap Z settings_row) (db : Database) : Database :=
  {| users := users db; quests := quests db; settings := s |}.

(** [QuestBot()]: [__init__] followed by [init_database] on a fresh file. *)
Definition init_bot : QuestBot :=
  {| db_connection := Some empty_database;
     quest_ping_role_id := None;
     quest_channel_id := None;
     role_xp_assignments := ∅ |}.

Definition init_world (guilds : gmap Z Guild) : World :=
  {| bot := init_bot; client := guilds; loop_tasks := [] |}.

(** ** Computations: state and exceptions *)

Definition M (A : Type) : Type := World -> result A * World.

Definition ret {A} (a : A) : M A := fun w => (Ok a, w).

Definition raise {A} (e : exn) : M A := fun w => (Raise e, w).

Definition bind {A B} (m : M A) (k : A -> M B) : M B :=
  fun w =>
    match m w with
    | (Ok a, w') => k a w'
    | (Raise e, w') => (Raise e, w')
    end.

Notation "'let*' x ':=' m 'in' k" := (bind m (fun x => k))
  (at level 10, x pattern, m at level 100, k at level 200).
Notation "'do*' m 'in' k" := (bind m (fun _ => k))
  (at level 10, m at level 100, k at level 200).

(** [try: body  except Exception: handler] *)
Definition try_except {A} (body : M A) (handler : exn -> M A) : M A :=
  fun w =>
    match body w with
    | (Ok a, w') => (Ok a, w')
    | (Raise e, w') => handler e w'
    end.

Definition gets {A} (f : World -> A) : M A := fun w => (Ok (f w), w).

Definition modify (f : World -> World) : M unit := fun w => (Ok tt, f w).

Definition lift {A} (r : result A) : M A := fun w => (r, w).

(** A statement executed on [self.db_connection]; the callers have tested
    the connection before, a missing one is an [AttributeError]. *)
Definition execute (stmt : Database -> result Database) : M unit :=
  fun w =>
    match db_connection (bot w) with
    | None => (Raise OtherException, w)
    | Some db =>
        match stmt db with
        | Ok db' => (Ok tt, set_bot (set_db_connection (Some db')) w)
        | Raise e => (Raise e, w)
        end
    end.

(** A query followed by [fetchone]. *)
Definition fetchone {A} (query : Database -> option A) : M (option A) :=
  fun w =>
    match db_connection (bot w) with
    | None => (Raise OtherException, w)
    | Some db => (Ok (query db), w)
    end.

(** [asyncio.create_task] *)
Definition create_task (t : level_role_task) : M unit :=
  modify (fun w => set_loop_tasks (loop_tasks w ++ [t]) w).

(** ** The SQL statements *)

(** [SELECT xp, level FROM users WHERE user_id = ? AND guild_id = ?] *)
Definition select_user (user_id guild_id : Z) (db : Database) : option (Z * Z) :=
  match users db !! user_id with
  | Some r =>
      if bool_decide (u_guild_id r = guild_id) then Some (u_xp r, u_level r) else None
  | None => None
  end.

(** [INSERT INTO users (user_id, guild_id, xp, level) VALUES (?, ?, 0, 1)] *)
Definition insert_user (user_id guild_id : Z) (db : Database) : result Database :=
  match users db !! user_id with
  | Some _ => Raise IntegrityError
  | None =>
      Ok (set_users (<[user_id := mk_user_row guild_id 0 1]> (users db)) db)
  end.

(** The range of an SQLite INTEGER. *)
Definition INT64_MIN : Z := -9223372036854775808.   (* - 2 ** 63 *)
Definition INT64_MAX : Z := 9223372036854775807.    (* 2 ** 63 - 1 *)

(** Binding [n] to a parameter of a statement succeeds. *)
Definition fits_int64 (n : Z) : bool := (INT64_MIN <=? n) && (n <=? INT64_MAX).

(** [UPDATE users SET xp = ?, level = ? WHERE user_id = ? AND guild_id = ?]:
    the parameters are bound first, then the row of the pair, if there is
    one, is written. *)
Definition update_user (new_xp new_level user_id guild_id : Z) (db : Database)
  : result Database :=
  if fits_int64 new_xp && fits_int64 new_level then
    match users db !! user_id with
    | Some r =>
        if bool_decide (u_guild_id r = guild_id)
        then Ok (set_users
                   (<[user_id := mk_user_row guild_id new_xp new_level]> (users db)) db)
        else Ok db
    | None => Ok db
    end
  else Raise OverflowError.

(** [SELECT title, completed_users FROM quests WHERE message_id = ?] *)
Definition select_quest (message_id : Z) (db : Database)
  : option (string * list Z) :=
  match quests db !! message_id with
  | Some q => Some (q_title q, q_completed_users q)
  | None => None
  end.

(** [UPDATE quests SET completed_users = ? WHERE message_id = ?] *)
Definition update_quest (completed_users : list Z) (message_id : Z)
  (db : Database) : result Database :=
  match quests db !! message_id with
  | Some q =>
      Ok (set_quests
            (<[message_id :=
                 mk_quest_row (q_guild_id q) (q_channel_id q) (q_title q)
                   (q_content q) completed_users]> (quests db)) db)
  | None => Ok db
  end.

(** [INSERT INTO quests (message_id, guild_id, channel_id, title, content)
    VALUES (?, ?, ?, ?, ?)]; [completed_users] takes its default. *)
Definition insert_quest (message_id guild_id channel_id : Z)
  (title content : string) (db : Database) : result Database :=
  match quests db !! message_id with
  | Some _ => Raise IntegrityError
  | None =>
      Ok (set_quests
            (<[message_id := mk_quest_row guild_id channel_id title content []]>
               (quests db)) db)
  end.

(** [DELETE FROM quests WHERE message_id = ?] *)
Definition delete_quest (message_id : Z) (db : Database) : result Database :=
  Ok (set_quests (delete message_id (quests db)) db).

(** [INSERT OR REPLACE INTO settings (guild_id, quest_ping_role_id,
    quest_channel_id, role_xp_assignments) VALUES (?, ?, ?, ?)] *)
Definition replace_settings (guild_id : Z) (row : settings_row) (db : Database)
  : result Database :=
  Ok (set_settings (<[guild_id := row]> (settings db)) db).

(** [SELECT quest_ping_role_id, quest_channel_id, role_xp_assignments FROM
    settings WHERE guild_id = ?] *)
Definition select_settings (guild_id : Z) (db : Database) : option settings_row :=
  settings db !! guild_id.

(** Roles are compared and hashed by their id. *)
Definition role_in (r : Role) (l : list Role) : bool :=
  bool_decide (role_id r ∈ map role_id l).

(** The elements of [set(l)], one role for each id. *)
Fixpoint role_set (l : list Role) : list Role :=
  match l with
  | [] => []
  | r :: rest => if role_in r rest then role_set rest else r :: role_set rest
  end.

(** The elements of [set(after) - set(before)]. *)
Definition gained_roles (before after : list Role) : list Role :=
  List.filter (fun r => negb (role_in r before)) (role_set after).

(** ** The platform calls

    Every awaited call to the platform may succeed or raise, and the cache
    may have changed in any way by the time the handler resumes.  The calls
    are therefore left as an interface.  So is the order in which a [for]
    loop meets the roles of a [set]: a role hashes by its id, and the order
    of the hash table is not the program's to choose. *)
Class Discord : Type := {
  (** [await channel.send(...)], [await ctx.send(...)] *)
  send : Z -> gmap Z Guild -> result unit * gmap Z Guild;
  (** [await member.remove_roles(role, reason=...)] *)
  remove_roles : Z -> Z -> Role -> gmap Z Guild -> result unit * gmap Z Guild;
  (** [await member.add_roles(role, reason=...)] *)
  add_roles : Z -> Z -> Role -> gmap Z Guild -> result unit * gmap Z Guild;
  (** [await guild.create_role(name=..., color=..., reason=...)] *)
  create_role : Z -> string -> gmap Z Guild -> result unit * gmap Z Guild;
  (** [for role in set(after) - set(before)]: the roles as the loop meets
      them, each role of the difference once *)
  set_order : list Role -> list Role -> list Role;
  set_order_elements :
    forall before after, set_order before after ≡ₚ gained_roles before after
}.

(** [await call]: the call acts on the platform, never on [quest_bot]. *)
Definition await (call : gmap Z Guild -> result unit * gmap Z Guild) : M unit :=
  fun w => let '(r, c) := call (client w) in (r, set_client c w).

(** [for x in l: body x] *)
Fixpoint for_each {A} (l : list A) (body : A -> M unit) : M unit :=
  match l with
  | [] => ret tt
  | x :: rest => do* body x in for_each rest body
  end.

(** ** The XP ledger *)

(** The two revisions of the bot: [main.py], and [bot 4.py] which adds the
    level roles and the total-XP aggregator. *)
Inductive revision : Set := MainPy | Bot4Py.

(** The dictionary [{'xp': ..., 'level': ...}] *)
Record user_data : Set := mk_user_data {
  xp : Z;
  level : Z
}.

Definition get_user_data (user_id guild_id : Z) : M user_data :=
  let* conn := gets (fun w => db_connection (bot w)) in
  match conn with
  | None => ret {| xp := 0; level := 1 |}
  | Some _ =>
      let* result := fetchone (select_user user_id guild_id) in
      match result with
      | Some (x, l) => ret {| xp := x; level := l |}
      | None =>
          (* Create new user entry *)
          do* execute (insert_user user_id guild_id) in
          ret {| xp := 0; level := 1 |}
      end
  end.

(** [update_user_xp]; the test on [old_level] and the [create_task] are in
    [bot 4.py] only. *)
Definition update_user_xp (rev : revision) (user_id guild_id xp_change : Z)
  : M (Z * Z) :=
  let* conn := gets (fun w => db_connection (bot w)) in
  match conn with
  | None => ret (0, 1)
  | Some _ =>
      let* current_data := get_user_data user_id guild_id in
      let old_level := level current_data in
      let new_xp := Z.max 0 (xp current_data + xp_change) in
      let* new_level := lift (calculate_level new_xp) in
      do* execute (update_user new_xp new_level user_id guild_id) in
      do* match rev with
          | MainPy => ret tt
          | Bot4Py =>
              (* Handle level role assignment if level changed *)
              if bool_decide (old_level ≠ new_level)
              then create_task
                     (mk_level_role_task user_id guild_id old_level new_level)
              else ret tt
          end in
      ret (new_xp, new_level)
  end.

(** ** The settings store *)

Definition save_settings (guild_id : Z) : M unit :=
  let* conn := gets (fun w => db_connection (bot w)) in
  match conn with
  | None => ret tt
  | Some _ =>
      let* b := gets bot in
      let role_xp_json := default ∅ (role_xp_assignments b !! guild_id) in
      execute (replace_settings guild_id
                 (mk_settings_row (quest_ping_role_id b) (quest_channel_id b)
                    role_xp_json))
  end.

Definition load_settings (guild_id : Z) : M unit :=
  let* conn := gets (fun w => db_connection (bot w)) in
  match conn with
  | None => ret tt
  | Some _ =>
      let* result := fetchone (select_settings guild_id) in
      match result with
      | Some row =>
          modify (set_bot (fun b =>
            set_role_xp_assignments
              (<[guild_id := s_role_xp_assignments row]> (role_xp_assignments b))
              (set_quest_channel_id (s_quest_channel_id row)
                 (set_quest_ping_role_id (s_quest_ping_role_id row) b))))
      | None => ret tt
      end
  end.

(** The invocation context of a prefix command. *)
Record Context : Set := mk_Context {
  ctx_guild_id : Z;
  ctx_channel_id : Z
}.

(** [ctx.guild.get_role(role_id)] *)
Definition get_role (guild_id role : Z) (w : World) : option Role :=
  match client w !! guild_id with
  | Some g => find (fun r => bool_decide (role_id r = role)) (guild_roles g)
  | None => None
  end.

(** [bot.get_channel(channel_id)]: a channel of any cached guild. *)
Definition get_channel (channel : Z) (w : World) : option Channel :=
  find (fun c => bool_decide (channel_id c = channel))
    (concat (map (fun g => guild_text_channels g.2) (map_to_list (client w)))).

Record User : Set := mk_User {
  usr_id : Z;
  usr_bot : bool
}.

Record Reaction : Set := mk_Reaction {
  reaction_emoji : string;
  reaction_message_id : Z;
  reaction_guild_id : Z;
  reaction_channel_id : Z
}.

(** A member as an event hands it over: [member.id], [member.guild.id],
    [member.roles]. *)
Record Member : Set := mk_Member {
  mem_id : Z;
  mem_guild_id : Z;
  mem_roles : list Role
}.

Section Handlers.
Context `{Discord}.

(** [-questping <role_id>] *)
Definition set_quest_ping (ctx : Context) (role : Z) : M unit :=
  let* found := gets (get_role (ctx_guild_id ctx) role) in
  match found with
  | Some _ =>
      do* modify (set_bot (set_quest_ping_role_id (Some role))) in
      do* save_settings (ctx_guild_id ctx) in
      await (send (ctx_channel_id ctx))
  | None => await (send (ctx_channel_id ctx))
  end.

(** [-questchannel <channel_id>] *)
Definition set_quest_channel (ctx : Context) (channel : Z) : M unit :=
  let* found := gets (get_channel channel) in
  match found with
  | Some _ =>
      do* modify (set_bot (set_quest_channel_id (Some channel))) in
      do* save_settings (ctx_guild_id ctx) in
      await (send (ctx_channel_id ctx))
  | None => await (send (ctx_channel_id ctx))
  end.

(** [-assignroleXP <role> <xp_amount>]; the key is [str(role.id)]. *)
Definition assign_role_xp (ctx : Context) (role : Role) (xp_amount : Z) : M unit :=
  let guild_id := ctx_guild_id ctx in
  do* modify (set_bot (fun b =>
        match role_xp_assignments b !! guild_id with
        | None => set_role_xp_assignments (<[guild_id := ∅]> (role_xp_assignments b)) b
        | Some _ => b
        end)) in
  do* modify (set_bot (fun b =>
        set_role_xp_assignments
          (<[guild_id :=
               <[pretty (role_id role) := xp_amount]>
                 (default ∅ (role_xp_assignments b !! guild_id))]>
             (role_xp_assignments b)) b)) in
  do* save_settings guild_id in
  await (send (ctx_channel_id ctx)).

(** ** Staff commands *)

(** [-addXP <member> <amount>] *)
Definition add_xp (rev : revision) (ctx : Context) (member amount : Z) : M unit :=
  let* _ := update_user_xp rev member (ctx_guild_id ctx) amount in
  await (send (ctx_channel_id ctx)).

(** [-removeXP <member> <amount>] *)
Definition remove_xp (rev : revision) (ctx : Context) (member amount : Z)
  : M unit :=
  let* _ := update_user_xp rev member (ctx_guild_id ctx) (- amount) in
  await (send (ctx_channel_id ctx)).

(** ** Quest completion *)

(** U+2705, the emoji of a completed quest. *)
Definition WHITE_HEAVY_CHECK_MARK : string := "✅".

(** The literal [on_reaction_add] compares [str(reaction.emoji)] with:
    U+2705 in [bot 4.py]; in [main.py] the three characters U+201A U+00FA
    U+00D6. *)
Definition CHECK_MARK (rev : revision) : string :=
  match rev with
  | MainPy => "‚úÖ"
  | Bot4Py => WHITE_HEAVY_CHECK_MARK
  end.

Definition on_reaction_add (rev : revision) (reaction : Reaction) (user : User)
  : M unit :=
  if usr_bot user then ret tt
  else if bool_decide (reaction_emoji reaction = CHECK_MARK rev) then
    let* conn := gets (fun w => db_connection (bot w)) in
    match conn with
    | None => ret tt
    | Some _ =>
        let* quest_data := fetchone (select_quest (reaction_message_id reaction)) in
        match quest_data with
        | Some (title, completed_users) =>
            if bool_decide (usr_id user ∉ completed_users) then
              (* Award 50 XP for quest completion *)
              let* _ := update_user_xp rev (usr_id user)
                          (reaction_guild_id reaction) 50 in
              let completed_users := completed_users ++ [usr_id user] in
              do* execute (update_quest completed_users
                             (reaction_message_id reaction)) in
              await (send (reaction_channel_id reaction))
            else ret tt
        | None => ret tt
        end
    end
  else ret tt.

(** ** Role grants *)

(** [new_roles = set(after.roles) - set(before.roles)], as the loop over
    it meets the roles. *)
Definition new_roles (before after : Member) : list Role :=
  set_order (mem_roles before) (mem_roles after).

(** [after.guild.text_channels] *)
Definition text_channels (guild_id : Z) (w : World) : list Channel :=
  match client w !! guild_id with
  | Some g => guild_text_channels g
  | None => []
  end.

Definition on_member_update (rev : revision) (before after : Member) : M unit :=
  let guild_id := mem_guild_id after in
  let* assignments := gets (fun w => role_xp_assignments (bot w)) in
  match assignments !! guild_id with
  | None => ret tt
  | Some role_assignments =>
      (* Check for new roles added *)
      for_each (new_roles before after) (fun role =>
        match role_assignments !! pretty (role_id role) with
        | Some xp_reward =>
            let* _ := update_user_xp rev (mem_id after) guild_id xp_reward in
            (* Try to send to general channel or first available channel *)
            let* channels := gets (text_channels guild_id) in
            match find (fun c => channel_can_send c) channels with
            | Some c => await (send (channel_id c))
            | None => ret tt
            end
        | None => ret tt
        end)
  end.

(** ** Level roles ([bot 4.py]) *)

(** [f"Level {level}"] *)
Definition level_role_name (level : Z) : string := "Level " +:+ pretty level.

(** [discord.utils.get(roles, name=name)] *)
Definition utils_get (roles : list Role) (name : string) : option Role :=
  find (fun r => bool_decide (role_name r = name)) roles.

(** [guild.roles] *)
Definition roles_of (guild_id : Z) (w : World) : list Role :=
  match client w !! guild_id with
  | Some g => guild_roles g
  | None => []
  end.

Definition create_level_roles (guild_id : Z) : M unit :=
  try_except
    (for_each range_1_11 (fun level =>
       let role_name := level_role_name level in
       (* Check if role already exists *)
       let* roles := gets (roles_of guild_id) in
       match utils_get roles role_name with
       | None => await (create_role guild_id role_name)
       | Some _ => ret tt
       end))
    (fun _ => ret tt).

Definition update_user_level_role (user_id guild_id old_level new_level : Z)
  : M unit :=
  try_except
    (let* guild := gets (fun w => client w !! guild_id) in
     match guild with
     | None => ret tt
     | Some g =>
         match guild_members g !! user_id with
         | None => ret tt
         | Some member_roles =>
             (* Remove old level role if it exists *)
             let old_role_name := level_role_name old_level in
             do* match utils_get (guild_roles g) old_role_name with
                 | Some old_role =>
                     if role_in old_role member_roles
                     then await (remove_roles guild_id user_id old_role)
                     else ret tt
                 | None => ret tt
                 end in
             (* Add new level role *)
             let new_role_name := level_role_name new_level in
             let* roles := gets (roles_of guild_id) in
             match utils_get roles new_role_name with
             | Some new_role => await (add_roles guild_id user_id new_role)
             | None =>
                 (* Create the role if it doesn't exist *)
                 do* create_level_roles guild_id in
                 let* roles := gets (roles_of guild_id) in
                 match utils_get roles new_role_name with
                 | Some new_role => await (add_roles guild_id user_id new_role)
                 | None => ret tt
                 end
             end
         end
     end)
    (fun _ => ret tt).

(** The event loop runs a task created by [update_user_xp]. *)
Definition run_task (t : level_role_task) : M unit :=
  update_user_level_role (t_user_id t) (t_guild_id t) (t_old_level t)
    (t_new_level t).

End Handlers.

(** ** Strings

    A [str] is kept as its UTF-8 bytes.  A test for an ASCII word sees the
    same in the bytes as in the characters. *)

(** [s.startswith(p)] *)
Definition startswith (p s : string) : bool := String.prefix p s.

(** [sub in s] *)
Fixpoint str_contains (sub s : string) : bool :=
  String.prefix sub s ||
  match s with
  | EmptyString => false
  | String _ rest => str_contains sub rest
  end.

Definition ascii_lower (c : ascii) : ascii :=
  let n := N_of_ascii c in
  if ((65 <=? n) && (n <=? 90))%N then ascii_of_N (n + 32) else c.

(** [s.lower()], as far as ASCII shows: the letters A-Z, and the two other
    characters whose lower case has an ASCII letter, U+212A (KELVIN SIGN,
    to k) and U+0130 (to i followed by U+0307).  Any other character is
    left as it is: its lower case has no ASCII letter. *)
Fixpoint str_lower (s : string) : string :=
  match s with
  | EmptyString => EmptyString
  | String "226" (String "132" (String "170" rest)) =>
      String "k" (str_lower rest)
  | String "196" (String "176" rest) =>
      String "i" (String "204" (String "135" (str_lower rest)))
  | String c rest => String (ascii_lower c) (str_lower rest)
  end.

(** [s.split(sep)] for a non-empty [sep]: [skip] counts the characters of a
    separator just matched that are still to be passed over. *)
Fixpoint split_go (sep : string) (skip : nat) (cur : string) (s : string)
  : list string :=
  match s with
  | EmptyString => [cur]
  | String c rest =>
      match skip with
      | S k => split_go sep k cur rest
      | O =>
          if String.prefix sep s
          then cur :: split_go sep (String.length sep - 1) EmptyString rest
          else split_go sep 0 (cur +:+ String c EmptyString) rest
      end
  end.

Definition str_split (sep s : string) : list string := split_go sep 0 EmptyString s.

(** The white space [int] skips around the digits: tab to carriage return,
    and the space. *)
Definition is_space (c : ascii) : bool :=
  let n := N_of_ascii c in
  (((9 <=? n) && (n <=? 13)) || (n =? 32))%N.

Definition is_digit (c : ascii) : bool :=
  let n := N_of_ascii c in ((48 <=? n) && (n <=? 57))%N.

Definition digit_value (c : ascii) : Z := Z.of_N (N_of_ascii c) - 48.

Fixpoint lstrip (s : string) : string :=
  match s with
  | EmptyString => EmptyString
  | String c rest => if is_space c then lstrip rest else s
  end.

(** [s.strip()] *)
Definition str_strip (s : string) : string :=
  String.rev (lstrip (String.rev (lstrip s))).

(** Decimal digits, single underscores allowed between two digits. *)
Fixpoint parse_digits (s : string) (acc : Z) (after_digit : bool) : option Z :=
  match s with
  | EmptyString => if after_digit then Some acc else None
  | String c rest =>
      if is_digit c then parse_digits rest (10 * acc + digit_value c) true
      else if bool_decide (c = "_"%char) && after_digit
           then parse_digits rest acc false
           else None
  end.

(** [int(s)] on ASCII text: surrounding white space, an optional sign,
    decimal digits; anything else is a [ValueError].  (The digits and
    spaces beyond ASCII that [int] also reads are not covered: the names
    the bot writes, "Level 1" to "Level 10", are ASCII.) *)
Definition py_int (s : string) : result Z :=
  let body := str_strip s in
  let parsed :=
    match body with
    | String "-"%char rest => Z.opp <$> parse_digits rest 0 false
    | String "+"%char rest => parse_digits rest 0 false
    | _ => parse_digits body 0 false
    end in
  match parsed with
  | Some n => Ok n
  | None => Raise ValueError
  end.

(** ** The total-XP aggregator ([bot 4.py]) *)

(** The first loop over [member.roles]: the bare [except] turns a failing
    [int] or index into [continue]. *)
Definition level_role_step (level_role_xp : Z) (role : Role) : Z :=
  if startswith "Level " (role_name role) then
    match str_split "Level " (role_name role) !! 1%nat with
    | None => level_role_xp                       (* IndexError *)
    | Some text =>
        match py_int text with
        | Raise _ => level_role_xp                (* ValueError *)
        | Ok level_num =>
            if (1 <=? level_num) && (level_num <=? 10)
            then Z.max level_role_xp (default 0 (LEVEL_THRESHOLDS !! level_num))
            else level_role_xp
        end
    end
  else level_role_xp.

Definition level_role_xp_of (roles : list Role) : Z :=
  fold_left level_role_step roles 0.

(** The second loop: [custom_role_xp += role_assignments[str(role.id)]]. *)
Definition custom_role_step (role_assignments : gmap string Z)
  (custom_role_xp : Z) (role : Role) : Z :=
  match role_assignments !! pretty (role_id role) with
  | Some amount => custom_role_xp + amount
  | None => custom_role_xp
  end.

Definition custom_role_xp_of (assignments : gmap Z (gmap string Z))
  (guild_id : Z) (roles : list Role) : Z :=
  match assignments !! guild_id with
  | Some role_assignments => fold_left (custom_role_step role_assignments) roles 0
  | None => 0
  end.

(** The third loop: [if "badge" in name: += 5  elif "streak" in name: += 5]. *)
Definition auto_role_step (auto_role_xp : Z) (role : Role) : Z :=
  let role_name_lower := str_lower (role_name role) in
  if str_contains "badge" role_name_lower then auto_role_xp + 5
  else if str_contains "streak" role_name_lower then auto_role_xp + 5
  else auto_role_xp.

Definition auto_role_xp_of (roles : list Role) : Z :=
  fold_left auto_role_step roles 0.

Definition calculate_total_user_xp (user_id guild_id : Z) : M Z :=
  try_except
    (let* guild := gets (fun w => client w !! guild_id) in
     match guild with
     | None =>
         (* Fall back to database XP if guild not found *)
         let* user_data := get_user_data user_id guild_id in
         ret (xp user_data)
     | Some g =>
         match guild_members g !! user_id with
         | None =>
             (* Fall back to database XP if member not found *)
             let* user_data := get_user_data user_id guild_id in
             ret (xp user_data)
         | Some member_roles =>
             let* user_data := get_user_data user_id guild_id in
             let base_xp := xp user_data in
             let level_role_xp := level_role_xp_of member_roles in
             let* assignments := gets (fun w => role_xp_assignments (bot w)) in
             let custom_role_xp :=
               custom_role_xp_of assignments guild_id member_roles in
             let auto_role_xp := auto_role_xp_of member_roles in
             let total_xp :=
               Z.max base_xp (level_role_xp + custom_role_xp + auto_role_xp) in
             ret total_xp
         end
     end)
    (fun _ =>
       (* Fall back to database XP *)
       let* user_data := get_user_data user_id guild_id in
       ret (xp user_data)).

(** What [calculate_total_user_xp] returns when the ledger read yields
    [base_xp]. *)
Definition total_xp_of (w : World) (user_id guild_id base_xp : Z) : Z :=
  match client w !! guild_id with
  | Some g =>
      match guild_members g !! user_id with
      | Some member_roles =>
          Z.max base_xp
            (level_role_xp_of member_roles
             + custom_role_xp_of (role_xp_assignments (bot w)) guild_id member_roles
             + auto_role_xp_of member_roles)
      | None => base_xp
      end
  | None => base_xp
  end.

(** ** Quest creation and removal

    Of [add_quest] and [remove_quest] the stored effect is kept: the guarded
    [INSERT] once the announcement has been sent, the guarded [DELETE]. *)

Definition add_quest_record (message_id guild_id channel_id : Z)
  (title content : string) : M unit :=
  let* conn := gets (fun w => db_connection (bot w)) in
  match conn with
  | None => ret tt
  | Some _ => execute (insert_quest message_id guild_id channel_id title content)
  end.

Definition remove_quest_record (message_id : Z) : M unit :=
  let* conn := gets (fun w => db_connection (bot w)) in
  match conn with
  | None => ret tt
  | Some _ => execute (delete_quest message_id)
  end.

(** ** What is read back from the store *)

(** The row of [users] for the pair, if there is one. *)
Definition stored_record (user_id guild_id : Z) (w : World) : option (Z * Z) :=
  match db_connection (bot w) with
  | Some db => select_user user_id guild_id db
  | None => None
  end.

Definition stored_xp (user_id guild_id : Z) (w : World) : option Z :=
  fst <$> stored_record user_id guild_id w.

(** The [users] table, and the world with the table replaced. *)
Definition ledger (w : World) : gmap Z user_row :=
  match db_connection (bot w) with
  | Some db => users db
  | None => ∅
  end.

Definition set_ledger (us : gmap Z user_row) (w : World) : World :=
  set_bot (fun b =>
    match db_connection b with
    | Some db => set_db_connection (Some (set_users us db)) b
    | None => b
    end) w.

(** The task [update_user_xp] of [bot 4.py] creates when the level moves. *)
Definition level_tasks (rev : revision) (user_id guild_id old_level new_level : Z)
  : list level_role_task :=
  match rev with
  | MainPy => []
  | Bot4Py =>
      if bool_decide (old_level ≠ new_level)
      then [mk_level_role_task user_id guild_id old_level new_level]
      else []
  end.

(** [completed_users] of a quest, if the quest is stored. *)
Definition completed_members (message_id : Z) (w : World) : option (list Z) :=
  match db_connection (bot w) with
  | Some db => snd <$> select_quest message_id db
  | None => None
  end.

(** The row of [settings] for a guild. *)
Definition stored_settings (guild_id : Z) (w : World) : option settings_row :=
  match db_connection (bot w) with
  | Some db => select_settings guild_id db
  | None => None
  end.

(** The settings a handler running for [guild_id] reads from memory: the
    two scalar attributes and the guild's entry of [role_xp_assignments]. *)
Definition cached_settings (guild_id : Z) (w : World) : settings_row :=
  mk_settings_row (quest_ping_role_id (bot w)) (quest_channel_id (bot w))
    (default ∅ (role_xp_assignments (bot w) !! guild_id)).

Global Instance exn_eq_dec : EqDecision exn.
Proof. solve_decision. Defined.

Global Instance result_eq_dec {A} `{EqDecision A} : EqDecision (result A).
Proof. solve_decision. Defined.

(** The ledger invariant: the stored level is the level of the stored xp. *)
Definition row_ok (r : user_row) : Prop :=
  calculate_level (u_xp r) = Ok (u_level r).

Definition ledger_inv (w : World) : Prop :=
  map_Forall (fun _ r => row_ok r) (ledger w).

(** ** The operations of the bot, as the event loop runs them *)

Section Loop.
Context `{Discord}.

(** The event loop runs the oldest task created by [create_task]. *)
Definition run_next_task : M unit :=
  fun w =>
    match loop_tasks w with
    | [] => (Ok tt, w)
    | t :: ts => run_task t (set_loop_tasks ts w)
    end.

Inductive command : Type :=
  | CGetUserData (user_id guild_id : Z)
  | CUpdateUserXp (user_id guild_id xp_change : Z)
  | CTotalUserXp (user_id guild_id : Z)
  | CSaveSettings (guild_id : Z)
  | CLoadSettings (guild_id : Z)
  | CSetQuestPing (ctx : Context) (role : Z)
  | CSetQuestChannel (ctx : Context) (channel : Z)
  | CAssignRoleXp (ctx : Context) (role : Role) (xp_amount : Z)
  | CAddXp (ctx : Context) (member amount : Z)
  | CRemoveXp (ctx : Context) (member amount : Z)
  | CReactionAdd (reaction : Reaction) (user : User)
  | CMemberUpdate (before after : Member)
  | CAddQuest (message_id guild_id channel_id : Z) (title content : string)
  | CRemoveQuest (message_id : Z)
  | CCreateLevelRoles (guild_id : Z)
  | CRunNextTask.

Definition discard {A} (m : M A) : M unit := let* _ := m in ret tt.

Definition exec (rev : revision) (c : command) : M unit :=
  match c with
  | CGetUserData u g => discard (get_user_data u g)
  | CUpdateUserXp u g d => discard (update_user_xp rev u g d)
  | CTotalUserXp u g => discard (calculate_total_user_xp u g)
  | CSaveSettings g => save_settings g
  | CLoadSettings g => load_settings g
  | CSetQuestPing ctx r => set_quest_ping ctx r
  | CSetQuestChannel ctx c => set_quest_channel ctx c
  | CAssignRoleXp ctx r a => assign_role_xp ctx r a
  | CAddXp ctx m a => add_xp rev ctx m a
  | CRemoveXp ctx m a => remove_xp rev ctx m a
  | CReactionAdd r u => on_reaction_add rev r u
  | CMemberUpdate b a => on_member_update rev b a
  | CAddQuest m g c t s => add_quest_record m g c t s
  | CRemoveQuest m => remove_quest_record m
  | CCreateLevelRoles g => create_level_roles g
  | CRunNextTask => run_next_task
  end.

(** A run: each operation acts on the state the previous one left, whether
    it returned or raised. *)
Definition exec_all (rev : revision) (cs : list command) (w : World) : World :=
  fold_left (fun w c => (exec rev c w).2) cs w.

End Loop.

(** ** Handlers as coroutines

    The handlers are coroutines on one event loop.  A coroutine runs until
    it reaches an [await]; there it is suspended, and the loop may run any
    other coroutine before it resumes.  The statements between two awaits,
    and every call of a plain [def] among them, run in one piece.

    A coroutine is kept as the tree of its steps, each with the rest of the
    coroutine for either outcome of the step. *)

(** A call [quest_bot.update_user_xp(user_id, guild_id, xp_change)]. *)
Record adjust_call : Set := mk_adjust_call {
  call_user : Z;
  call_guild : Z;
  call_delta : Z
}.

Inductive Co (A : Type) : Type :=
  | CoRet (r : result A)
      (* the coroutine returns, or an exception leaves it *)
  | CoSync {B : Type} (m : M B) (k : result B -> Co A)
      (* statements without [await] *)
  | CoUpdateUserXp (call : adjust_call) (k : result (Z * Z) -> Co A)
      (* [quest_bot.update_user_xp(...)]: the call of a plain [def] *)
  | CoAwait (call : gmap Z Guild -> result unit * gmap Z Guild)
      (k : result unit -> Co A).
      (* [await call]: the suspension point *)
Arguments CoRet {A} r.
Arguments CoSync {A B} m k.
Arguments CoUpdateUserXp {A} call k.
Arguments CoAwait {A} call k.

Definition co_ret {A} (a : A) : Co A := CoRet (Ok a).

Fixpoint co_bind {A B} (c : Co A) (f : A -> Co B) : Co B :=
  match c with
  | CoRet (Ok a) => f a
  | CoRet (Raise e) => CoRet (Raise e)
  | CoSync m k => CoSync m (fun r => co_bind (k r) f)
  | CoUpdateUserXp call k => CoUpdateUserXp call (fun r => co_bind (k r) f)
  | CoAwait call k => CoAwait call (fun r => co_bind (k r) f)
  end.

Notation "'let@' x ':=' c 'in' k" := (co_bind c (fun x => k))
  (at level 10, x pattern, c at level 100, k at level 200).
Notation "'do@' c 'in' k" := (co_bind c (fun _ => k))
  (at level 10, c at level 100, k at level 200).

(** [try: body  except Exception: handler] *)
Fixpoint co_try {A} (body : Co A) (handler : exn -> Co A) : Co A :=
  match body with
  | CoRet (Ok a) => CoRet (Ok a)
  | CoRet (Raise e) => handler e
  | CoSync m k => CoSync m (fun r => co_try (k r) handler)
  | CoUpdateUserXp call k => CoUpdateUserXp call (fun r => co_try (k r) handler)
  | CoAwait call k => CoAwait call (fun r => co_try (k r) handler)
  end.

Definition co_sync {B} (m : M B) : Co B := CoSync m CoRet.

Definition co_update_user_xp (user_id guild_id xp_change : Z) : Co (Z * Z) :=
  CoUpdateUserXp (mk_adjust_call user_id guild_id xp_change) CoRet.

Definition co_await (call : gmap Z Guild -> result unit * gmap Z Guild)
  : Co unit :=
  CoAwait call CoRet.

Fixpoint co_for_each {A} (l : list A) (body : A -> Co unit) : Co unit :=
  match l with
  | [] => co_ret tt
  | x :: rest => do@ body x in co_for_each rest body
  end.

(** A coroutine run with nothing else in between: every step at once. *)
Fixpoint run_alone {A} (rev : revision) (c : Co A) (w : World)
  : result A * World :=
  match c with
  | CoRet r => (r, w)
  | CoSync m k => let '(r, w') := m w in run_alone rev (k r) w'
  | CoUpdateUserXp call k =>
      let '(r, w') :=
        update_user_xp rev (call_user call) (call_guild call) (call_delta call) w in
      run_alone rev (k r) w'
  | CoAwait call k =>
      let '(r, c') := call (client w) in run_alone rev (k r) (set_client c' w)
  end.

(** Run alone, the coroutine [c] is the computation [m]. *)
Definition agrees {A} (rev : revision) (c : Co A) (m : M A) : Prop :=
  forall w, run_alone rev c w = m w.

(** The handlers that adjust XP, and the level-role task, with their
    awaits as suspension points. *)
Module Async.
Section Handlers.
Context `{Discord}.

(** [-addXP <member> <amount>] *)
Definition add_xp (ctx : Context) (member amount : Z) : Co unit :=
  let@ _ := co_update_user_xp member (ctx_guild_id ctx) amount in
  co_await (send (ctx_channel_id ctx)).

(** [-removeXP <member> <amount>] *)
Definition remove_xp (ctx : Context) (member amount : Z) : Co unit :=
  let@ _ := co_update_user_xp member (ctx_guild_id ctx) (- amount) in
  co_await (send (ctx_channel_id ctx)).

Definition on_reaction_add (rev : revision) (reaction : Reaction) (user : User)
  : Co unit :=
  if usr_bot user then co_ret tt
  else if bool_decide (reaction_emoji reaction = CHECK_MARK rev) then
    let@ conn := co_sync (gets (fun w => db_connection (bot w))) in
    match conn with
    | None => co_ret tt
    | Some _ =>
        let@ quest_data :=
          co_sync (fetchone (select_quest (reaction_message_id reaction))) in
        match quest_data with
        | Some (title, completed_users) =>
            if bool_decide (usr_id user ∉ completed_users) then
              (* Award 50 XP for quest completion *)
              let@ _ := co_update_user_xp (usr_id user)
                          (reaction_guild_id reaction) 50 in
              let completed_users := completed_users ++ [usr_id user] in
              do@ co_sync (execute (update_quest completed_users
                                      (reaction_message_id reaction))) in
              co_await (send (reaction_channel_id reaction))
            else co_ret tt
        | None => co_ret tt
        end
    end
  else co_ret tt.

(** [role_assignments] is the dictionary of the guild found at the start;
    none of the handlers here writes to [role_xp_assignments]. *)
Definition on_member_update (before after : Member) : Co unit :=
  let guild_id := mem_guild_id after in
  let@ assignments := co_sync (gets (fun w => role_xp_assignments (bot w))) in
  match assignments !! guild_id with
  | None => co_ret tt
  | Some role_assignments =>
      (* Check for new roles added *)
      co_for_each (new_roles before after) (fun role =>
        match role_assignments !! pretty (role_id role) with
        | Some xp_reward =>
            let@ _ := co_update_user_xp (mem_id after) guild_id xp_reward in
            (* Try to send to general channel or first available channel *)
            let@ channels := co_sync (gets (text_channels guild_id)) in
            match find (fun c => channel_can_send c) channels with
            | Some c => co_await (send (channel_id c))
            | None => co_ret tt
            end
        | None => co_ret tt
        end)
  end.

Definition create_level_roles (guild_id : Z) : Co unit :=
  co_try
    (co_for_each range_1_11 (fun level =>
       let role_name := level_role_name level in
       (* Check if role already exists *)
       let@ roles := co_sync (gets (roles_of guild_id)) in
       match utils_get roles role_name with
       | None => co_await (create_role guild_id role_name)
       | Some _ => co_ret tt
       end))
    (fun _ => co_ret tt).

Definition update_user_level_role (user_id guild_id old_level new_level : Z)
  : Co unit :=
  co_try
    (let@ guild := co_sync (gets (fun w => client w !! guild_id)) in
     match guild with
     | None => co_ret tt
     | Some g =>
         match guild_members g !! user_id with
         | None => co_ret tt
         | Some member_roles =>
             (* Remove old level role if it exists *)
             let old_role_name := level_role_name old_level in
             do@ match utils_get (guild_roles g) old_role_name with
                 | Some old_role =>
                     if role_in old_role member_roles
                     then co_await (remove_roles guild_id user_id old_role)
                     else co_ret tt
                 | None => co_ret tt
                 end in
             (* Add new level role *)
             let new_role_name := level_role_name new_level in
             let@ roles := co_sync (gets (roles_of guild_id)) in
             match utils_get roles new_role_name with
             | Some new_role => co_await (add_roles guild_id user_id new_role)
             | None =>
                 (* Create the role if it doesn't exist *)
                 do@ create_level_roles guild_id in
                 let@ roles := co_sync (gets (roles_of guild_id)) in
                 match utils_get roles new_role_name with
                 | Some new_role =>
                     co_await (add_roles guild_id user_id new_role)
                 | None => co_ret tt
                 end
             end
         end
     end)
    (fun _ => co_ret tt).

(** The coroutine of a task created by [update_user_xp]. *)
Definition run_task (t : level_role_task) : Co unit :=
  update_user_level_role (t_user_id t) (t_guild_id t) (t_old_level t)
    (t_new_level t).

End Handlers.
End Async.

(** *** The event loop *)

(** An event that starts a handler adjusting XP. *)
Inductive handler : Set :=
  | OnReactionAdd (reaction : Reaction) (user : User)
  | OnMemberUpdate (before after : Member)
  | AddXp (ctx : Context) (member amount : Z)
  | RemoveXp (ctx : Context) (member amount : Z).

(** The member and the guild a handler adjusts. *)
Definition handler_user (h : handler) : Z :=
  match h with
  | OnReactionAdd _ user => usr_id user
  | OnMemberUpdate _ after => mem_id after
  | AddXp _ member _ => member
  | RemoveXp _ member _ => member
  end.

Definition handler_guild (h : handler) : Z :=
  match h with
  | OnReactionAdd reaction _ => reaction_guild_id reaction
  | OnMemberUpdate _ after => mem_guild_id after
  | AddXp ctx _ _ => ctx_guild_id ctx
  | RemoveXp ctx _ _ => ctx_guild_id ctx
  end.

(** One turn of the loop: resume coroutine [i] up to its next suspension
    point, or start the oldest task created by [create_task]. *)
Inductive turn : Set :=
  | Resume (i : nat)
  | Spawn.

(** The loop state: the coroutines (each as what is left of it), the world,
    and the calls of [update_user_xp] made so far, oldest first, each with
    the index of the coroutine that made it. *)
Definition loop_state : Type :=
  list (Co unit) * World * list (nat * adjust_call).

Section EventLoop.
Context `{Discord}.

Definition start (rev : revision) (h : handler) : Co unit :=
  match h with
  | OnReactionAdd reaction user => Async.on_reaction_add rev reaction user
  | OnMemberUpdate before after => Async.on_member_update before after
  | AddXp ctx member amount => Async.add_xp ctx member amount
  | RemoveXp ctx member amount => Async.remove_xp ctx member amount
  end.

(** Coroutine [i] runs from where it stands: synchronous steps follow one
    another at once; at an [await] the call is made and the coroutine is
    left suspended, to continue from the outcome. *)
Fixpoint resume (rev : revision) (i : nat) (c : Co unit) (w : World)
  (log : list (nat * adjust_call))
  : Co unit * World * list (nat * adjust_call) :=
  match c with
  | CoRet r => (CoRet r, w, log)
  | CoSync m k => let '(r, w') := m w in resume rev i (k r) w' log
  | CoUpdateUserXp call k =>
      let '(r, w') :=
        update_user_xp rev (call_user call) (call_guild call) (call_delta call) w in
      resume rev i (k r) w' (log ++ [(i, call)])
  | CoAwait call k =>
      let '(r, c') := call (client w) in (k r, set_client c' w, log)
  end.

Definition loop_step (rev : revision) (st : loop_state) (t : turn) : loop_state :=
  let '(pool, w, log) := st in
  match t with
  | Resume i =>
      match pool !! i with
      | Some c =>
          let '(c', w', log') := resume rev i c w log in
          (<[i := c']> pool, w', log')
      | None => st
      end
  | Spawn =>
      match loop_tasks w with
      | [] => st
      | t :: ts => (pool ++ [Async.run_task t], set_loop_tasks ts w, log)
      end
  end.

Definition run_loop (rev : revision) (sched : list turn) (st : loop_state)
  : loop_state :=
  fold_left (loop_step rev) sched st.

End EventLoop.

(** The XP assigned to the roles of a list, in [role_assignments]. *)
Definition role_rewards (role_assignments : gmap string Z) (roles : list Role)
  : list Z :=
  omap (fun role => role_assignments !! pretty (role_id role)) roles.

(** Two worlds with the same [users] table, both connected or both not. *)
Definition same_ledger (w1 w2 : World) : Prop :=
  (is_Some (db_connection (bot w1)) <-> is_Some (db_connection (bot w2)))
  /\ ledger w1 = ledger w2.

(** The deltas of the calls against one pair, in the order of the list. *)
Definition delta_for (user_id guild_id : Z) (c : adjust_call) : option Z :=
  if bool_decide (call_user c = user_id /\ call_guild c = guild_id)
  then Some (call_delta c) else None.

Definition deltas_for (user_id guild_id : Z) (calls : list adjust_call) : list Z :=
  omap (delta_for user_id guild_id) calls.

(** One delta applied to an xp value. *)
Definition clamp_add (x delta : Z) : Z := Z.max 0 (x + delta).

(** One delta as the store takes it: a new xp beyond the range of the
    column is refused, and the xp stays. *)
Definition apply_delta (x delta : Z) : Z :=
  if bool_decide (clamp_add x delta <= INT64_MAX) then clamp_add x delta else x.

(** The calls coroutine [i] has made, oldest first. *)
Definition calls_by (i : nat) (log : list (nat * adjust_call)) : list adjust_call :=
  omap (fun e : nat * adjust_call =>
          if bool_decide (e.1 = i) then Some e.2 else None) log.

(** [calls] are the calls of [update_user_xp] along one way through the
    coroutine, from where it stands to its end with [res]. *)
Fixpoint co_trace {A} (c : Co A) (calls : list adjust_call) (res : result A)
  : Prop :=
  match c with
  | CoRet r => calls = [] /\ res = r
  | CoSync m k => exists r, co_trace (k r) calls res
  | CoUpdateUserXp call k =>
      exists r rest, calls = call :: rest /\ co_trace (k r) rest res
  | CoAwait _ k => exists r, co_trace (k r) calls res
  end.

(** The calls a handler has made when it has come to its end: a staff
    command its one call; a reaction none, or the award of 50; a role
    update calls for the member in the guild, no more than roles gained. *)
Definition issued_by (h : handler) (calls : list adjust_call) : Prop :=
  match h with
  | AddXp ctx member amount =>
      calls = [mk_adjust_call member (ctx_guild_id ctx) amount]
  | RemoveXp ctx member amount =>
      calls = [mk_adjust_call member (ctx_guild_id ctx) (- amount)]
  | OnReactionAdd reaction user =>
      calls = []
      \/ calls = [mk_adjust_call (usr_id user) (reaction_guild_id reaction) 50]
  | OnMemberUpdate before after =>
      Forall (fun call => call_user call = mem_id after
                          /\ call_guild call = mem_guild_id after) calls
      /\ (length calls
          <= length (gained_roles (mem_roles before) (mem_roles after)))%nat
  end.

(** ** A platform for the examples: every call succeeds, the cache stays. *)
Definition quiet_discord : Discord :=
  {| send := fun _ c => (Ok tt, c);
     remove_roles := fun _ _ _ c => (Ok tt, c);
     add_roles := fun _ _ _ c => (Ok tt, c);
     create_role := fun _ _ c => (Ok tt, c);
     set_order := gained_roles;
     set_order_elements := fun _ _ => Permutation_refl _ |}.

(** A platform on which every call is refused. *)
Definition forbidding_discord : Discord :=
  {| send := fun _ c => (Raise Forbidden, c);
     remove_roles := fun _ _ _ c => (Raise Forbidden, c);
     add_roles := fun _ _ _ c => (Raise Forbidden, c);
     create_role := fun _ _ c => (Raise Forbidden, c);
     set_order := gained_roles;
     set_order_elements := fun _ _ => Permutation_refl _ |}.

(** A platform on which every call succeeds and a set of roles is met in
    the reverse of the order of [member.roles]. *)
Definition reversing_discord : Discord :=
  {| send := fun _ c => (Ok tt, c);
     remove_roles := fun _ _ _ c => (Ok tt, c);
     add_roles := fun _ _ _ c => (Ok tt, c);
     create_role := fun _ _ c => (Ok tt, c);
     set_order := fun before after => reverse (gained_roles before after);
     set_order_elements := fun _ _ => reverse_Permutation _ |}.

(** ** The aggregator's automatic share, in the words of the specification *)

Definition is_badge (r : Role) : bool :=
  str_contains "badge" (str_lower (role_name r)).

Definition is_streak (r : Role) : bool :=
  str_contains "streak" (str_lower (role_name r)).

(** 5 x (roles containing "badge") + 5 x (roles containing "streak") *)
Definition auto_role_xp_spec (roles : list Role) : Z :=
  5 * Z.of_nat (length (List.filter is_badge roles))
  + 5 * Z.of_nat (length (List.filter is_streak roles)).

(** ** Statements about computations *)

(** [m] keeps [P], whether it returns or raises. *)
Definition preserves {A} (P : World -> Prop) (m : M A) : Prop :=
  forall w, P w -> P (m w).2.

(** The stored row of [guild_id] and its entry of [role_xp_assignments] are
    [row] and [assigned]. *)
Definition settings_kept (guild_id : Z) (row : option settings_row)
  (assigned : option (gmap string Z)) (w : World) : Prop :=
  stored_settings guild_id w = row
  /\ role_xp_assignments (bot w) !! guild_id = assigned.

(** The [quest_bot] object and the created tasks are [b] and [ts]. *)
Definition bot_kept (b : QuestBot) (ts : list level_role_task) (w : World) : Prop :=
  bot w = b /\ loop_tasks w = ts.

(** Synchronous statements that leave the [users] table and the
    connection as they are. *)
Definition keeps_ledger {B} (m : M B) : Prop :=
  forall w, same_ledger (m w).2 w.

(** Along every way through the coroutine, the statements other than the
    calls of [update_user_xp] keep the ledger, and the calls satisfy [P]. *)
Fixpoint co_wf {A} (P : adjust_call -> Prop) (c : Co A) : Prop :=
  match c with
  | CoRet _ => True
  | CoSync m k => keeps_ledger m /\ forall r, co_wf P (k r)
  | CoUpdateUserXp call k => P call /\ forall r, co_wf P (k r)
  | CoAwait _ k => forall r, co_wf P (k r)
  end.

(** A call for member [m] is for guild [c]. *)
Definition on_pair (m c : Z) (call : adjust_call) : Prop :=
  call_user call = m -> call_guild call = c.

(** The bot is connected; member [m] has no record under another guild
    than [c]; the xp of the record ([0] without a record) is [x0] with
    [deltas] applied; there is a record once a delta was applied. *)
Definition pair_inv (m c x0 : Z) (deltas : list Z) (w : World) : Prop :=
  is_Some (db_connection (bot w))
  /\ (forall row, ledger w !! m = Some row -> u_guild_id row = c)
  /\ default 0 (u_xp <$> ledger w !! m) = fold_left apply_delta deltas x0
  /\ (deltas ≠ [] -> is_Some (ledger w !! m)).

Section LoopInvariant.
Context `{Discord}.

(** What every turn of the loop keeps, for the pair [(m, c)] whose xp
    started at [x0] and the handlers [hs] the pool started from: the store
    holds [x0] with the deltas of the calls made against the pair applied
    in the order of the calls; the coroutines write to the ledger through
    [update_user_xp] only, for member [m] in guild [c] only; and what each
    handler has called so far begins a way through its code. *)
Definition loop_inv (rev : revision) (m c x0 : Z) (hs : list handler)
  (st : loop_state) : Prop :=
  let '(pool, w, log) := st in
  pair_inv m c x0 (deltas_for m c (map snd log)) w
  /\ Forall (co_wf (on_pair m c)) pool
  /\ (forall i h,
        hs !! i = Some h ->
        exists co,
          pool !! i = Some co
          /\ forall calls res,
               co_trace co calls res ->
               co_trace (start rev h) (calls_by i log ++ calls) res).

(** For contrast, and not code of the bot: an adjustment that awaits
    between its read and its write. *)
Definition adjust_across_await (user_id guild_id xp_change : Z) : Co unit :=
  let@ current_data := co_sync (get_user_data user_id guild_id) in
  do@ co_await (send 0) in
  let new_xp := Z.max 0 (xp current_data + xp_change) in
  let@ new_level := co_sync (lift (calculate_level new_xp)) in
  co_sync (execute (update_user new_xp new_level user_id guild_id)).

End LoopInvariant.

(** ** Worlds for the examples *)

(** A fresh bot with one stored record. *)
Definition world_with_record (user_id guild_id x l : Z) : World :=
  set_ledger {[ user_id := mk_user_row guild_id x l ]} (init_world ∅).

(** A member with a record in guild 10, and a quest announced in guild 20
    (message 100, channel 5). *)
Definition world_two_guilds : World :=
  (add_quest_record 100 20 5 "quest" "text" (world_with_record 1 10 120 2)).2.

(** A reaction on that message with the emoji the revision tests for. *)
Definition completion_signal (rev : revision) : Reaction :=
  mk_Reaction (CHECK_MARK rev) 100 20 5.

(** The scenario of the aggregator: in guild 10, member 1 holds a custom
    role worth 30 XP and a role named "badge-collector"; nothing is stored
    for the member yet. *)
Definition scenario_roles : list Role :=
  [mk_Role 7 "vip"; mk_Role 8 "badge-collector"].

Definition scenario_world : World :=
  {| bot := set_role_xp_assignments {[ 10 := {[ pretty 7 := 30 ]} ]} init_bot;
     client := {[ 10 := mk_Guild scenario_roles [] {[ 1 := scenario_roles ]} ]};
     loop_tasks := [] |}.

(** Member 1 of guild 10 holds one role, named "badge-streak". *)
Definition both_words_world : World :=
  init_world
    {[ 10 := mk_Guild [mk_Role 9 "badge-streak"] []
               {[ 1 := [mk_Role 9 "badge-streak"] ]} ]}.

(** Two guilds: guild 1 with role 9 and channel 91, guild 2 with role 7
    and channel 92.  Guild 2 sets its ping role to 7, then guild 1 sets its
    own to 9, then guild 2 assigns 5 XP to role 7. *)
Definition two_guilds : gmap Z Guild :=
  {[ 1 := mk_Guild [mk_Role 9 "quests-a"] [mk_Channel 91 true] ∅;
     2 := mk_Guild [mk_Role 7 "quests-b"] [mk_Channel 92 true] ∅ ]}.

Definition ctx_a : Context := mk_Context 1 91.
Definition ctx_b : Context := mk_Context 2 92.

Definition settings_world_1 : World :=
  (@set_quest_ping quiet_discord ctx_b 7 (init_world two_guilds)).2.

Definition settings_world_2 : World :=
  (@set_quest_ping quiet_discord ctx_a 9 settings_world_1).2.

Definition settings_world_3 : World :=
  (@assign_role_xp quiet_discord ctx_b (mk_Role 7 "quests-b") 5
     settings_world_2).2.


(** Member 1 of guild 10 stands at 0 XP and holds the role "Level 1". *)
Definition level_up_world : World :=
  {| bot := bot (world_with_record 1 10 0 1);
     client := {[ 10 := mk_Guild [mk_Role 21 "Level 1"] []
                           {[ 1 := [mk_Role 21 "Level 1"] ]} ]};
     loop_tasks := [] |}.

(** ** The leaderboard *)

(** A query followed by [fetchall]. *)
Definition fetchall {A} (query : Database -> list A) : M (list A) :=
  fun w =>
    match db_connection (bot w) with
    | None => (Raise OtherException, w)
    | Some db => (Ok (query db), w)
    end.

(** A result row [(user_id, xp, level)]. *)
Definition board_user (r : Z * Z * Z) : Z := r.1.1.
Definition board_xp (r : Z * Z * Z) : Z := r.1.2.
Definition board_level (r : Z * Z * Z) : Z := r.2.

(** [SELECT user_id, xp, level FROM users WHERE guild_id = ?] *)
Definition guild_rows (guild_id : Z) (db : Database) : list (Z * Z * Z) :=
  omap (fun ur : Z * user_row =>
          if bool_decide (u_guild_id ur.2 = guild_id)
          then Some (ur.1, u_xp ur.2, u_level ur.2) else None)
       (map_to_list (users db)).

(** [ORDER BY xp DESC]: the order of two rows. *)
Definition by_xp_desc (a b : Z * Z * Z) : Prop := board_xp b <= board_xp a.

Global Instance by_xp_desc_dec a b : Decision (by_xp_desc a b).
Proof. unfold by_xp_desc. apply _. Defined.

(** [LIMIT ?]: a negative limit is no limit. *)
Definition sql_limit {A} (limit : Z) (rows : list A) : list A :=
  if limit <? 0 then rows else take (Z.to_nat limit) rows.

(** [SELECT user_id, xp, level FROM users WHERE guild_id = ? ORDER BY xp
    DESC LIMIT ?].  SQL fixes no order among rows of equal xp; here they come
    as the sort leaves them. *)
Definition select_leaderboard (guild_id limit : Z) (db : Database)
  : list (Z * Z * Z) :=
  sql_limit limit (merge_sort by_xp_desc (guild_rows guild_id db)).

Definition get_leaderboard (guild_id limit : Z) : M (list (Z * Z * Z)) :=
  let* conn := gets (fun w => db_connection (bot w)) in
  match conn with
  | None => ret []
  | Some _ => fetchall (select_leaderboard guild_id limit)
  end.

(** ** The figures of [-checkXP] ([bot 4.py])

    The integer part of [check_xp]: the level of the total, the next level,
    its threshold and the XP still needed.  The progress bar is computed in
    floating point and only shapes the message. *)
Record xp_stats : Set := mk_xp_stats {
  current_level : Z;
  next_level : Z;
  next_level_xp : Z;
  xp_needed : Z
}.

Definition check_xp_stats (current_xp : Z) : result xp_stats :=
  match calculate_level current_xp with
  | Raise e => Raise e
  | Ok current_level =>
      (* Cap at level 10 *)
      let next_level := Z.min (current_level + 1) 10 in
      match LEVEL_THRESHOLDS !! 10 with
      | None => Raise KeyError
      | Some top =>
          let next_level_xp := default top (LEVEL_THRESHOLDS !! next_level) in
          let xp_needed := Z.max 0 (next_level_xp - current_xp) in
          Ok (mk_xp_stats current_level next_level next_level_xp xp_needed)
      end
  end.

(** ** Start-up *)

(** [QuestBot()] on a database file holding [db]: [__init__] sets the
    attributes, [init_database] connects and creates the missing tables. *)
Definition boot (db : Database) (guilds : gmap Z Guild) : World :=
  {| bot := {| db_connection := Some db;
               quest_ping_role_id := None;
               quest_channel_id := None;
               role_xp_assignments := ∅ |};
     client := guilds;
     loop_tasks := [] |}.

Section StartUp.
Context `{Discord}.

(** [on_ready], over [bot.guilds] in the order of the client's cache;
    [sync] is [await bot.tree.sync()].  [bot 4.py] also creates the level
    roles of each guild. *)
Definition on_ready (rev : revision) (bot_guilds : list Z)
  (sync : gmap Z Guild -> result unit * gmap Z Guild) : M unit :=
  do* for_each bot_guilds (fun guild_id =>
        do* load_settings guild_id in
        match rev with
        | MainPy => ret tt
        | Bot4Py => create_level_roles guild_id
        end) in
  (* Sync slash commands *)
  try_except (await sync) (fun _ => ret tt).

End StartUp.

(** ** More statements about the store *)

(** A row as the code writes it: xp not negative, level that of the xp. *)
Definition row_in_range (r : user_row) : Prop :=
  0 <= u_xp r /\ 1 <= u_level r <= 10.

(** The [quests] table. *)
Definition quest_table (w : World) : gmap Z quest_row :=
  match db_connection (bot w) with
  | Some db => quests db
  | None => ∅
  end.

(** No member is listed twice among the completed users of a quest. *)
Definition quests_ok (w : World) : Prop :=
  map_Forall (fun _ q => NoDup (q_completed_users q)) (quest_table w).

(** ** More worlds for the examples *)

(** Member 1 holds a record in guild 10, where quest 100 is announced. *)
Definition quest_world : World :=
  (add_quest_record 100 10 5 "quest" "text" (world_with_record 1 10 120 2)).2.

Definition quest_signal : Reaction :=
  mk_Reaction WHITE_HEAVY_CHECK_MARK 100 10 5.

(** Guild 10 with its ten level roles. *)
Definition level_roles : list Role :=
  map (fun n => mk_Role (100 + n) (level_role_name n)) range_1_11.

Definition level_roles_world : World :=
  init_world {[ 10 := mk_Guild level_roles [] ∅ ]}.

(** A database with the settings of guilds 1 and 2 stored. *)
Definition settings_database : Database :=
  {| users := ∅; quests := ∅;
     settings := {[ 1 := mk_settings_row (Some 9) (Some 91) {[ pretty 9 := 30 ]};
                    2 := mk_settings_row (Some 7) None {[ pretty 7 := 5 ]} ]} |}.

(** Three records of guild 10 and one of guild 20. *)
Definition board_world : World :=
  set_ledger {[ 1 := mk_user_row 10 120 2; 2 := mk_user_row 10 700 3;
                3 := mk_user_row 20 9000 8; 4 := mk_user_row 10 0 1 ]}
    (init_world ∅).

(** Four handlers for member 1 in guild 10, who stands at 120 XP and has
    not completed quest 100: an addition of 30, a removal of 200, the
    completion of the quest, and a role update that gains nothing.  The
    removal runs first, then the addition and the task it created, then the
    completion; the additions resume last. *)
Definition busy_handlers : list handler :=
  [ AddXp (mk_Context 10 5) 1 30;
    RemoveXp (mk_Context 10 5) 1 200;
    OnReactionAdd quest_signal (mk_User 1 false);
    OnMemberUpdate (mk_Member 1 10 []) (mk_Member 1 10 []) ].

Definition busy_schedule : list turn :=
  [Resume 1; Resume 0; Spawn; Resume 4; Resume 2; Resume 3; Resume 0; Resume 1;
   Resume 2; Spawn; Resume 4].

(** Guild 10 gives 30 XP for role 7 and takes 100 for role 8; member 1
    stands at 50 XP. *)
Definition grant_world : World :=
  {| bot := set_role_xp_assignments
              {[ 10 := {[ pretty 7 := 30; pretty 8 := -100 ]} ]}
              (bot (world_with_record 1 10 50 1));
     client := {[ 10 := mk_Guild [] [mk_Channel 5 true] ∅ ]};
     loop_tasks := [] |}.

(** Member 1 of guild 10 holds the role "Level 5"; nothing is stored. *)
Definition level_five_world : World :=
  init_world {[ 10 := mk_Guild [] [] {[ 1 := [mk_Role 25 "Level 5"] ]} ]}.

(** * Properties *)

(** ** The level table *)

Lemma calculate_level_cascade xp : calculate_level xp = Ok (level_cascade xp).
Proof.
  unfold calculate_level, level_cascade.
  change range_10_0 with [10; 9; 8; 7; 6; 5; 4; 3; 2; 1].
  cbn [calculate_level_loop].
  repeat match goal with
  | |- context [LEVEL_THRESHOLDS !! ?k] =>
      let v := eval vm_compute in (LEVEL_THRESHOLDS !! k) in
      change (LEVEL_THRESHOLDS !! k) with v; cbv iota
  end.
  repeat (destruct (_ >=? _); [reflexivity|]).
  reflexivity.
Qed.

Ltac level_cases :=
  unfold level_cascade; rewrite ?Z.geb_leb;
  repeat (match goal with
          | |- context [if ?a <=? ?b then _ else _] => destruct (Z.leb_spec a b)
          end; cbv iota).

Lemma level_cascade_range xp : 1 <= level_cascade xp <= 10.
Proof. level_cases; lia. Qed.

Lemma level_cascade_mono x y : x <= y -> level_cascade x <= level_cascade y.
Proof. intros Hxy. level_cases; lia. Qed.

Lemma threshold_cases n t :
  LEVEL_THRESHOLDS !! n = Some t ->
  (n, t) ∈ [ (1, 0); (2, 100); (3, 500); (4, 1200); (5, 2200);
             (6, 3500); (7, 5100); (8, 7000); (9, 9200); (10, 11700) ].
Proof. intros Hn. by apply elem_of_list_to_map_2 in Hn. Qed.

Ltac threshold_inv H :=
  apply threshold_cases in H;
  repeat (apply elem_of_cons in H as [H|H]; [injection H as -> ->|]);
  [..|by apply elem_of_nil in H].

Lemma level_cascade_greatest xp n t :
  LEVEL_THRESHOLDS !! n = Some t -> t <= xp -> n <= level_cascade xp.
Proof. intros Hn Ht. threshold_inv Hn; level_cases; lia. Qed.

Lemma level_cascade_threshold xp :
  0 <= xp ->
  exists t, LEVEL_THRESHOLDS !! level_cascade xp = Some t /\ t <= xp.
Proof.
  intros Hxp. level_cases; (eexists; split; [vm_compute; reflexivity|lia]).
Qed.

Lemma level_of_threshold n t :
  LEVEL_THRESHOLDS !! n = Some t -> calculate_level t = Ok n.
Proof. intros Hn. threshold_inv Hn; reflexivity. Qed.

Lemma threshold_defined n :
  1 <= n <= 10 -> exists t, LEVEL_THRESHOLDS !! n = Some t.
Proof.
  intros Hn.
  assert (n = 1 \/ n = 2 \/ n = 3 \/ n = 4 \/ n = 5 \/ n = 6 \/ n = 7 \/ n = 8
          \/ n = 9 \/ n = 10) as Hcases by lia.
  repeat (destruct Hcases as [->|Hcases]; [eexists; reflexivity|]).
  subst n. eexists; reflexivity.
Qed.

(** C4. For a non-negative xp, [calculate_level] returns the greatest level
    of [1..10] whose threshold is at most xp (so at least level 1); it is
    monotonic non-decreasing in xp; and the level of the threshold of tier
    [n] is [n], for every tier [n] of [1..10]. *)
Theorem calculate_level_greatest_tier (xp : Z) (Hxp : 0 <= xp) :
  exists l,
    calculate_level xp = Ok l
    /\ 1 <= l <= 10
    /\ (exists t, LEVEL_THRESHOLDS !! l = Some t /\ t <= xp)
    /\ (forall n t,
          1 <= n <= 10 -> LEVEL_THRESHOLDS !! n = Some t -> t <= xp -> n <= l)
    /\ (forall xp' l', xp <= xp' -> calculate_level xp' = Ok l' -> l <= l')
    /\ (forall n, 1 <= n <= 10 ->
          exists t, LEVEL_THRESHOLDS !! n = Some t /\ calculate_level t = Ok n).
Proof.
  exists (level_cascade xp). split; [apply calculate_level_cascade|].
  split; [apply level_cascade_range|].
  split; [by apply level_cascade_threshold|].
  split; [intros n t _ Hn Ht; by eapply level_cascade_greatest|].
  split.
  - intros xp' l' Hle Hl'. rewrite calculate_level_cascade in Hl'.
    injection Hl' as <-. by apply level_cascade_mono.
  - intros n Hn. destruct (threshold_defined n Hn) as [t Ht].
    exists t. split; [done|]. by apply level_of_threshold.
Qed.

Lemma calculate_level_greatest_tier_witness :
  exists l, calculate_level 120 = Ok l /\ l = 2.
Proof.
  destruct (calculate_level_greatest_tier 120 ltac:(lia)) as (l & Hl & _).
  exists l. split; [exact Hl|].
  vm_compute in Hl. by injection Hl as <-.
Defined.

(** ** The XP ledger *)

Ltac run_monad :=
  unfold bind, gets, fetchone, execute, ret, lift, raise, modify, create_task,
    try_except, discard, await; cbn beta iota.

Ltac reduce_with H := repeat (progress (cbn beta iota) || rewrite H).

Lemma get_user_data_cases u g w db :
  db_connection (bot w) = Some db ->
  get_user_data u g w =
    match users db !! u with
    | Some r =>
        if bool_decide (u_guild_id r = g)
        then (Ok (mk_user_data (u_xp r) (u_level r)), w)
        else (Raise IntegrityError, w)
    | None =>
        (Ok (mk_user_data 0 1), set_ledger (<[u := mk_user_row g 0 1]> (users db)) w)
    end.
Proof.
  intros Hdb. unfold get_user_data, select_user, insert_user. run_monad.
  reduce_with Hdb.
  destruct (users db !! u) as [r|] eqn:Hu; reduce_with Hdb.
  - case_bool_decide; reduce_with Hdb; [reflexivity|].
    rewrite Hu. reflexivity.
  - rewrite Hu. unfold set_ledger, set_bot. reduce_with Hdb. reflexivity.
Qed.

Lemma fits_new_xp x :
  fits_int64 (Z.max 0 x) && fits_int64 (level_cascade (Z.max 0 x))
  = bool_decide (Z.max 0 x <= INT64_MAX).
Proof.
  pose proof (level_cascade_range (Z.max 0 x)) as Hlevel.
  unfold fits_int64, INT64_MIN, INT64_MAX in *.
  case_bool_decide; [apply andb_true_iff; split; apply andb_true_iff; split|];
    try (apply Z.leb_le; lia).
  apply andb_false_iff. left. apply andb_false_iff. right. apply Z.leb_gt. lia.
Qed.

(** The cases of [update_user_xp] on a connected bot: the record is there,
    is under another guild, or is missing (and then created by the read); a
    new xp beyond the range of the column is refused by the [UPDATE]. *)
Lemma update_user_xp_cases rev u g d w db :
  db_connection (bot w) = Some db ->
  update_user_xp rev u g d w =
    match users db !! u with
    | Some r =>
        if bool_decide (u_guild_id r = g) then
          let new_xp := Z.max 0 (u_xp r + d) in
          let new_level := level_cascade new_xp in
          if bool_decide (new_xp <= INT64_MAX) then
            (Ok (new_xp, new_level),
             set_loop_tasks
               (loop_tasks w ++ level_tasks rev u g (u_level r) new_level)
               (set_ledger (<[u := mk_user_row g new_xp new_level]> (users db)) w))
          else (Raise OverflowError, w)
        else (Raise IntegrityError, w)
    | None =>
        let new_xp := Z.max 0 (0 + d) in
        let new_level := level_cascade new_xp in
        if bool_decide (new_xp <= INT64_MAX) then
          (Ok (new_xp, new_level),
           set_loop_tasks
             (loop_tasks w ++ level_tasks rev u g 1 new_level)
             (set_ledger (<[u := mk_user_row g new_xp new_level]> (users db)) w))
        else (Raise OverflowError,
              set_ledger (<[u := mk_user_row g 0 1]> (users db)) w)
    end.
Proof.
  intros Hdb. unfold update_user_xp.
  unfold bind at 1. unfold gets at 1. reduce_with Hdb.
  unfold bind at 1. rewrite (get_user_data_cases u g w db Hdb).
  destruct (users db !! u) as [r|] eqn:Hu.
  - case_bool_decide as Hg; [|reflexivity]. cbn [xp level].
    unfold lift, bind. rewrite calculate_level_cascade.
    unfold execute, update_user. reduce_with Hdb. rewrite fits_new_xp.
    cbn zeta. case_bool_decide; [|reflexivity]. rewrite Hu.
    rewrite bool_decide_true by done. cbn beta iota.
    destruct rev; unfold level_tasks, ret, create_task, modify.
    + rewrite app_nil_r. unfold set_ledger, set_bot, set_loop_tasks.
      reduce_with Hdb. cbn. reflexivity.
    + case_bool_decide; cbn beta iota; unfold set_ledger, set_bot, set_loop_tasks;
        reduce_with Hdb; cbn; rewrite ?app_nil_r; reflexivity.
  - cbn [xp level]. unfold lift, bind. rewrite calculate_level_cascade.
    unfold execute, update_user, set_ledger, set_bot. cbn.
    rewrite Hdb. cbn. rewrite fits_new_xp. case_bool_decide; [|reflexivity].
    rewrite lookup_insert_eq. cbn.
    rewrite bool_decide_true by done. rewrite insert_insert_eq.
    destruct rev; unfold level_tasks, ret, create_task, modify, set_loop_tasks; cbn.
    + rewrite app_nil_r. reflexivity.
    + case_bool_decide; cbn; rewrite ?app_nil_r; reflexivity.
Qed.

Lemma stored_record_inv u g w x l :
  stored_record u g w = Some (x, l) ->
  exists db, db_connection (bot w) = Some db
             /\ users db !! u = Some (mk_user_row g x l).
Proof.
  unfold stored_record, select_user. intros Hrec.
  destruct (db_connection (bot w)) as [db|]; [|done].
  exists db. split; [done|].
  destruct (users db !! u) as [[g' x' l']|]; [|done].
  cbn in Hrec. case_bool_decide; [|done]. by simplify_eq.
Qed.

Lemma stored_record_set_ledger u g us w db :
  db_connection (bot w) = Some db ->
  stored_record u g (set_ledger us w) =
    match us !! u with
    | Some r => if bool_decide (u_guild_id r = g) then Some (u_xp r, u_level r) else None
    | None => None
    end.
Proof.
  intros Hdb. unfold stored_record, set_ledger, set_bot, select_user. cbn.
  rewrite Hdb. reflexivity.
Qed.

(** C2 (as stated, refuted). Not every integer delta is stored: on the
    record (50, 1) a delta of 2 ** 63 raises [OverflowError] in both
    revisions, and the record stays as it was. *)
Lemma update_user_xp_refuses_what_sqlite_cannot_hold :
  stored_record 1 10 (world_with_record 1 10 50 1) = Some (50, 1)
  /\ update_user_xp MainPy 1 10 9223372036854775808 (world_with_record 1 10 50 1)
     = (Raise OverflowError, world_with_record 1 10 50 1)
  /\ update_user_xp Bot4Py 1 10 9223372036854775808 (world_with_record 1 10 50 1)
     = (Raise OverflowError, world_with_record 1 10 50 1)
  /\ Z.max 0 (50 + 9223372036854775808) ≠ 50.
Proof. repeat split; try (vm_compute; reflexivity). lia. Qed.

(** C2 (amended). On a stored record with xp [oldXp], a call of
    [update_user_xp] with [delta] whose [newXp = max 0 (oldXp + delta)] is
    at most 2 ** 63 - 1 returns and stores [newXp] and
    [newLevel = calculate_level newXp], in both revisions; at [oldXp = 50]
    and [delta = -1000] this is xp 0 and level 1.  A greater [newXp] is
    refused: the call raises [OverflowError] and changes nothing. *)
Theorem update_user_xp_clamps_and_relevels (rev : revision) (w : World)
  (m c oldXp oldLevel delta : Z)
  (Hrec : stored_record m c w = Some (oldXp, oldLevel)) :
  let newXp := Z.max 0 (oldXp + delta) in
  (newXp <= INT64_MAX ->
     exists newLevel w',
       update_user_xp rev m c delta w = (Ok (newXp, newLevel), w')
       /\ calculate_level newXp = Ok newLevel
       /\ stored_record m c w' = Some (newXp, newLevel))
  /\ (INT64_MAX < newXp ->
        update_user_xp rev m c delta w = (Raise OverflowError, w))
  /\ (oldXp = 50 -> delta = -1000 ->
        newXp = 0 /\ calculate_level newXp = Ok 1).
Proof.
  intros newXp.
  destruct (stored_record_inv _ _ _ _ _ Hrec) as (db & Hdb & Hrow).
  rewrite (update_user_xp_cases rev m c delta w db Hdb), Hrow.
  cbn [u_guild_id u_xp u_level]. rewrite bool_decide_true by done. cbn zeta.
  fold newXp. split; [|split].
  - intros Hfit. rewrite bool_decide_true by done.
    eexists _, _. split; [reflexivity|].
    split; [apply calculate_level_cascade|].
    unfold stored_record, set_loop_tasks, set_ledger, set_bot, select_user. cbn.
    rewrite Hdb. cbn. rewrite lookup_insert_eq. cbn.
    by rewrite bool_decide_true.
  - intros Hover. by rewrite bool_decide_false by lia.
  - intros -> ->. split; reflexivity.
Qed.

Lemma update_user_xp_clamps_and_relevels_witness :
  stored_record 1 10 (world_with_record 1 10 50 1) = Some (50, 1)
  /\ exists w', update_user_xp MainPy 1 10 (-1000) (world_with_record 1 10 50 1)
                = (Ok (0, 1), w').
Proof.
  split; [reflexivity|].
  destruct (update_user_xp_clamps_and_relevels MainPy
              (world_with_record 1 10 50 1) 1 10 50 1 (-1000) eq_refl)
    as (Hfit & _ & _).
  destruct Hfit as (newLevel & w' & Hrun & Hlevel & _); [by vm_compute|].
  exists w'. vm_compute in Hlevel. injection Hlevel as <-. exact Hrun.
Defined.

(** ** Rules for [preserves] *)

Section Preserves.
Context {P : World -> Prop}.

Lemma preserves_ret {A} (a : A) : preserves P (ret a).
Proof. intros w Hw. exact Hw. Qed.

Lemma preserves_raise {A} e : preserves P (@raise A e).
Proof. intros w Hw. exact Hw. Qed.

Lemma preserves_gets {A} (f : World -> A) : preserves P (gets f).
Proof. intros w Hw. exact Hw. Qed.

Lemma preserves_lift {A} (r : result A) : preserves P (lift r).
Proof. intros w Hw. exact Hw. Qed.

Lemma preserves_fetchone {A} (q : Database -> option A) : preserves P (fetchone q).
Proof. intros w Hw. unfold fetchone. by destruct (db_connection (bot w)). Qed.

Lemma preserves_bind {A B} (m : M A) (k : A -> M B) :
  preserves P m -> (forall a, preserves P (k a)) -> preserves P (bind m k).
Proof.
  intros Hm Hk w Hw. unfold bind. specialize (Hm w Hw).
  destruct (m w) as [[a|e] w']; cbn in *; [by apply Hk|done].
Qed.

Lemma preserves_try_except {A} (body : M A) handler :
  preserves P body -> (forall e, preserves P (handler e)) ->
  preserves P (try_except body handler).
Proof.
  intros Hm Hk w Hw. unfold try_except. specialize (Hm w Hw).
  destruct (body w) as [[a|e] w']; cbn in *; [done|by apply Hk].
Qed.

Lemma preserves_for_each {A} (l : list A) body :
  (forall x, preserves P (body x)) -> preserves P (for_each l body).
Proof.
  intros Hbody. induction l as [|x l IH]; cbn [for_each].
  - apply preserves_ret.
  - apply preserves_bind; [apply Hbody|intros _; exact IH].
Qed.

Lemma preserves_modify (f : World -> World) :
  (forall w, P w -> P (f w)) -> preserves P (modify f).
Proof. intros Hf w Hw. by apply Hf. Qed.

Lemma preserves_await call :
  (forall w c, P w -> P (set_client c w)) -> preserves P (await call).
Proof.
  intros Hc w Hw. unfold await. destruct (call (client w)) as [r c]. by apply Hc.
Qed.

Lemma preserves_execute stmt :
  (forall w db db', db_connection (bot w) = Some db -> stmt db = Ok db' ->
     P w -> P (set_bot (set_db_connection (Some db')) w)) ->
  preserves P (execute stmt).
Proof.
  intros Hs w Hw. unfold execute.
  destruct (db_connection (bot w)) as [db|] eqn:Hdb; [|done].
  destruct (stmt db) as [db'|e] eqn:Hstmt; [|done]. by eapply Hs.
Qed.

End Preserves.

(** Decompose a handler along its control flow. *)
Ltac preserves_step :=
  first
    [ apply preserves_ret
    | apply preserves_raise
    | apply preserves_gets
    | apply preserves_lift
    | apply preserves_fetchone
    | apply preserves_bind; [|intros ?]
    | apply preserves_try_except; [|intros ?]
    | apply preserves_for_each; intros ?
    | match goal with
      | |- preserves _ (match ?x with _ => _ end) => destruct x
      | |- preserves _ (let '(_, _) := ?x in _) => destruct x
      end ].

Ltac preserves_auto := repeat preserves_step.

(** ** The ledger invariant *)

Lemma ledger_set_client c w : ledger (set_client c w) = ledger w.
Proof. reflexivity. Qed.

Lemma ledger_set_loop_tasks ts w : ledger (set_loop_tasks ts w) = ledger w.
Proof. reflexivity. Qed.

Lemma ledger_set_ledger us w db :
  db_connection (bot w) = Some db -> ledger (set_ledger us w) = us.
Proof. intros Hdb. unfold ledger, set_ledger, set_bot. cbn. by rewrite Hdb. Qed.

Lemma ledger_Some w db : db_connection (bot w) = Some db -> ledger w = users db.
Proof. intros Hdb. unfold ledger. by rewrite Hdb. Qed.

Lemma row_ok_fresh g : row_ok (mk_user_row g 0 1).
Proof. reflexivity. Qed.

Lemma row_ok_updated g x : row_ok (mk_user_row g x (level_cascade x)).
Proof. apply calculate_level_cascade. Qed.

Lemma ledger_inv_get_user_data u g : preserves ledger_inv (get_user_data u g).
Proof.
  intros w Hw. destruct (db_connection (bot w)) as [db|] eqn:Hdb.
  - rewrite (get_user_data_cases u g w db Hdb).
    destruct (users db !! u) as [r|] eqn:Hu; [by case_bool_decide|].
    unfold ledger_inv in *. cbn [snd]. rewrite (ledger_set_ledger _ _ _ Hdb).
    rewrite (ledger_Some _ _ Hdb) in Hw.
    apply map_Forall_insert_2; [apply row_ok_fresh|done].
  - unfold get_user_data, bind, gets. by rewrite Hdb.
Qed.

Lemma ledger_inv_update_user_xp rev u g d :
  preserves ledger_inv (update_user_xp rev u g d).
Proof.
  intros w Hw. destruct (db_connection (bot w)) as [db|] eqn:Hdb.
  - rewrite (update_user_xp_cases rev u g d w db Hdb).
    destruct (users db !! u) as [r|] eqn:Hu; [case_bool_decide; [|done]|];
      cbn zeta; (case_bool_decide; [|try done]);
      unfold ledger_inv in *; cbn [snd];
      rewrite ?ledger_set_loop_tasks, (ledger_set_ledger _ _ _ Hdb);
      rewrite (ledger_Some _ _ Hdb) in Hw;
      (apply map_Forall_insert_2;
       [first [apply row_ok_updated|apply row_ok_fresh]|done]).
  - unfold update_user_xp, bind, gets. by rewrite Hdb.
Qed.

Lemma ledger_inv_execute_other stmt :
  (forall db db', stmt db = Ok db' -> users db' = users db) ->
  preserves ledger_inv (execute stmt).
Proof.
  intros Hstmt. apply preserves_execute. intros w db db' Hdb Hrun Hw.
  unfold ledger_inv, ledger in *. cbn. rewrite Hdb in Hw.
  by rewrite (Hstmt _ _ Hrun).
Qed.

Lemma ledger_inv_await call : preserves ledger_inv (await call).
Proof. apply preserves_await. intros w c Hw. exact Hw. Qed.

Lemma ledger_inv_modify_bot f :
  (forall b, db_connection (f b) = db_connection b) ->
  preserves ledger_inv (modify (set_bot f)).
Proof.
  intros Hf. apply preserves_modify. intros w Hw.
  unfold ledger_inv, ledger in *. cbn. by rewrite Hf.
Qed.

Lemma ledger_inv_create_task t : preserves ledger_inv (create_task t).
Proof. apply preserves_modify. intros w Hw. exact Hw. Qed.

Lemma update_quest_users c m db db' : update_quest c m db = Ok db' -> users db' = users db.
Proof. unfold update_quest. destruct (quests db !! m); by intros [= <-]. Qed.

Lemma insert_quest_users m g c t s db db' :
  insert_quest m g c t s db = Ok db' -> users db' = users db.
Proof. unfold insert_quest. destruct (quests db !! m); [done|]. by intros [= <-]. Qed.

Lemma delete_quest_users m db db' : delete_quest m db = Ok db' -> users db' = users db.
Proof. by intros [= <-]. Qed.

Lemma replace_settings_users g row db db' :
  replace_settings g row db = Ok db' -> users db' = users db.
Proof. by intros [= <-]. Qed.

Ltac ledger_leaf :=
  first
    [ apply ledger_inv_get_user_data
    | apply ledger_inv_update_user_xp
    | apply ledger_inv_await
    | apply ledger_inv_create_task
    | apply ledger_inv_execute_other;
      first [ apply update_quest_users | apply insert_quest_users
            | apply delete_quest_users | apply replace_settings_users ]
    | apply ledger_inv_modify_bot; intros b; try reflexivity;
      try (by destruct (role_xp_assignments b !! _)) ].

Ltac ledger_auto := repeat first [ ledger_leaf | preserves_step ].

Section LedgerInvariant.
Context `{Discord}.

Lemma ledger_inv_save_settings g : preserves ledger_inv (save_settings g).
Proof. unfold save_settings. ledger_auto. Qed.

Lemma ledger_inv_load_settings g : preserves ledger_inv (load_settings g).
Proof. unfold load_settings. ledger_auto. Qed.

Lemma ledger_inv_calculate_total_user_xp u g :
  preserves ledger_inv (calculate_total_user_xp u g).
Proof. unfold calculate_total_user_xp. ledger_auto. Qed.

Lemma ledger_inv_create_level_roles g : preserves ledger_inv (create_level_roles g).
Proof. unfold create_level_roles. ledger_auto. Qed.

Lemma ledger_inv_update_user_level_role u g o n :
  preserves ledger_inv (update_user_level_role u g o n).
Proof.
  unfold update_user_level_role. ledger_auto; apply ledger_inv_create_level_roles.
Qed.

Lemma ledger_inv_run_next_task : preserves ledger_inv run_next_task.
Proof.
  intros w Hw. unfold run_next_task. destruct (loop_tasks w) as [|t ts]; [done|].
  by apply ledger_inv_update_user_level_role.
Qed.

Lemma ledger_inv_exec rev c : preserves ledger_inv (exec rev c).
Proof.
  destruct c; cbn [exec];
    unfold discard, set_quest_ping, set_quest_channel, assign_role_xp, add_xp,
      remove_xp, on_reaction_add, on_member_update, add_quest_record,
      remove_quest_record;
    first [ apply ledger_inv_save_settings | apply ledger_inv_load_settings
          | apply ledger_inv_create_level_roles | apply ledger_inv_run_next_task
          | idtac ].
  all: ledger_auto.
  all: first [ apply ledger_inv_save_settings
             | apply ledger_inv_calculate_total_user_xp ].
Qed.

Lemma ledger_inv_exec_all rev cs w :
  ledger_inv w -> ledger_inv (exec_all rev cs w).
Proof.
  revert w. induction cs as [|c cs IH]; intros w Hw; [done|].
  cbn. apply IH. by apply ledger_inv_exec.
Qed.

End LedgerInvariant.

Lemma ledger_inv_stored u g x l w :
  ledger_inv w -> stored_record u g w = Some (x, l) -> calculate_level x = Ok l.
Proof.
  intros Hinv Hrec.
  destruct (stored_record_inv _ _ _ _ _ Hrec) as (db & Hdb & Hrow).
  unfold ledger_inv in Hinv. rewrite (ledger_Some _ _ Hdb) in Hinv.
  exact (Hinv _ _ Hrow).
Qed.

Lemma ledger_inv_init guilds : ledger_inv (init_world guilds).
Proof. apply map_Forall_empty. Qed.

(** C3. Along every run of the bot's operations, each stored record has
    [level = calculate_level xp]: the invariant holds in the state reached,
    a record missing there is created by the first [get_user_data] as
    [xp = 0, level = 1], and [calculate_level 0 = 1]. *)
Theorem stored_level_is_level_of_xp `{Discord} (rev : revision)
  (cs : list command) (w : World) (Hinv : ledger_inv w) :
  let w' := exec_all rev cs w in
  ledger_inv w'
  /\ (forall u g x l,
        stored_record u g w' = Some (x, l) -> calculate_level x = Ok l)
  /\ (forall u g db,
        db_connection (bot w') = Some db -> users db !! u = None ->
        exists w'',
          get_user_data u g w' = (Ok (mk_user_data 0 1), w'')
          /\ stored_record u g w'' = Some (0, 1)
          /\ ledger_inv w'')
  /\ calculate_level 0 = Ok 1.
Proof.
  intros w'. assert (ledger_inv w') as Hinv' by by apply ledger_inv_exec_all.
  split; [done|]. split; [|split; [|reflexivity]].
  - intros u g x l. by apply ledger_inv_stored.
  - intros u g db Hdb Hu. pose proof (ledger_inv_get_user_data u g w' Hinv') as Hget.
    rewrite (get_user_data_cases u g w' db Hdb), Hu in Hget |- *.
    eexists. split; [reflexivity|]. split; [|exact Hget].
    rewrite (stored_record_set_ledger _ _ _ _ _ Hdb), lookup_insert_eq. cbn.
    by rewrite bool_decide_true.
Qed.

Lemma stored_level_is_level_of_xp_witness :
  ledger_inv (init_world ∅)
  /\ stored_record 1 10
       (@exec_all quiet_discord Bot4Py
          [CGetUserData 1 10; CUpdateUserXp 1 10 120] (init_world ∅))
     = Some (120, 2)
  /\ calculate_level 120 = Ok 2.
Proof.
  split; [apply ledger_inv_init|]. split; [reflexivity|].
  destruct (@stored_level_is_level_of_xp quiet_discord Bot4Py
              [CGetUserData 1 10; CUpdateUserXp 1 10 120] (init_world ∅)
              (ledger_inv_init ∅)) as (_ & Hlevel & _).
  exact (Hlevel 1 10 120 2 eq_refl).
Defined.

(** ** Records are keyed by the user alone *)

Lemma get_user_data_other_guild u g w db r :
  db_connection (bot w) = Some db ->
  users db !! u = Some r -> u_guild_id r ≠ g ->
  get_user_data u g w = (Raise IntegrityError, w).
Proof.
  intros Hdb Hu Hg. rewrite (get_user_data_cases u g w db Hdb), Hu.
  by rewrite bool_decide_false.
Qed.

Lemma update_user_xp_other_guild rev u g d w db r :
  db_connection (bot w) = Some db ->
  users db !! u = Some r -> u_guild_id r ≠ g ->
  update_user_xp rev u g d w = (Raise IntegrityError, w).
Proof.
  intros Hdb Hu Hg. rewrite (update_user_xp_cases rev u g d w db Hdb), Hu.
  by rewrite bool_decide_false.
Qed.

(** C9 (the code departs from it). With a record stored for member 1 in
    community 10, [get_user_data 1 20] does not create a second record: the
    [INSERT] violates the primary key on [user_id], [IntegrityError] is
    raised, nothing is stored for (1, 20), and [update_user_xp] on (1, 20)
    fails the same way. *)
Theorem second_community_record_is_refused :
  let w := world_with_record 1 10 120 2 in
  stored_record 1 10 w = Some (120, 2)
  /\ get_user_data 1 20 w = (Raise IntegrityError, w)
  /\ stored_record 1 20 w = None
  /\ (forall rev, update_user_xp rev 1 20 50 w = (Raise IntegrityError, w)).
Proof.
  intros w. split; [reflexivity|]. split; [|split; [reflexivity|]].
  - by eapply get_user_data_other_guild.
  - intros rev. by eapply update_user_xp_other_guild.
Qed.

(** ** Quest completion *)

Section QuestCompletion.
Context `{Discord}.

Lemma on_reaction_add_bot rev r u w :
  usr_bot u = true -> on_reaction_add rev r u w = (Ok tt, w).
Proof. intros Hbot. unfold on_reaction_add. by rewrite Hbot. Qed.

Lemma on_reaction_add_unknown_quest rev r u w db :
  db_connection (bot w) = Some db ->
  quests db !! reaction_message_id r = None ->
  on_reaction_add rev r u w = (Ok tt, w).
Proof.
  intros Hdb Hq. unfold on_reaction_add.
  destruct (usr_bot u); [done|]. case_bool_decide; [|done].
  unfold bind, gets, fetchone, select_quest. reduce_with Hdb. by rewrite Hq.
Qed.

Lemma on_reaction_add_already_completed rev r u w db q :
  db_connection (bot w) = Some db ->
  quests db !! reaction_message_id r = Some q ->
  usr_id u ∈ q_completed_users q ->
  on_reaction_add rev r u w = (Ok tt, w).
Proof.
  intros Hdb Hq Hin. unfold on_reaction_add.
  destruct (usr_bot u); [done|]. case_bool_decide; [|done].
  unfold bind, gets, fetchone, select_quest. reduce_with Hdb. rewrite Hq.
  cbn beta iota. by rewrite bool_decide_false by tauto.
Qed.

(** The award: the member has no record yet, or one in this guild, and
    the new xp is within the range of the column. *)
Lemma on_reaction_add_award rev r u w db q :
  usr_bot u = false ->
  reaction_emoji r = CHECK_MARK rev ->
  db_connection (bot w) = Some db ->
  quests db !! reaction_message_id r = Some q ->
  usr_id u ∉ q_completed_users q ->
  (forall row, users db !! usr_id u = Some row ->
               u_guild_id row = reaction_guild_id r) ->
  Z.max 0 (default 0 (u_xp <$> users db !! usr_id u) + 50) <= INT64_MAX ->
  let w' := (on_reaction_add rev r u w).2 in
  let old := default 0 (u_xp <$> users db !! usr_id u) in
  stored_xp (usr_id u) (reaction_guild_id r) w' = Some (Z.max 0 (old + 50))
  /\ completed_members (reaction_message_id r) w'
     = Some (q_completed_users q ++ [usr_id u])
  /\ (forall u', u' ≠ usr_id u -> ledger w' !! u' = ledger w !! u').
Proof.
  intros Hbot Hemoji Hdb Hq Hnotin Hrow Hfit w' old.
  set (g := reaction_guild_id r) in *. set (m := usr_id u) in *.
  assert (exists res c x l ts,
    on_reaction_add rev r u w =
      (res,
       set_client c
         (set_bot (set_db_connection (Some
            (set_quests
               (<[reaction_message_id r :=
                    mk_quest_row (q_guild_id q) (q_channel_id q) (q_title q)
                      (q_content q) (q_completed_users q ++ [m])]> (quests db))
               (set_users (<[m := mk_user_row g x l]> (users db)) db))))
            (set_loop_tasks ts w)))
    /\ x = Z.max 0 (old + 50)) as (res & c & x & l & ts & Hrun & Hx).
  { unfold on_reaction_add. rewrite Hbot, bool_decide_true by done.
    unfold bind at 1, gets at 1. reduce_with Hdb.
    unfold bind at 1, fetchone at 1, select_quest. reduce_with Hdb. rewrite Hq.
    cbn beta iota. rewrite bool_decide_true by done.
    unfold bind at 1. fold g m.
    rewrite (update_user_xp_cases rev m g 50 w db Hdb).
    assert (exists x l ts,
      (match users db !! m with
       | Some r0 =>
           if bool_decide (u_guild_id r0 = g)
           then
             let new_xp := 0 `max` (u_xp r0 + 50) in
             let new_level := level_cascade new_xp in
             if bool_decide (new_xp <= INT64_MAX) then
               (Ok (new_xp, new_level),
                set_loop_tasks
                  (loop_tasks w ++ level_tasks rev m g (u_level r0) new_level)
                  (set_ledger (<[m:=mk_user_row g new_xp new_level]> (users db)) w))
             else (Raise OverflowError, w)
           else (Raise IntegrityError, w)
       | None =>
           let new_xp := 0 `max` (0 + 50) in
           let new_level := level_cascade new_xp in
           if bool_decide (new_xp <= INT64_MAX) then
             (Ok (new_xp, new_level),
              set_loop_tasks (loop_tasks w ++ level_tasks rev m g 1 new_level)
                (set_ledger (<[m:=mk_user_row g new_xp new_level]> (users db)) w))
           else (Raise OverflowError,
                 set_ledger (<[m := mk_user_row g 0 1]> (users db)) w)
       end) = (Ok (x, l),
               set_loop_tasks ts
                 (set_ledger (<[m := mk_user_row g x l]> (users db)) w))
      /\ x = Z.max 0 (old + 50))
      as (x & l & ts & -> & Hx).
    { subst old. destruct (users db !! m) as [row|] eqn:Hu; cbn in Hfit.
      - rewrite bool_decide_true by by apply Hrow. cbn zeta.
        rewrite bool_decide_true by done. by eexists _, _, _.
      - cbn zeta. rewrite bool_decide_true by done. by eexists _, _, _. }
    cbn beta iota zeta.
    unfold bind, execute, update_quest, set_loop_tasks, set_ledger, set_bot.
    cbn. rewrite Hdb. cbn. rewrite Hq. cbn.
    unfold await. cbn.
    destruct (send (reaction_channel_id r) (client w)) as [res c].
    by exists res, c, x, l, ts. }
  subst w'. rewrite Hrun. cbn [snd].
  unfold stored_xp, stored_record, completed_members, select_user,
    select_quest, ledger. cbn. rewrite !lookup_insert_eq. cbn.
  rewrite bool_decide_true by done. rewrite Hdb, Hx.
  split; [done|]. split; [done|].
  intros u' Hu'. by rewrite lookup_insert_ne.
Qed.

(** A second signal after the award changes nothing. *)
Lemma on_reaction_add_twice rev r u w db q :
  usr_bot u = false ->
  reaction_emoji r = CHECK_MARK rev ->
  db_connection (bot w) = Some db ->
  quests db !! reaction_message_id r = Some q ->
  usr_id u ∉ q_completed_users q ->
  (forall row, users db !! usr_id u = Some row ->
               u_guild_id row = reaction_guild_id r) ->
  Z.max 0 (default 0 (u_xp <$> users db !! usr_id u) + 50) <= INT64_MAX ->
  let w1 := (on_reaction_add rev r u w).2 in
  on_reaction_add rev r u w1 = (Ok tt, w1).
Proof.
  intros Hbot Hemoji Hdb Hq Hnotin Hrow Hfit w1.
  destruct (on_reaction_add_award rev r u w db q Hbot Hemoji Hdb Hq Hnotin Hrow
              Hfit) as (_ & Hdone & _). fold w1 in Hdone.
  unfold completed_members, select_quest in Hdone.
  destruct (db_connection (bot w1)) as [db1|] eqn:Hdb1; [|done].
  destruct (quests db1 !! reaction_message_id r) as [q1|] eqn:Hq1; [|done].
  eapply on_reaction_add_already_completed; [done..|].
  cbn in Hdone. injection Hdone as ->. set_solver.
Qed.

(** C5 (the code departs from it). Member 1 holds a record in guild 10; a
    quest is announced in guild 20 and the member, not yet among its
    completed users, reacts with the emoji the handler tests for.  The
    award raises [IntegrityError] inside [update_user_xp]: no XP is stored
    for the member in guild 20, the member is not added to the completed
    users, and a second signal fails in the same way.  In [main.py], whose
    literal is not U+2705, a reaction with the check mark itself is not
    taken for a completion: the handler returns and nothing is awarded. *)
Theorem completion_signal_lost_for_member_of_other_guild (rev : revision) :
  let w := world_two_guilds in
  let u := mk_User 1 false in
  let signal := completion_signal rev in
  completed_members 100 w = Some []
  /\ on_reaction_add rev signal u w = (Raise IntegrityError, w)
  /\ stored_xp 1 20 (on_reaction_add rev signal u w).2 = None
  /\ completed_members 100 (on_reaction_add rev signal u w).2 = Some []
  /\ on_reaction_add rev signal u (on_reaction_add rev signal u w).2
     = (Raise IntegrityError, w)
  /\ on_reaction_add MainPy (mk_Reaction WHITE_HEAVY_CHECK_MARK 100 20 5) u w
     = (Ok tt, w).
Proof.
  intros w u signal.
  assert (on_reaction_add rev signal u w = (Raise IntegrityError, w))
    as Hrun by (destruct rev; vm_compute; reflexivity).
  rewrite Hrun. cbn [snd]. rewrite Hrun. by repeat split.
Qed.

End QuestCompletion.

(** ** The total-XP aggregator *)

Lemma get_user_data_frame u g w :
  let w1 := (get_user_data u g w).2 in
  client w1 = client w
  /\ loop_tasks w1 = loop_tasks w
  /\ role_xp_assignments (bot w1) = role_xp_assignments (bot w)
  /\ quest_ping_role_id (bot w1) = quest_ping_role_id (bot w)
  /\ quest_channel_id (bot w1) = quest_channel_id (bot w)
  /\ (forall u' g' r, stored_record u' g' w = Some r ->
                      stored_record u' g' w1 = Some r).
Proof.
  intros w1. subst w1. destruct (db_connection (bot w)) as [db|] eqn:Hdb.
  - rewrite (get_user_data_cases u g w db Hdb).
    destruct (users db !! u) as [r|] eqn:Hu; [by case_bool_decide|].
    cbn [snd]. unfold set_ledger, set_bot. cbn. rewrite Hdb. cbn.
    repeat split. intros u' g' r. unfold stored_record, select_user. cbn.
    rewrite Hdb. destruct (decide (u' = u)) as [->|Hne].
    + by rewrite Hu.
    + by rewrite lookup_insert_ne.
  - unfold get_user_data, bind, gets. by rewrite Hdb.
Qed.

Lemma fold_auto_role_step roles acc :
  fold_left auto_role_step roles acc =
  acc + 5 * Z.of_nat (length (List.filter (fun r => is_badge r || is_streak r) roles)).
Proof.
  revert acc. induction roles as [|r roles IH]; intros acc; cbn [fold_left List.filter].
  - cbn. lia.
  - rewrite IH. unfold auto_role_step, is_badge, is_streak. cbn zeta.
    destruct (str_contains "badge" _), (str_contains "streak" _);
      cbn [orb length]; lia.
Qed.

Lemma count_badge_or_streak roles :
  Z.of_nat (length (List.filter (fun r => is_badge r || is_streak r) roles)) =
  Z.of_nat (length (List.filter is_badge roles))
  + Z.of_nat (length (List.filter is_streak roles))
  - Z.of_nat (length (List.filter (fun r => is_badge r && is_streak r) roles)).
Proof.
  induction roles as [|r roles IH]; cbn [List.filter]; [reflexivity|].
  destruct (is_badge r), (is_streak r); cbn [orb andb length]; lia.
Qed.

(** C7 (as stated, refuted). A single role whose name contains both
    "badge" and "streak" contributes 5 XP, not 10: the second test is an
    [elif]. *)
Lemma role_with_both_words_counts_once :
  auto_role_xp_of [mk_Role 9 "badge-streak"] = 5
  /\ auto_role_xp_spec [mk_Role 9 "badge-streak"] = 10
  /\ (calculate_total_user_xp 1 10 both_words_world).1 = Ok 5.
Proof. repeat split; vm_compute; reflexivity. Qed.

(** C7 (amended). The automatic share is 5 times the number of held roles
    whose lower-cased name contains "badge" or "streak", each role counted
    once: 5 x #badge + 5 x #streak - 5 x #(both).  A member with one 30-XP
    custom role and one "badge-collector" role at base xp 0 has total 35. *)
Theorem auto_role_xp_counts_each_role_once (roles : list Role) :
  auto_role_xp_of roles =
    5 * Z.of_nat (length (List.filter (fun r => is_badge r || is_streak r) roles))
  /\ auto_role_xp_of roles =
       auto_role_xp_spec roles
       - 5 * Z.of_nat (length (List.filter (fun r => is_badge r && is_streak r) roles))
  /\ (calculate_total_user_xp 1 10 scenario_world).1 = Ok 35.
Proof.
  unfold auto_role_xp_of, auto_role_xp_spec. rewrite fold_auto_role_step.
  split; [lia|]. split; [rewrite count_badge_or_streak; lia|].
  vm_compute. reflexivity.
Qed.

(** C6 (as stated, refuted). The computation writes to the ledger: for a
    member without a record, [get_user_data] inside it inserts one. *)
Lemma total_xp_creates_ledger_record :
  stored_record 1 10 scenario_world = None
  /\ stored_record 1 10 (calculate_total_user_xp 1 10 scenario_world).2
     = Some (0, 1).
Proof. split; vm_compute; reflexivity. Qed.

(** C6 (amended). When the ledger read [get_user_data] succeeds with
    [baseXp], the total is [max baseXp (levelRoleXp + customRoleXp +
    autoRoleXp)] for a member resolved in the cache and [baseXp] alone when
    the guild or the member is not resolved, hence never less than
    [baseXp].  The state left is the one the read leaves: records stored
    before are unchanged, and the only write is the creation of the missing
    record of the pair with xp 0 and level 1. *)
Theorem total_xp_is_max_of_base_and_roles (u g : Z) (w w1 : World)
  (ud : user_data) (Hget : get_user_data u g w = (Ok ud, w1)) :
  calculate_total_user_xp u g w = (Ok (total_xp_of w u g (xp ud)), w1)
  /\ xp ud <= total_xp_of w u g (xp ud)
  /\ (forall u' g' r, stored_record u' g' w = Some r ->
                      stored_record u' g' w1 = Some r)
  /\ (stored_record u g w1 = Some (xp ud, level ud)
      \/ db_connection (bot w) = None).
Proof.
  pose proof (get_user_data_frame u g w) as Hframe. rewrite Hget in Hframe.
  cbn [snd] in Hframe. destruct Hframe as (Hclient & _ & Hassign & _ & _ & Hkeep).
  split; [|split; [|split; [exact Hkeep|]]].
  - unfold calculate_total_user_xp, total_xp_of, try_except.
    unfold bind at 1, gets at 1. cbn beta iota.
    destruct (client w !! g) as [gd|]; [destruct (guild_members gd !! u) as [roles|]|];
      unfold bind, gets; rewrite Hget; cbn beta iota; unfold ret;
      rewrite ?Hassign; reflexivity.
  - unfold total_xp_of.
    destruct (client w !! g) as [gd|]; [destruct (guild_members gd !! u)|]; lia.
  - destruct (db_connection (bot w)) as [db|] eqn:Hdb; [left|by right].
    rewrite (get_user_data_cases u g w db Hdb) in Hget.
    destruct (users db !! u) as [r|] eqn:Hu.
    + case_bool_decide as Hg; [|done]. injection Hget as <- <-. cbn.
      unfold stored_record, select_user. rewrite Hdb, Hu.
      by rewrite bool_decide_true.
    + injection Hget as <- <-. cbn.
      rewrite (stored_record_set_ledger _ _ _ _ _ Hdb), lookup_insert_eq. cbn.
      by rewrite bool_decide_true.
Qed.

Lemma total_xp_is_max_of_base_and_roles_witness :
  exists w1,
    get_user_data 1 10 scenario_world = (Ok (mk_user_data 0 1), w1)
    /\ calculate_total_user_xp 1 10 scenario_world = (Ok 35, w1).
Proof.
  eexists. split; [vm_compute; reflexivity|].
  destruct (total_xp_is_max_of_base_and_roles 1 10 scenario_world
              (get_user_data 1 10 scenario_world).2 (mk_user_data 0 1))
    as (Hrun & _).
  - vm_compute. reflexivity.
  - rewrite Hrun. vm_compute. reflexivity.
Defined.

(** ** The settings store *)

(** What a mutation for another guild leaves alone: the stored row of
    [guild_id] and its entry of [role_xp_assignments]. *)
Section SettingsFrame.
Context `{Discord}.
Variables (b : Z) (row : option settings_row) (assigned : option (gmap string Z)).

Local Abbreviation kept := (settings_kept b row assigned).

Lemma kept_save_settings a : a ≠ b -> preserves kept (save_settings a).
Proof.
  intros Hne. unfold save_settings. preserves_auto.
  apply preserves_execute. intros w db db' Hdb [= <-] [Hrow Hassigned].
  split; [|done]. unfold stored_settings, select_settings in *. cbn.
  rewrite Hdb in Hrow. by rewrite lookup_insert_ne.
Qed.

Lemma kept_scalar f :
  (forall q, db_connection (f q) = db_connection q) ->
  (forall q, role_xp_assignments (f q) = role_xp_assignments q) ->
  preserves kept (modify (set_bot f)).
Proof.
  intros Hdb Hassign. apply preserves_modify. intros w [Hrow Hassigned].
  unfold settings_kept, stored_settings in *. cbn. by rewrite Hdb, Hassign.
Qed.

Lemma kept_await call : preserves kept (await call).
Proof. apply preserves_await. by intros w c. Qed.

Lemma kept_set_quest_ping ctx role :
  ctx_guild_id ctx ≠ b -> preserves kept (set_quest_ping ctx role).
Proof.
  intros Hne. unfold set_quest_ping.
  repeat first [ apply kept_await | by apply kept_save_settings
               | by apply kept_scalar | preserves_step ].
Qed.

Lemma kept_set_quest_channel ctx channel :
  ctx_guild_id ctx ≠ b -> preserves kept (set_quest_channel ctx channel).
Proof.
  intros Hne. unfold set_quest_channel.
  repeat first [ apply kept_await | by apply kept_save_settings
               | by apply kept_scalar | preserves_step ].
Qed.

Lemma kept_assign_role_xp ctx role amount :
  ctx_guild_id ctx ≠ b -> preserves kept (assign_role_xp ctx role amount).
Proof.
  intros Hne. unfold assign_role_xp.
  repeat first [ apply kept_await | by apply kept_save_settings | preserves_step ].
  - apply preserves_modify. intros w [Hrow Hassigned].
    unfold settings_kept, stored_settings in *. cbn.
    destruct (role_xp_assignments (bot w) !! ctx_guild_id ctx); cbn; [done|].
    by rewrite lookup_insert_ne.
  - apply preserves_modify. intros w [Hrow Hassigned].
    unfold settings_kept, stored_settings in *. cbn. by rewrite lookup_insert_ne.
Qed.

End SettingsFrame.

(** C8 (the code departs from it). Guild 2 has set its ping role to 7.
    When guild 1 sets its own ping role to 9, the value guild 2 reads from
    memory becomes 9 while the stored row of guild 2 still holds 7; the next
    save for guild 2 then stores role 9 of guild 1 in the row of guild 2.
    [quest_ping_role_id] is one attribute for all guilds. *)
Theorem ping_role_shared_between_guilds :
  cached_settings 2 settings_world_1 = mk_settings_row (Some 7) None ∅
  /\ stored_settings 2 settings_world_1 = Some (mk_settings_row (Some 7) None ∅)
  /\ cached_settings 2 settings_world_2 = mk_settings_row (Some 9) None ∅
  /\ stored_settings 2 settings_world_2 = Some (mk_settings_row (Some 7) None ∅)
  /\ stored_settings 2 settings_world_3
     = Some (mk_settings_row (Some 9) None {[ pretty 7 := 5 ]}).
Proof. repeat split; vm_compute; reflexivity. Qed.

(** ** Level-role reconciliation *)

Section Reconciliation.
Context `{Discord}.

Lemma bot_kept_await b ts call : preserves (bot_kept b ts) (await call).
Proof. apply preserves_await. by intros w c. Qed.

Lemma bot_kept_create_level_roles b ts g :
  preserves (bot_kept b ts) (create_level_roles g).
Proof.
  unfold create_level_roles.
  repeat first [ apply bot_kept_await | preserves_step ].
Qed.

Lemma bot_kept_update_user_level_role b ts u g o n :
  preserves (bot_kept b ts) (update_user_level_role u g o n).
Proof.
  unfold update_user_level_role.
  repeat first [ apply bot_kept_await | apply bot_kept_create_level_roles
               | preserves_step ].
Qed.

(** [try: ... except Exception: print(...)] lets no exception out. *)
Lemma try_except_returns (body : M unit) w :
  (try_except body (fun _ => ret tt) w).1 = Ok tt.
Proof.
  unfold try_except. destruct (body w) as [[[]|e] w']; reflexivity.
Qed.

Lemma run_task_contained t w :
  (run_task t w).1 = Ok tt
  /\ bot (run_task t w).2 = bot w
  /\ loop_tasks (run_task t w).2 = loop_tasks w.
Proof.
  split; [apply try_except_returns|].
  by apply (bot_kept_update_user_level_role (bot w) (loop_tasks w)).
Qed.

Lemma run_next_task_bot w : bot (run_next_task w).2 = bot w.
Proof.
  unfold run_next_task. destruct (loop_tasks w) as [|t ts]; [done|].
  by destruct (run_task_contained t (set_loop_tasks ts w)) as (_ & -> & _).
Qed.

(** C10. In [bot 4.py], a call of [update_user_xp] that returns
    [(newXp, newLevel)] has created one level-role task exactly when the
    level read before differs from [newLevel], and none when it raises; the
    call itself leaves the platform untouched (the task has only been handed
    to the loop).  Whenever the task runs, and whatever the platform calls
    do or raise, it returns normally and leaves the [quest_bot] object, with
    the stored XP, as it found it. *)
Theorem level_change_creates_detached_task (u g d : Z) (w : World) :
  let '(res, w') := update_user_xp Bot4Py u g d w in
  client w' = client w
  /\ match res with
     | Ok (newXp, newLevel) =>
         exists old,
           (get_user_data u g w).1 = Ok old
           /\ loop_tasks w' =
                loop_tasks w ++
                  (if bool_decide (level old ≠ newLevel)
                   then [mk_level_role_task u g (level old) newLevel]
                   else [])
     | Raise _ => loop_tasks w' = loop_tasks w
     end
  /\ (forall t w1,
        (run_task t w1).1 = Ok tt
        /\ bot (run_task t w1).2 = bot w1
        /\ loop_tasks (run_task t w1).2 = loop_tasks w1).
Proof.
  destruct (db_connection (bot w)) as [db|] eqn:Hdb.
  - rewrite (update_user_xp_cases Bot4Py u g d w db Hdb).
    rewrite (get_user_data_cases u g w db Hdb).
    destruct (users db !! u) as [r|] eqn:Hu; [case_bool_decide|]; cbn zeta.
    + case_bool_decide.
      * split; [done|]. split; [|apply run_task_contained].
        eexists. split; [reflexivity|]. reflexivity.
      * split; [done|]. split; [done|apply run_task_contained].
    + split; [done|]. split; [done|apply run_task_contained].
    + case_bool_decide.
      * split; [done|]. split; [|apply run_task_contained].
        eexists. split; [reflexivity|]. reflexivity.
      * split; [done|]. split; [done|apply run_task_contained].
  - unfold update_user_xp, get_user_data, bind, gets. rewrite Hdb. cbn.
    split; [done|]. split; [|apply run_task_contained].
    eexists. split; [reflexivity|]. cbn. by rewrite app_nil_r.
Qed.

End Reconciliation.

(** From 0 XP, 120 XP more reach level 2 and create the task from level 1
    to level 2; on a platform that refuses every call the task still
    returns, and the record stays at 120 XP, level 2. *)
Example level_up_on_refusing_platform :
  let w1 := (update_user_xp Bot4Py 1 10 120 level_up_world).2 in
  (update_user_xp Bot4Py 1 10 120 level_up_world).1 = Ok (120, 2)
  /\ loop_tasks w1 = [mk_level_role_task 1 10 1 2]
  /\ (@run_next_task forbidding_discord w1).1 = Ok tt
  /\ stored_record 1 10 (@run_next_task forbidding_discord w1).2 = Some (120, 2).
Proof. repeat split; vm_compute; reflexivity. Qed.

(** ** Handlers as coroutines *)

(** *** A coroutine run alone is the handler *)

Lemma agrees_bind {A B} rev (c : Co A) (f : A -> Co B) m g :
  agrees rev c m -> (forall a, agrees rev (f a) (g a)) ->
  agrees rev (co_bind c f) (bind m g).
Proof.
  intros Hc Hf w. unfold bind. rewrite <- (Hc w).
  assert (forall a w, g a w = run_alone rev (f a) w) as Hg
    by (intros a w'; symmetry; apply Hf).
  clear Hc Hf m. revert w.
  induction c as [[a|e]|B' m k IH|call k IH|call k IH]; intros w;
    cbn [run_alone co_bind].
  - by rewrite Hg.
  - reflexivity.
  - destruct (m w) as [r w']. apply IH.
  - destruct (update_user_xp rev (call_user call) (call_guild call)
                (call_delta call) w) as [r w']. apply IH.
  - destruct (call (client w)) as [r c']. apply IH.
Qed.

Lemma agrees_try {A} rev (c : Co A) (h : exn -> Co A) m g :
  agrees rev c m -> (forall e, agrees rev (h e) (g e)) ->
  agrees rev (co_try c h) (try_except m g).
Proof.
  intros Hc Hh w. unfold try_except. rewrite <- (Hc w).
  assert (forall e w, g e w = run_alone rev (h e) w) as Hg
    by (intros e w'; symmetry; apply Hh).
  clear Hc Hh m. revert w.
  induction c as [[a|e]|B' m k IH|call k IH|call k IH]; intros w;
    cbn [run_alone co_try].
  - reflexivity.
  - by rewrite Hg.
  - destruct (m w) as [r w']. apply IH.
  - destruct (update_user_xp rev (call_user call) (call_guild call)
                (call_delta call) w) as [r w']. apply IH.
  - destruct (call (client w)) as [r c']. apply IH.
Qed.

Lemma agrees_ret {A} rev (a : A) : agrees rev (co_ret a) (ret a).
Proof. by intros w. Qed.

Lemma agrees_sync {B} rev (m : M B) : agrees rev (co_sync m) m.
Proof. intros w. cbn. by destruct (m w). Qed.

Lemma agrees_update_user_xp rev u g d :
  agrees rev (co_update_user_xp u g d) (update_user_xp rev u g d).
Proof.
  intros w. unfold co_update_user_xp. cbn [run_alone call_user call_guild call_delta].
  by destruct (update_user_xp rev u g d w).
Qed.

Lemma agrees_await rev call : agrees rev (co_await call) (await call).
Proof. intros w. unfold await. cbn. by destruct (call (client w)). Qed.

Lemma agrees_for_each {A} rev (l : list A) body body' :
  (forall x, agrees rev (body x) (body' x)) ->
  agrees rev (co_for_each l body) (for_each l body').
Proof.
  intros Hbody. induction l as [|x l IH]; cbn [co_for_each for_each].
  - apply agrees_ret.
  - apply agrees_bind; [apply Hbody|intros _; exact IH].
Qed.

Ltac agrees_step :=
  first
    [ apply agrees_ret
    | apply agrees_sync
    | apply agrees_update_user_xp
    | apply agrees_await
    | apply agrees_bind; [|intros ?]
    | apply agrees_try; [|intros ?]
    | apply agrees_for_each; intros ?
    | match goal with
      | |- agrees _ (match ?x with _ => _ end) _ => destruct x
      | |- agrees _ (let '(_, _) := ?x in _) _ => destruct x
      end ].

Section RunAlone.
Context `{Discord}.

Lemma create_level_roles_alone rev g :
  agrees rev (Async.create_level_roles g) (create_level_roles g).
Proof. unfold Async.create_level_roles, create_level_roles. repeat agrees_step. Qed.

(** Run with nothing in between, each coroutine is the handler of the same
    name, and the coroutine of a task is the task. *)
Lemma start_alone rev h :
  agrees rev (start rev h)
    match h with
    | OnReactionAdd reaction user => on_reaction_add rev reaction user
    | OnMemberUpdate before after => on_member_update rev before after
    | AddXp ctx member amount => add_xp rev ctx member amount
    | RemoveXp ctx member amount => remove_xp rev ctx member amount
    end.
Proof.
  destruct h; cbn [start];
    unfold Async.on_reaction_add, on_reaction_add, Async.on_member_update,
      on_member_update, Async.add_xp, add_xp, Async.remove_xp, remove_xp;
    cbn zeta; repeat agrees_step.
Qed.

Lemma run_task_alone rev t : agrees rev (Async.run_task t) (run_task t).
Proof.
  unfold Async.run_task, run_task, Async.update_user_level_role,
    update_user_level_role.
  cbn zeta. repeat first [ apply create_level_roles_alone | agrees_step ].
Qed.

End RunAlone.

(** *** What the steps of a coroutine do to the ledger *)

Lemma same_ledger_refl w : same_ledger w w.
Proof. done. Qed.

Lemma keeps_ledger_gets {A} (f : World -> A) : keeps_ledger (gets f).
Proof. intros w. apply same_ledger_refl. Qed.

Lemma keeps_ledger_fetchone {A} (q : Database -> option A) :
  keeps_ledger (fetchone q).
Proof.
  intros w. unfold fetchone. destruct (db_connection (bot w)); apply same_ledger_refl.
Qed.

Lemma keeps_ledger_update_quest l m : keeps_ledger (execute (update_quest l m)).
Proof.
  intros w. unfold execute.
  destruct (db_connection (bot w)) as [db|] eqn:Hdb; [|apply same_ledger_refl].
  destruct (update_quest l m db) as [db'|e] eqn:Hrun; [|apply same_ledger_refl].
  apply update_quest_users in Hrun. unfold same_ledger, ledger. cbn.
  rewrite Hdb, Hrun. split; [|done]. split; by eauto.
Qed.

Lemma co_wf_bind {A B} P (c : Co A) (f : A -> Co B) :
  co_wf P c -> (forall a, co_wf P (f a)) -> co_wf P (co_bind c f).
Proof.
  intros Hc Hf.
  induction c as [[a|e]|B' m k IH|call k IH|call k IH]; cbn [co_bind co_wf] in *.
  - apply Hf.
  - done.
  - destruct Hc as [Hm Hk]. split; [done|]. intros r. by apply IH.
  - destruct Hc as [Hcall Hk]. split; [done|]. intros r. by apply IH.
  - intros r. by apply IH.
Qed.

Lemma co_wf_try {A} P (c : Co A) (h : exn -> Co A) :
  co_wf P c -> (forall e, co_wf P (h e)) -> co_wf P (co_try c h).
Proof.
  intros Hc Hh.
  induction c as [[a|e]|B' m k IH|call k IH|call k IH]; cbn [co_try co_wf] in *.
  - done.
  - apply Hh.
  - destruct Hc as [Hm Hk]. split; [done|]. intros r. by apply IH.
  - destruct Hc as [Hcall Hk]. split; [done|]. intros r. by apply IH.
  - intros r. by apply IH.
Qed.

Lemma co_wf_ret {A} P (a : A) : co_wf P (co_ret a).
Proof. done. Qed.

Lemma co_wf_sync {B} P (m : M B) : keeps_ledger m -> co_wf P (co_sync m).
Proof. intros Hm. by split. Qed.

Lemma co_wf_await P call : co_wf P (co_await call).
Proof. by intros r. Qed.

Lemma co_wf_update_user_xp (P : adjust_call -> Prop) u g d :
  P (mk_adjust_call u g d) -> co_wf P (co_update_user_xp u g d).
Proof. intros Hcall. by split. Qed.

Lemma co_wf_for_each {A} P (l : list A) body :
  (forall x, co_wf P (body x)) -> co_wf P (co_for_each l body).
Proof.
  intros Hbody. induction l as [|x l IH]; cbn [co_for_each]; [done|].
  apply co_wf_bind; [apply Hbody|intros _; exact IH].
Qed.

Ltac co_wf_step :=
  first
    [ apply co_wf_ret
    | apply co_wf_await
    | apply co_wf_sync;
      first [ apply keeps_ledger_gets | apply keeps_ledger_fetchone
            | apply keeps_ledger_update_quest ]
    | apply co_wf_update_user_xp
    | apply co_wf_bind; [|intros ?]
    | apply co_wf_try; [|intros ?]
    | apply co_wf_for_each; intros ?
    | match goal with
      | |- co_wf _ (match ?x with _ => _ end) => destruct x
      | |- co_wf _ (let '(_, _) := ?x in _) => destruct x
      end ].

Section Wellformed.
Context `{Discord}.

Lemma co_wf_create_level_roles P g : co_wf P (Async.create_level_roles g).
Proof. unfold Async.create_level_roles. repeat co_wf_step. Qed.

(** A task makes no call of [update_user_xp]. *)
Lemma co_wf_run_task P t : co_wf P (Async.run_task t).
Proof.
  unfold Async.run_task, Async.update_user_level_role. cbn zeta.
  repeat first [ apply co_wf_create_level_roles | co_wf_step ].
Qed.

(** A handler calls [update_user_xp] for its own member and guild. *)
Lemma co_wf_start rev h :
  co_wf (fun call => call_user call = handler_user h
                     /\ call_guild call = handler_guild h) (start rev h).
Proof.
  destruct h; cbn [start handler_user handler_guild];
    unfold Async.on_reaction_add, Async.on_member_update, Async.add_xp,
      Async.remove_xp; cbn zeta; repeat co_wf_step; done.
Qed.

End Wellformed.

Lemma co_wf_weaken {A} (P Q : adjust_call -> Prop) (c : Co A) :
  (forall call, P call -> Q call) -> co_wf P c -> co_wf Q c.
Proof.
  intros HPQ.
  induction c as [r|B' m k IH|call k IH|call k IH]; cbn [co_wf]; [done|..].
  - intros [Hm Hk]. split; [done|]. intros r. by apply IH.
  - intros [Hcall Hk]. split; [by apply HPQ|]. intros r. by apply IH.
  - intros Hk r. by apply IH.
Qed.

(** *** One call against the pair *)

Lemma deltas_for_app m c l1 l2 :
  deltas_for m c (l1 ++ l2) = deltas_for m c l1 ++ deltas_for m c l2.
Proof. apply omap_app. Qed.

Lemma pair_inv_same_ledger m c x0 deltas w1 w2 :
  same_ledger w1 w2 -> pair_inv m c x0 deltas w2 -> pair_inv m c x0 deltas w1.
Proof.
  intros [Hconn Hledger] (Hsome & Hown & Hxp & Hrec). unfold pair_inv.
  rewrite Hledger. split; [by apply Hconn|done].
Qed.

(** The ledger after a call of [update_user_xp], on a connected bot. *)
Lemma update_user_xp_ledger rev u g d w db :
  db_connection (bot w) = Some db ->
  exists w',
    (update_user_xp rev u g d w).2 = w'
    /\ is_Some (db_connection (bot w'))
    /\ ledger w' =
         match users db !! u with
         | Some r =>
             if bool_decide (u_guild_id r = g) then
               let new_xp := Z.max 0 (u_xp r + d) in
               if bool_decide (new_xp <= INT64_MAX)
               then <[u := mk_user_row g new_xp (level_cascade new_xp)]> (users db)
               else users db
             else users db
         | None =>
             let new_xp := Z.max 0 (0 + d) in
             if bool_decide (new_xp <= INT64_MAX)
             then <[u := mk_user_row g new_xp (level_cascade new_xp)]> (users db)
             else <[u := mk_user_row g 0 1]> (users db)
         end.
Proof.
  intros Hdb. eexists. split; [reflexivity|].
  rewrite (update_user_xp_cases rev u g d w db Hdb).
  destruct (users db !! u) as [r|]; [case_bool_decide|]; cbn zeta;
    try case_bool_decide; cbn [snd];
    unfold ledger, set_loop_tasks, set_ledger, set_bot; cbn; rewrite Hdb; cbn;
    by eauto.
Qed.

Lemma update_user_xp_pair rev m c x0 deltas w call :
  on_pair m c call ->
  pair_inv m c x0 deltas w ->
  pair_inv m c x0 (deltas ++ deltas_for m c [call])
    (update_user_xp rev (call_user call) (call_guild call) (call_delta call) w).2.
Proof.
  destruct call as [u g d]. unfold on_pair. cbn [call_user call_guild call_delta].
  intros Hpair ([db Hdb] & Hown & Hxp & Hrec).
  rewrite (ledger_Some _ _ Hdb) in Hown, Hxp, Hrec.
  destruct (update_user_xp_ledger rev u g d w db Hdb) as (w' & -> & Hconn & Hledger).
  unfold pair_inv. rewrite Hledger. clear Hledger. split; [done|].
  unfold deltas_for, delta_for. cbn [omap list_omap call_user call_guild call_delta].
  destruct (decide (u = m)) as [->|Hne].
  - specialize (Hpair eq_refl). subst g. rewrite (bool_decide_true (m = m /\ c = c)) by done.
    rewrite fold_left_app. cbn [fold_left]. rewrite <- Hxp.
    unfold apply_delta, clamp_add.
    destruct (users db !! m) as [r|] eqn:Hu; cbn [fmap option_fmap option_map default].
    + rewrite (bool_decide_true (u_guild_id r = c)) by by apply Hown. cbn zeta.
      destruct (decide (Z.max 0 (u_xp r + d) <= INT64_MAX)) as [Hfit|Hfit].
      * rewrite !bool_decide_true by done. rewrite lookup_insert_eq. cbn.
        split; [by intros row [= <-]|]. split; [done|by eauto].
      * rewrite !bool_decide_false by done. rewrite Hu. cbn.
        split; [done|]. split; [done|by eauto].
    + cbn zeta.
      destruct (decide (Z.max 0 (0 + d) <= INT64_MAX)) as [Hfit|Hfit].
      * rewrite !bool_decide_true by done. rewrite lookup_insert_eq. cbn.
        split; [by intros row [= <-]|]. split; [done|by eauto].
      * rewrite !bool_decide_false by done. rewrite lookup_insert_eq. cbn.
        split; [by intros row [= <-]|]. split; [done|by eauto].
  - rewrite (bool_decide_false (u = m /\ g = c)) by (by intros [? _]).
    rewrite app_nil_r.
    assert (forall r', <[u := r']> (users db) !! m = users db !! m) as Hother
      by (intros r'; by rewrite lookup_insert_ne).
    destruct (users db !! u) as [r|] eqn:Hu; [case_bool_decide|]; cbn zeta;
      try case_bool_decide; rewrite ?Hother; done.
Qed.

(** *** One turn of a coroutine *)

Section Resume.
Context `{Discord}.
Variables (rev : revision) (m c x0 : Z).

Lemma resume_pair_inv i (co : Co unit) w log :
  co_wf (on_pair m c) co ->
  pair_inv m c x0 (deltas_for m c (map snd log)) w ->
  let '(co', w', log') := resume rev i co w log in
  pair_inv m c x0 (deltas_for m c (map snd log')) w' /\ co_wf (on_pair m c) co'.
Proof.
  revert w log.
  induction co as [r|B' s k IH|call k IH|call k IH]; intros w log Hwf Hinv;
    cbn [resume co_wf] in *.
  - done.
  - destruct Hwf as [Hs Hk]. pose proof (Hs w) as Hsame.
    destruct (s w) as [r w']. cbn [snd] in Hsame. apply IH; [done|].
    by eapply pair_inv_same_ledger.
  - destruct Hwf as [Hcall Hk].
    pose proof (update_user_xp_pair rev m c x0 _ w call Hcall Hinv) as Hstep.
    destruct (update_user_xp rev (call_user call) (call_guild call)
                (call_delta call) w) as [r w'].
    cbn [snd] in Hstep. apply IH; [done|].
    by rewrite map_app, deltas_for_app.
  - destruct (call (client w)) as [r c']. split; [|done]. exact Hinv.
Qed.

(** The calls made in the turn are the first calls on the way the
    coroutine was to go. *)
Lemma resume_trace i (co : Co unit) w log :
  let '(co', w', log') := resume rev i co w log in
  exists made,
    log' = log ++ map (pair i) made
    /\ forall calls res,
         co_trace co' calls res -> co_trace co (made ++ calls) res.
Proof.
  revert w log.
  induction co as [r|B' s k IH|call k IH|call k IH]; intros w log;
    cbn [resume co_trace].
  - exists []. by rewrite app_nil_r.
  - destruct (s w) as [r w']. specialize (IH r w' log).
    destruct (resume rev i (k r) w' log) as [[co' w''] log'].
    destruct IH as (made & Hlog & Htrace). exists made. split; [done|].
    intros calls res Hres. exists r. by apply Htrace.
  - destruct (update_user_xp rev (call_user call) (call_guild call)
                (call_delta call) w) as [r w'].
    specialize (IH r w' (log ++ [(i, call)])).
    destruct (resume rev i (k r) w' (log ++ [(i, call)])) as [[co' w''] log'].
    destruct IH as (made & Hlog & Htrace). exists (call :: made). split.
    + by rewrite Hlog, <- app_assoc.
    + intros calls res Hres. exists r, (made ++ calls). split; [done|].
      by apply Htrace.
  - destruct (call (client w)) as [r c']. exists []. split; [by rewrite app_nil_r|].
    intros calls res Hres. by exists r.
Qed.

End Resume.

Lemma calls_by_app i log1 log2 :
  calls_by i (log1 ++ log2) = calls_by i log1 ++ calls_by i log2.
Proof. apply omap_app. Qed.

Lemma calls_by_own i made : calls_by i (map (pair i) made) = made.
Proof.
  induction made as [|call made IH]; [done|].
  unfold calls_by in *. cbn. rewrite bool_decide_true by done. by rewrite IH.
Qed.

Lemma calls_by_other i j made : i ≠ j -> calls_by i (map (pair j) made) = [].
Proof.
  intros Hne. induction made as [|call made IH]; [done|].
  unfold calls_by in *. cbn. rewrite bool_decide_false by done. exact IH.
Qed.

Lemma fold_apply_delta_in_range deltas x :
  (forall k, fold_left clamp_add (take k deltas) x <= INT64_MAX) ->
  fold_left apply_delta deltas x = fold_left clamp_add deltas x.
Proof.
  revert x. induction deltas as [|d deltas IH]; intros x Hfit; [done|].
  cbn [fold_left]. pose proof (Hfit 1%nat) as Hfirst. cbn in Hfirst.
  assert (apply_delta x d = clamp_add x d) as ->
    by (unfold apply_delta; by rewrite bool_decide_true).
  apply IH. intros k. exact (Hfit (S k)).
Qed.

(** *** The calls on the ways through a handler *)

Lemma co_trace_bind {A B} (c : Co A) (f : A -> Co B) calls res :
  co_trace (co_bind c f) calls res ->
  (exists e, co_trace c calls (Raise e) /\ res = Raise e)
  \/ (exists a calls1 calls2,
        calls = calls1 ++ calls2
        /\ co_trace c calls1 (Ok a) /\ co_trace (f a) calls2 res).
Proof.
  revert calls.
  induction c as [[a|e]|B' m k IH|call k IH|call k IH]; intros calls;
    cbn [co_bind co_trace].
  - intros Hf. right. by exists a, [], calls.
  - intros [-> ->]. left. by exists e.
  - intros [r Hr]. destruct (IH r _ Hr) as [(e & He & ->)|(a & c1 & c2 & -> & H1 & H2)].
    + left. exists e. split; [by exists r|done].
    + right. exists a, c1, c2. split; [done|]. split; [by exists r|done].
  - intros (r & rest & -> & Hr).
    destruct (IH r _ Hr) as [(e & He & ->)|(a & c1 & c2 & -> & H1 & H2)].
    + left. exists e. split; [by exists r, rest|done].
    + right. exists a, (call :: c1), c2. split; [done|].
      split; [by exists r, c1|done].
  - intros [r Hr]. destruct (IH r _ Hr) as [(e & He & ->)|(a & c1 & c2 & -> & H1 & H2)].
    + left. exists e. split; [by exists r|done].
    + right. exists a, c1, c2. split; [done|]. split; [by exists r|done].
Qed.

(** A loop whose body makes at most one call, and only calls that satisfy
    [Q], makes at most as many calls as it has rounds, all satisfying [Q]. *)
Lemma co_trace_for_each {A} (Q : adjust_call -> Prop) (l : list A) body calls res :
  (forall x calls' res',
     co_trace (body x) calls' res' ->
     Forall Q calls' /\ (length calls' <= 1)%nat) ->
  co_trace (co_for_each l body) calls res ->
  Forall Q calls /\ (length calls <= length l)%nat.
Proof.
  intros Hbody. revert calls.
  induction l as [|x l IH]; intros calls; cbn [co_for_each].
  - intros [-> _]. split; [constructor|done].
  - intros Htrace.
    apply co_trace_bind in Htrace as [(e & He & _)|(a & c1 & c2 & -> & H1 & H2)].
    + destruct (Hbody _ _ _ He) as [HQ Hlen]. split; [done|]. cbn. lia.
    + destruct (Hbody _ _ _ H1) as [HQ Hlen]. destruct (IH _ H2) as [HQ' Hlen'].
      split; [by apply Forall_app|]. rewrite length_app. cbn. lia.
Qed.

(** Follow a way through a coroutine given by its code. *)
Ltac trace_cases H :=
  cbn [co_trace co_bind co_try co_ret co_sync co_await co_update_user_xp] in H;
  lazymatch type of H with
  | ex _ => let r := fresh "r" in destruct H as [r H]; trace_cases H
  | _ = _ :: _ /\ _ => let E := fresh "E" in destruct H as [E H]; trace_cases H
  | co_trace (match ?x with _ => _ end) _ _ => destruct x; trace_cases H
  | co_trace (if ?x then _ else _) _ _ => destruct x; trace_cases H
  | _ => idtac
  end.

Section HandlerTraces.
Context `{Discord}.

(** The calls of a handler that has come to its end. *)
Lemma start_trace rev h calls res :
  co_trace (start rev h) calls res -> issued_by h calls.
Proof.
  destruct h as [reaction user|before after|ctx member amount|ctx member amount];
    cbn [start issued_by].
  - unfold Async.on_reaction_add. intros Htrace. trace_cases Htrace;
      destruct Htrace as [-> _]; subst; by eauto.
  - unfold Async.on_member_update. cbn zeta. intros Htrace. trace_cases Htrace;
      try (destruct Htrace as [-> _]; split; [constructor|cbn; lia]).
    rewrite <- (Permutation_length (set_order_elements _ _)).
    revert Htrace. apply co_trace_for_each. intros role calls' res' Hbody.
    trace_cases Hbody; destruct Hbody as [-> _]; subst;
      split; repeat constructor.
  - unfold Async.add_xp. intros Htrace. trace_cases Htrace;
      destruct Htrace as [-> _]; by subst.
  - unfold Async.remove_xp. intros Htrace. trace_cases Htrace;
      destruct Htrace as [-> _]; by subst.
Qed.

End HandlerTraces.

(** *** The event loop *)

Lemma stored_xp_own m c w :
  (forall row, ledger w !! m = Some row -> u_guild_id row = c) ->
  stored_xp m c w = u_xp <$> ledger w !! m.
Proof.
  intros Hown. unfold stored_xp, stored_record, ledger, select_user in *.
  destruct (db_connection (bot w)) as [db|]; [|done].
  destruct (users db !! m) as [row|]; [|done].
  by rewrite bool_decide_true by by apply Hown.
Qed.

Section Interleaving.
Context `{Discord}.
Variables (rev : revision) (m c x0 : Z) (hs : list handler).

Lemma loop_inv_step st t :
  loop_inv rev m c x0 hs st -> loop_inv rev m c x0 hs (loop_step rev st t).
Proof.
  destruct st as [[pool w] log]. intros (Hpair & Hwf & Htraces).
  destruct t as [i|]; cbn [loop_step].
  - destruct (pool !! i) as [co|] eqn:Hi; [|done].
    pose proof (resume_pair_inv rev m c x0 i co w log
                  (proj1 (Forall_lookup _ _) Hwf _ _ Hi) Hpair) as Hstep.
    pose proof (resume_trace rev i co w log) as Hmade.
    destruct (resume rev i co w log) as [[co' w'] log'].
    destruct Hstep as [Hpair' Hwf']. destruct Hmade as (made & -> & Hmade).
    split; [done|]. split; [by apply Forall_insert|].
    intros j h Hj. destruct (Htraces j h Hj) as (coj & Hcoj & Hway).
    rewrite calls_by_app. destruct (decide (j = i)) as [->|Hne].
    + exists co'. split; [apply list_lookup_insert_eq; by eapply lookup_lt_Some|].
      intros calls res Hres. rewrite calls_by_own, <- app_assoc.
      apply Hway. rewrite Hi in Hcoj. injection Hcoj as <-. by apply Hmade.
    + exists coj. split; [by rewrite list_lookup_insert_ne|].
      by rewrite calls_by_other, app_nil_r.
  - destruct (loop_tasks w) as [|task tasks]; [done|].
    split; [exact Hpair|].
    split.
    { apply Forall_app. split; [done|]. apply Forall_cons.
      split; [apply co_wf_run_task|constructor]. }
    intros j h Hj. destruct (Htraces j h Hj) as (coj & Hcoj & Hway).
    exists coj. split; [|done]. by apply lookup_app_l_Some.
Qed.

Lemma loop_inv_run sched st :
  loop_inv rev m c x0 hs st -> loop_inv rev m c x0 hs (run_loop rev sched st).
Proof.
  revert st. induction sched as [|t sched IH]; intros st Hst; [done|].
  cbn. apply IH. by apply loop_inv_step.
Qed.

Lemma loop_inv_start w :
  is_Some (db_connection (bot w)) ->
  (forall row, ledger w !! m = Some row -> u_guild_id row = c) ->
  default 0 (u_xp <$> ledger w !! m) = x0 ->
  (forall h, h ∈ hs -> handler_user h = m -> handler_guild h = c) ->
  loop_inv rev m c x0 hs (map (start rev) hs, w, []).
Proof.
  intros Hconn Hown Hx0 Hpair. split; [|split].
  - by repeat split.
  - apply Forall_fmap, Forall_forall. intros h Hh. cbn.
    apply (co_wf_weaken (fun call => call_user call = handler_user h
                                     /\ call_guild call = handler_guild h));
      [|apply co_wf_start].
    intros call [Hu Hg]. unfold on_pair. rewrite Hu, Hg. by apply Hpair.
  - intros i h Hi. exists (start rev h). split; [by rewrite list_lookup_fmap, Hi|].
    by intros calls res Hres.
Qed.

End Interleaving.

(** C1 (as stated, refuted). Two additions for member 1 in guild 10, who
    stands at 50 XP: one of 2 ** 63 and one of 30.  Both calls are made,
    and the store ends at 80, not at [50 + 2 ** 63 + 30]: the delta that
    SQLite cannot hold is refused. *)
Lemma delta_beyond_int64_is_not_applied :
  let '(pool', w', log) :=
    @run_loop quiet_discord Bot4Py [Resume 0; Resume 1]
      (map (@start quiet_discord Bot4Py)
         [ AddXp (mk_Context 10 5) 1 9223372036854775808;
           AddXp (mk_Context 10 5) 1 30 ],
       world_with_record 1 10 50 1, []) in
  deltas_for 1 10 (map snd log) = [9223372036854775808; 30]
  /\ stored_xp 1 10 w' = Some 80
  /\ fold_left clamp_add [9223372036854775808; 30] 50 = 9223372036854775888.
Proof. vm_compute. by repeat split. Qed.

(** C1 (amended). Handlers are suspended at their awaits only, and between
    the read and the write of [update_user_xp] there is none.  So for a
    member [m] with no record under another guild than [c], any pool of
    handlers (quest completions, role updates, staff additions and
    removals, those for [m] all in guild [c]) and any schedule of the event
    loop, with the level-role tasks started at any time: the stored xp of
    [(m, c)] is the xp at the start (0 without a record) with the deltas of
    all the calls made against the pair applied in the order the calls
    ran, a delta whose new xp would exceed 2 ** 63 - 1 being refused and
    every other one clamped at 0; with every step within that range this is
    the initial xp with all deltas applied, each clamped at 0.  A handler
    that has come to its end has made the calls of one way through its
    code: a staff command its one call. *)
Theorem interleaved_adjusts_lose_no_delta `{Discord} (rev : revision)
  (hs : list handler) (sched : list turn) (w : World) (m c : Z)
  (Hconn : is_Some (db_connection (bot w)))
  (Hown : forall g x l, stored_record m g w = Some (x, l) -> g = c)
  (Hpair : forall h, h ∈ hs -> handler_user h = m -> handler_guild h = c) :
  let x0 := default 0 (stored_xp m c w) in
  let '(pool', w', log) := run_loop rev sched (map (start rev) hs, w, []) in
  let deltas := deltas_for m c (map snd log) in
  default 0 (stored_xp m c w') = fold_left apply_delta deltas x0
  /\ (deltas ≠ [] -> is_Some (stored_xp m c w'))
  /\ ((forall k, fold_left clamp_add (take k deltas) x0 <= INT64_MAX) ->
        default 0 (stored_xp m c w') = fold_left clamp_add deltas x0)
  /\ (forall i h res,
        hs !! i = Some h -> pool' !! i = Some (CoRet res) ->
        issued_by h (calls_by i log)).
Proof.
  intros x0.
  assert (forall row, ledger w !! m = Some row -> u_guild_id row = c) as Hown'.
  { intros [g x l] Hrow. apply (Hown g x l). destruct Hconn as [db Hdb].
    rewrite (ledger_Some _ _ Hdb) in Hrow.
    unfold stored_record, select_user. rewrite Hdb, Hrow. cbn.
    by rewrite bool_decide_true. }
  pose proof (loop_inv_run rev m c x0 hs sched _
                (loop_inv_start rev m c x0 hs w Hconn Hown'
                   (eq_sym (f_equal (default 0) (stored_xp_own m c w Hown')))
                   Hpair)) as Hinv.
  destruct (run_loop rev sched (map (start rev) hs, w, [])) as [[pool' w'] log].
  destruct Hinv as ((_ & Hown1 & Hxp & Hrec) & _ & Htraces). cbn zeta.
  rewrite (stored_xp_own m c w' Hown1).
  split; [exact Hxp|]. split.
  { intros Hne. destruct (Hrec Hne) as [row ->]. by eexists. }
  split.
  { intros Hfit. rewrite Hxp. by apply fold_apply_delta_in_range. }
  intros i h res Hi Hend. destruct (Htraces i h Hi) as (co & Hco & Hway).
  rewrite Hend in Hco. injection Hco as <-.
  apply (start_trace rev h _ res). rewrite <- (app_nil_r (calls_by i log)).
  by apply Hway.
Qed.

Lemma interleaved_adjusts_lose_no_delta_witness :
  (let x0 := default 0 (stored_xp 1 10 quest_world) in
   let '(pool', w', log) :=
     @run_loop quiet_discord Bot4Py busy_schedule
       (map (@start quiet_discord Bot4Py) busy_handlers, quest_world, []) in
   let deltas := deltas_for 1 10 (map snd log) in
   default 0 (stored_xp 1 10 w') = fold_left apply_delta deltas x0
   /\ (deltas ≠ [] -> is_Some (stored_xp 1 10 w'))
   /\ ((forall k, fold_left clamp_add (take k deltas) x0 <= INT64_MAX) ->
         default 0 (stored_xp 1 10 w') = fold_left clamp_add deltas x0)
   /\ (forall i h res,
         busy_handlers !! i = Some h -> pool' !! i = Some (CoRet res) ->
         issued_by h (calls_by i log)))
  /\ (let '(pool', w', log) :=
        @run_loop quiet_discord Bot4Py busy_schedule
          (map (@start quiet_discord Bot4Py) busy_handlers, quest_world, []) in
      stored_xp 1 10 quest_world = Some 120
      /\ deltas_for 1 10 (map snd log) = [-200; 30; 50]
      /\ stored_xp 1 10 w' = Some 80).
Proof.
  split; [|vm_compute; by repeat split].
  apply (@interleaved_adjusts_lose_no_delta quiet_discord Bot4Py busy_handlers
           busy_schedule quest_world 1 10).
  - by eexists.
  - intros g x l Hrec. apply stored_record_inv in Hrec as (db & Hdb & Hrow).
    vm_compute in Hdb. injection Hdb as <-. vm_compute in Hrow.
    by injection Hrow as <- _ _.
  - intros h Hh _.
    repeat (apply elem_of_cons in Hh as [->|Hh]; [reflexivity|]).
    by apply elem_of_nil in Hh.
Defined.

(** A member without a record starts from 0: a removal of 100, an addition
    of 30 and a quest completion, in this order of their calls, leave the
    new record at 80. *)
Example pair_without_record_starts_from_zero :
  let w := (add_quest_record 100 10 5 "quest" "text" (init_world ∅)).2 in
  let '(pool', w', log) :=
    @run_loop quiet_discord Bot4Py [Resume 1; Resume 0; Resume 2; Resume 0]
      (map (@start quiet_discord Bot4Py)
         [ AddXp (mk_Context 10 5) 1 30;
           RemoveXp (mk_Context 10 5) 1 100;
           OnReactionAdd quest_signal (mk_User 1 false) ],
       w, []) in
  stored_xp 1 10 w = None
  /\ deltas_for 1 10 (map snd log) = [-100; 30; 50]
  /\ stored_xp 1 10 w' = Some 80.
Proof. vm_compute. by repeat split. Qed.

(** A member whose record is under another guild is left out above: there
    every call raises [IntegrityError] at the [INSERT] (the primary key on
    [user_id] alone), and no delta is stored for the pair. *)
Example record_under_other_guild_takes_no_delta :
  let '(pool', w', log) :=
    @run_loop quiet_discord Bot4Py [Resume 0; Resume 1]
      (map (@start quiet_discord Bot4Py)
         [ AddXp (mk_Context 20 5) 1 30; AddXp (mk_Context 20 5) 1 20 ],
       world_with_record 1 10 120 2, []) in
  deltas_for 1 20 (map snd log) = [30; 20]
  /\ pool' = [CoRet (Raise IntegrityError); CoRet (Raise IntegrityError)]
  /\ stored_xp 1 20 w' = None
  /\ stored_xp 1 10 w' = Some 120.
Proof. vm_compute. by repeat split. Qed.

(** For contrast: were the write made after an await, a delta could be
    lost.  Two adjustments of 30 and of 20 on the record at 50 XP, each
    awaiting between its read and its write: run one after the other they
    leave 100, but when the second reads before the first has written they
    leave 70. *)
Example write_across_await_loses_a_delta :
  stored_xp 1 10
    (@run_loop quiet_discord Bot4Py [Resume 0; Resume 0; Resume 1; Resume 1]
       ([@adjust_across_await quiet_discord 1 10 30;
         @adjust_across_await quiet_discord 1 10 20],
        world_with_record 1 10 50 1, [])).1.2 = Some 100
  /\ stored_xp 1 10
       (@run_loop quiet_discord Bot4Py [Resume 0; Resume 1; Resume 0; Resume 1]
          ([@adjust_across_await quiet_discord 1 10 30;
            @adjust_across_await quiet_discord 1 10 20],
           world_with_record 1 10 50 1, [])).1.2 = Some 70.
Proof. split; vm_compute; reflexivity. Qed.

(** * Further properties of the two files *)

(** ** The leaderboard *)

Lemma by_xp_desc_transitive : Transitive by_xp_desc.
Proof. intros a b c. unfold by_xp_desc. lia. Qed.

Lemma by_xp_desc_total : Total by_xp_desc.
Proof. intros a b. unfold by_xp_desc. lia. Qed.

Lemma elem_of_guild_rows g db u x l :
  (u, x, l) ∈ guild_rows g db <-> users db !! u = Some (mk_user_row g x l).
Proof.
  unfold guild_rows. rewrite list_elem_of_omap. split.
  - intros ([u' r] & Hin & Hrow). apply elem_of_map_to_list in Hin.
    cbn in Hrow. case_bool_decide as Hg; [|done]. injection Hrow as -> <- <-.
    rewrite Hin. by destruct r as [g' x' l']; cbn in *; subst.
  - intros Hu. exists (u, mk_user_row g x l). split.
    + by apply elem_of_map_to_list.
    + cbn. by rewrite bool_decide_true.
Qed.

Lemma guild_rows_users_NoDup g db : NoDup (map board_user (guild_rows g db)).
Proof.
  unfold guild_rows. pose proof (NoDup_fst_map_to_list (users db)) as Hnodup.
  induction (map_to_list (users db)) as [|[u r] rows IH]; [constructor|].
  cbn in Hnodup. apply NoDup_cons in Hnodup as [Hfresh Hnodup].
  cbn [omap list_omap]. cbn [fst snd].
  case_bool_decide; [|by apply IH].
  cbn [map]. apply NoDup_cons. split; [|by apply IH].
  intros Hin. apply Hfresh. apply list_elem_of_fmap in Hin as ([[u' x'] l'] & Hu & Hin).
  cbn in Hu. subst u'. apply list_elem_of_omap in Hin as ([u'' r''] & Hin & Hrow).
  cbn in Hrow. case_bool_decide; [|done]. injection Hrow as -> _ _.
  apply list_elem_of_fmap. by exists (u, r'').
Qed.

Lemma sql_limit_sublist {A} limit (rows : list A) : sublist (sql_limit limit rows) rows.
Proof.
  unfold sql_limit. destruct (limit <? 0); [done|]. apply sublist_take.
Qed.

Lemma stored_record_users u g w x l db :
  db_connection (bot w) = Some db ->
  stored_record u g w = Some (x, l) <-> users db !! u = Some (mk_user_row g x l).
Proof.
  intros Hdb. split.
  - intros Hrec. destruct (stored_record_inv _ _ _ _ _ Hrec) as (db' & Hdb' & Hrow).
    by simplify_eq.
  - intros Hrow. unfold stored_record, select_user. rewrite Hdb, Hrow. cbn.
    by rewrite bool_decide_true.
Qed.


(** X1. On a connected bot, [get_leaderboard] returns without changing the
    state; each row is a stored record of the guild, no user comes twice,
    the rows are in descending order of xp, and no more than [limit] of them
    for a limit that is not negative.  A record of the guild that is left
    out has an xp no greater than that of every returned row, and the
    result is then full. *)
Theorem leaderboard_is_top_of_guild (g limit : Z) (w : World) (db : Database)
  (Hdb : db_connection (bot w) = Some db) :
  exists rows,
    get_leaderboard g limit w = (Ok rows, w)
    /\ (forall u x l, (u, x, l) ∈ rows -> stored_record u g w = Some (x, l))
    /\ NoDup (map board_user rows)
    /\ StronglySorted by_xp_desc rows
    /\ (0 <= limit -> (length rows <= Z.to_nat limit)%nat)
    /\ (forall u x l,
          stored_record u g w = Some (x, l) ->
          (u, x, l) ∈ rows
          \/ (0 <= limit /\ length rows = Z.to_nat limit
              /\ forall r, r ∈ rows -> x <= board_xp r)).
Proof.
  exists (select_leaderboard g limit db). split.
  { unfold get_leaderboard, bind, gets, fetchall. reduce_with Hdb. reflexivity. }
  pose proof (merge_sort_Permutation by_xp_desc (guild_rows g db)) as Hperm.
  pose proof (@StronglySorted_merge_sort _ by_xp_desc _ by_xp_desc_transitive
                by_xp_desc_total (guild_rows g db)) as Hsorted.
  unfold select_leaderboard.
  set (sorted := merge_sort by_xp_desc (guild_rows g db)) in *.
  pose proof (sql_limit_sublist limit sorted) as Hsub.
  split; [|split; [|split; [|split]]].
  - intros u x l Hin. apply (stored_record_users _ _ _ _ _ _ Hdb).
    apply elem_of_guild_rows. rewrite <- Hperm. by eapply elem_of_sublist.
  - eapply sublist_NoDup; [|by apply fmap_sublist].
    rewrite Hperm. apply guild_rows_users_NoDup.
  - unfold sql_limit. destruct (limit <? 0); [done|].
    rewrite <- (take_drop (Z.to_nat limit) sorted) in Hsorted.
    by apply StronglySorted_app_1_l in Hsorted.
  - intros Hlimit. unfold sql_limit.
    destruct (Z.ltb_spec limit 0); [lia|]. rewrite length_take. lia.
  - intros u x l Hrec. apply (stored_record_users _ _ _ _ _ _ Hdb) in Hrec.
    apply elem_of_guild_rows in Hrec. rewrite <- Hperm in Hrec.
    unfold sql_limit. destruct (Z.ltb_spec limit 0) as [Hneg|Hpos]; [by left|].
    rewrite <- (take_drop (Z.to_nat limit) sorted) in Hrec, Hsorted.
    apply elem_of_app in Hrec as [Hin|Hout]; [by left|right].
    split; [done|]. split.
    + rewrite length_take. apply Nat.min_l.
      destruct (decide (Z.to_nat limit <= length sorted)%nat); [done|].
      rewrite drop_ge in Hout by lia. by apply elem_of_nil in Hout.
    + intros r Hr.
      exact (StronglySorted_app_1_elem_of _ _ _ _ _ Hsorted Hr Hout).
Qed.

Lemma leaderboard_is_top_of_guild_witness :
  exists rows,
    get_leaderboard 10 2 board_world = (Ok rows, board_world)
    /\ rows = [(2, 700, 3); (1, 120, 2)].
Proof.
  destruct (leaderboard_is_top_of_guild 10 2 board_world
              (set_users {[ 1 := mk_user_row 10 120 2; 2 := mk_user_row 10 700 3;
                            3 := mk_user_row 20 9000 8; 4 := mk_user_row 10 0 1 ]}
                 empty_database) eq_refl) as (rows & Hrun & _).
  exists rows. split; [exact Hrun|].
  vm_compute in Hrun. by injection Hrun as <-.
Defined.

(** The aggregator, given that the ledger read succeeds. *)
Lemma calculate_total_user_xp_of_get u g w ud w1 :
  get_user_data u g w = (Ok ud, w1) ->
  calculate_total_user_xp u g w = (Ok (total_xp_of w u g (xp ud)), w1).
Proof.
  intros Hget. pose proof (get_user_data_frame u g w) as Hframe.
  rewrite Hget in Hframe. cbn [snd] in Hframe.
  destruct Hframe as (_ & _ & Hassign & _).
  unfold calculate_total_user_xp, total_xp_of, try_except.
  unfold bind at 1, gets at 1. cbn beta iota.
  destruct (client w !! g) as [gd|]; [destruct (guild_members gd !! u) as [roles|]|];
    unfold bind, gets; rewrite Hget; cbn beta iota; unfold ret;
    rewrite ?Hassign; reflexivity.
Qed.

Lemma total_xp_of_ge w u g base : base <= total_xp_of w u g base.
Proof.
  unfold total_xp_of.
  destruct (client w !! g) as [gd|]; [destruct (guild_members gd !! u)|]; lia.
Qed.



(** ** What the ledger can hold *)

Section LedgerTable.
Context `{Discord}.
Variable LP : gmap Z user_row -> Prop.
Hypothesis LP_insert :
  forall us u g x, 0 <= x -> LP us ->
    LP (<[u := mk_user_row g x (level_cascade x)]> us).

Local Abbreviation table_ok := (fun w : World => LP (ledger w)).

Lemma table_get_user_data u g : preserves table_ok (get_user_data u g).
Proof.
  intros w Hw. destruct (db_connection (bot w)) as [db|] eqn:Hdb.
  - rewrite (get_user_data_cases u g w db Hdb).
    destruct (users db !! u) as [r|] eqn:Hu; [by case_bool_decide|].
    cbn [snd]. rewrite (ledger_set_ledger _ _ _ Hdb).
    rewrite (ledger_Some _ _ Hdb) in Hw.
    change (mk_user_row g 0 1) with (mk_user_row g 0 (level_cascade 0)).
    by apply LP_insert.
  - unfold get_user_data, bind, gets. by rewrite Hdb.
Qed.

Lemma table_update_user_xp rev u g d : preserves table_ok (update_user_xp rev u g d).
Proof.
  intros w Hw. destruct (db_connection (bot w)) as [db|] eqn:Hdb.
  - rewrite (update_user_xp_cases rev u g d w db Hdb).
    destruct (users db !! u) as [r|] eqn:Hu; [case_bool_decide; [|done]|];
      cbn zeta; (case_bool_decide; [|try done]);
      cbn [snd]; rewrite ?ledger_set_loop_tasks, (ledger_set_ledger _ _ _ Hdb);
      rewrite (ledger_Some _ _ Hdb) in Hw;
      try change (mk_user_row g 0 1) with (mk_user_row g 0 (level_cascade 0));
      (apply LP_insert; [lia|done]).
  - unfold update_user_xp, bind, gets. by rewrite Hdb.
Qed.

Lemma table_execute_other stmt :
  (forall db db', stmt db = Ok db' -> users db' = users db) ->
  preserves table_ok (execute stmt).
Proof.
  intros Hstmt. apply preserves_execute. intros w db db' Hdb Hrun Hw.
  unfold ledger in *. cbn. rewrite Hdb in Hw. by rewrite (Hstmt _ _ Hrun).
Qed.

Lemma table_await call : preserves table_ok (await call).
Proof. apply preserves_await. intros w c Hw. exact Hw. Qed.

Lemma table_modify_bot f :
  (forall b, db_connection (f b) = db_connection b) ->
  preserves table_ok (modify (set_bot f)).
Proof.
  intros Hf. apply preserves_modify. intros w Hw.
  unfold ledger in *. cbn. by rewrite Hf.
Qed.

Lemma table_create_task t : preserves table_ok (create_task t).
Proof. apply preserves_modify. intros w Hw. exact Hw. Qed.

Lemma table_run_next_task : preserves table_ok run_next_task.
Proof.
  intros w Hw. unfold ledger. by rewrite run_next_task_bot.
Qed.

Lemma table_exec rev c : preserves table_ok (exec rev c).
Proof.
  destruct c; cbn [exec];
    unfold discard, set_quest_ping, set_quest_channel, assign_role_xp, add_xp,
      remove_xp, on_reaction_add, on_member_update, add_quest_record,
      remove_quest_record, save_settings, load_settings,
      calculate_total_user_xp, create_level_roles;
    try apply table_run_next_task;
    repeat first
      [ apply table_get_user_data
      | apply table_update_user_xp
      | apply table_await
      | apply table_create_task
      | apply table_execute_other;
        first [ apply update_quest_users | apply insert_quest_users
              | apply delete_quest_users | apply replace_settings_users ]
      | apply table_modify_bot; intros b; try reflexivity;
        try (by destruct (role_xp_assignments b !! _))
      | preserves_step ].
Qed.

Lemma table_exec_all rev cs w : LP (ledger w) -> LP (ledger (exec_all rev cs w)).
Proof.
  revert w. induction cs as [|c cs IH]; intros w Hw; [done|].
  cbn. apply IH. by apply (table_exec rev c w).
Qed.

End LedgerTable.

(** X3. Along every run of the bot's operations that starts from records
    with xp at least 0 and level within 1..10, every stored record keeps an
    xp of at least 0 and a level within 1..10: neither [get_user_data] nor
    [update_user_xp] ever stores a negative xp, whatever is removed. *)
Theorem stored_xp_and_level_stay_in_range `{Discord} (rev : revision)
  (cs : list command) (w : World)
  (Hrange : map_Forall (fun _ r => row_in_range r) (ledger w)) :
  forall u g x l,
    stored_record u g (exec_all rev cs w) = Some (x, l) ->
    0 <= x /\ 1 <= l <= 10.
Proof.
  intros u g x l Hrec.
  assert (map_Forall (fun _ r => row_in_range r) (ledger (exec_all rev cs w)))
    as Hall.
  { apply (table_exec_all (map_Forall (fun _ r => row_in_range r))); [|done].
    intros us u' g' x' Hx' Hus. apply map_Forall_insert_2; [|done].
    split; [done|]. apply level_cascade_range. }
  destruct (stored_record_inv _ _ _ _ _ Hrec) as (db & Hdb & Hrow).
  rewrite (ledger_Some _ _ Hdb) in Hall. exact (Hall _ _ Hrow).
Qed.

Lemma stored_xp_and_level_stay_in_range_witness :
  stored_record 1 10
    (@exec_all quiet_discord Bot4Py
       [CAddXp (mk_Context 10 5) 1 30; CRemoveXp (mk_Context 10 5) 1 500]
       (init_world ∅)) = Some (0, 1)
  /\ 0 <= 0 /\ 1 <= 1 <= 10.
Proof.
  split; [vm_compute; reflexivity|].
  apply (@stored_xp_and_level_stay_in_range quiet_discord Bot4Py
           [CAddXp (mk_Context 10 5) 1 30; CRemoveXp (mk_Context 10 5) 1 500]
           (init_world ∅) (map_Forall_empty _) 1 10 0 1).
  vm_compute. reflexivity.
Defined.

(** ** What the quests table can hold *)

Section QuestTable.
Context `{Discord}.
Variable QP : gmap Z quest_row -> Prop.

Local Abbreviation quests_keep := (fun w : World => QP (quest_table w)).

Lemma quests_execute_other stmt :
  (forall db db', stmt db = Ok db' -> quests db' = quests db) ->
  preserves quests_keep (execute stmt).
Proof.
  intros Hstmt. apply preserves_execute. intros w db db' Hdb Hrun Hw.
  unfold quest_table in *. cbn. rewrite Hdb in Hw. by rewrite (Hstmt _ _ Hrun).
Qed.

Lemma quests_await call : preserves quests_keep (await call).
Proof. apply preserves_await. intros w c Hw. exact Hw. Qed.

Lemma quests_modify_bot f :
  (forall b, db_connection (f b) = db_connection b) ->
  preserves quests_keep (modify (set_bot f)).
Proof.
  intros Hf. apply preserves_modify. intros w Hw.
  unfold quest_table in *. cbn. by rewrite Hf.
Qed.

Lemma quests_create_task t : preserves quests_keep (create_task t).
Proof. apply preserves_modify. intros w Hw. exact Hw. Qed.

Lemma insert_user_quests u g db db' : insert_user u g db = Ok db' -> quests db' = quests db.
Proof. unfold insert_user. destruct (users db !! u); [done|]. by intros [= <-]. Qed.

Lemma update_user_quests x l u g db db' :
  update_user x l u g db = Ok db' -> quests db' = quests db.
Proof.
  unfold update_user. destruct (_ && _); [|done].
  destruct (users db !! u); [case_bool_decide|]; by intros [= <-].
Qed.

Lemma replace_settings_quests g row db db' :
  replace_settings g row db = Ok db' -> quests db' = quests db.
Proof. by intros [= <-]. Qed.

End QuestTable.

(** The handlers that never write to [quests]. *)
Ltac quests_auto QP :=
  repeat first
    [ apply (quests_await QP)
    | apply (quests_create_task QP)
    | apply (quests_execute_other QP);
      first [ apply insert_user_quests | apply update_user_quests
            | apply replace_settings_quests ]
    | apply (quests_modify_bot QP); intros ?b; try reflexivity;
      try (by destruct (role_xp_assignments _ !! _))
    | preserves_step ].

Section QuestsOk.
Context `{Discord}.

Lemma quest_table_update_user_xp rev u g d w :
  quest_table (update_user_xp rev u g d w).2 = quest_table w.
Proof.
  assert (preserves (fun w' => quest_table w' = quest_table w)
            (update_user_xp rev u g d)) as Hkeep
    by (unfold update_user_xp, get_user_data;
        quests_auto (fun t : gmap Z quest_row => t = quest_table w)).
  by apply Hkeep.
Qed.

Lemma quest_table_run_next_task w : quest_table (run_next_task w).2 = quest_table w.
Proof. unfold quest_table. by rewrite run_next_task_bot. Qed.

Lemma quests_ok_on_reaction_add rev r u : preserves quests_ok (on_reaction_add rev r u).
Proof.
  intros w Hw. unfold on_reaction_add.
  destruct (usr_bot u); [done|]. case_bool_decide; [|done].
  unfold bind at 1, gets at 1. cbn beta iota.
  destruct (db_connection (bot w)) as [db|] eqn:Hdb; [|done].
  unfold bind at 1, fetchone at 1, select_quest. reduce_with Hdb.
  destruct (quests db !! reaction_message_id r) as [q|] eqn:Hq; [|done].
  cbn beta iota. case_bool_decide as Hnotin; [|done].
  unfold bind at 1.
  pose proof (quest_table_update_user_xp rev (usr_id u) (reaction_guild_id r) 50 w)
    as Hsame.
  destruct (update_user_xp rev (usr_id u) (reaction_guild_id r) 50 w)
    as [[res|e] w1]; cbn [snd] in Hsame; cbn beta iota;
    [|cbn [snd]; unfold quests_ok; by rewrite Hsame].
  assert (quests_ok w1) as Hw1 by (unfold quests_ok; by rewrite Hsame).
  unfold quest_table in Hsame. rewrite Hdb in Hsame.
  unfold bind, execute, update_quest, await.
  destruct (db_connection (bot w1)) as [db1|] eqn:Hdb1; [|done].
  rewrite Hsame, Hq. cbn.
  destruct (send (reaction_channel_id r) (client w1)) as [res' c]. cbn.
  unfold quests_ok, quest_table. cbn.
  apply map_Forall_insert_2.
  - cbn. apply NoDup_app. split; [|split].
    + unfold quests_ok, quest_table in Hw. rewrite Hdb in Hw. exact (Hw _ _ Hq).
    + intros x Hx Hx'. apply list_elem_of_singleton in Hx'. by subst.
    + apply NoDup_singleton.
  - rewrite <- Hsame. unfold quests_ok, quest_table in Hw1. by rewrite Hdb1 in Hw1.
Qed.

Lemma quests_ok_exec rev c : preserves quests_ok (exec rev c).
Proof.
  destruct c; cbn [exec];
    try apply quests_ok_on_reaction_add;
    unfold discard, set_quest_ping, set_quest_channel, assign_role_xp, add_xp,
      remove_xp, on_member_update, add_quest_record,
      remove_quest_record, save_settings, load_settings,
      calculate_total_user_xp, create_level_roles, update_user_xp, get_user_data.
  all: try (unfold quests_ok;
            quests_auto (fun t : gmap Z quest_row =>
                           map_Forall (fun _ q => NoDup (q_completed_users q)) t);
            fail).
  - (* add_quest *)
    unfold quests_ok. preserves_auto. apply preserves_execute.
    intros w db db' Hdb Hrun Hw. unfold quest_table in *. cbn. rewrite Hdb in Hw.
    unfold insert_quest in Hrun. destruct (quests db !! _); [done|].
    injection Hrun as <-. cbn. apply map_Forall_insert_2; [constructor|done].
  - (* remove_quest *)
    unfold quests_ok. preserves_auto. apply preserves_execute.
    intros w db db' Hdb [= <-] Hw. unfold quest_table in *. cbn. rewrite Hdb in Hw.
    by apply map_Forall_delete.
  - (* run_next_task *)
    intros w Hw. unfold quests_ok. by rewrite quest_table_run_next_task.
Qed.

Lemma quests_ok_exec_all rev cs w : quests_ok w -> quests_ok (exec_all rev cs w).
Proof.
  revert w. induction cs as [|c cs IH]; intros w Hw; [done|].
  cbn. apply IH. by apply quests_ok_exec.
Qed.

End QuestsOk.

(** X4. Along every run of the bot's operations, no member is listed twice
    among the completed users of a stored quest: a quest starts with an
    empty list and [on_reaction_add] appends a member only after finding the
    member absent. *)
Theorem completed_users_never_repeat `{Discord} (rev : revision)
  (cs : list command) (w : World) (Hok : quests_ok w) :
  forall message_id members,
    completed_members message_id (exec_all rev cs w) = Some members ->
    NoDup members.
Proof.
  intros msg members Hdone.
  pose proof (quests_ok_exec_all rev cs w Hok) as Hall.
  unfold completed_members, select_quest in Hdone.
  unfold quests_ok, quest_table in Hall.
  destruct (db_connection (bot (exec_all rev cs w))) as [db|]; [|done].
  destruct (quests db !! msg) as [q|] eqn:Hq; [|done].
  injection Hdone as <-. exact (Hall _ _ Hq).
Qed.

Lemma completed_users_never_repeat_witness :
  completed_members 100
    (@exec_all quiet_discord Bot4Py
       [CReactionAdd quest_signal (mk_User 1 false);
        CReactionAdd quest_signal (mk_User 2 false);
        CReactionAdd quest_signal (mk_User 1 false)] quest_world)
  = Some [1; 2]
  /\ NoDup [1; 2].
Proof.
  split; [vm_compute; reflexivity|].
  apply (@completed_users_never_repeat quiet_discord Bot4Py
           [CReactionAdd quest_signal (mk_User 1 false);
            CReactionAdd quest_signal (mk_User 2 false);
            CReactionAdd quest_signal (mk_User 1 false)] quest_world) with 100.
  - unfold quests_ok. apply map_Forall_singleton. constructor.
  - vm_compute. reflexivity.
Defined.

(** ** Quest completion, as the handler behaves *)

(** X5. A reaction carrying the emoji the revision tests for (U+2705 in
    [bot 4.py]; in [main.py] the literal of that file, which is not the
    check mark), by a member who is not a bot, on a stored quest whose
    completed users do not list the member, whose record, if any, belongs
    to the guild of the reaction, and whose new xp [max 0 (old + 50)] is
    at most 2 ** 63 - 1 (old being 0 without a record): the member's xp
    becomes that new xp, the member is appended to the completed users, no
    other member's record changes, and the same reaction once more returns
    without changing anything. *)
Theorem completion_awards_once `{Discord} (rev : revision) (r : Reaction)
  (u : User) (w : World) (db : Database) (q : quest_row)
  (Hbot : usr_bot u = false)
  (Hemoji : reaction_emoji r = CHECK_MARK rev)
  (Hdb : db_connection (bot w) = Some db)
  (Hq : quests db !! reaction_message_id r = Some q)
  (Hnew : usr_id u ∉ q_completed_users q)
  (Hrow : forall row, users db !! usr_id u = Some row ->
                      u_guild_id row = reaction_guild_id r)
  (Hfit : Z.max 0 (default 0 (u_xp <$> users db !! usr_id u) + 50)
          <= INT64_MAX) :
  let w1 := (on_reaction_add rev r u w).2 in
  let old := default 0 (u_xp <$> users db !! usr_id u) in
  stored_xp (usr_id u) (reaction_guild_id r) w1 = Some (Z.max 0 (old + 50))
  /\ completed_members (reaction_message_id r) w1
     = Some (q_completed_users q ++ [usr_id u])
  /\ (forall u', u' ≠ usr_id u -> ledger w1 !! u' = ledger w !! u')
  /\ on_reaction_add rev r u w1 = (Ok tt, w1).
Proof.
  intros w1 old.
  destruct (on_reaction_add_award rev r u w db q Hbot Hemoji Hdb Hq Hnew Hrow
              Hfit) as (Hxp & Hdone & Hothers).
  repeat split; [exact Hxp|exact Hdone|exact Hothers|].
  exact (on_reaction_add_twice rev r u w db q Hbot Hemoji Hdb Hq Hnew Hrow Hfit).
Qed.

Lemma completion_awards_once_witness :
  stored_xp 1 10 (@on_reaction_add quiet_discord Bot4Py quest_signal
                    (mk_User 1 false) quest_world).2 = Some 170
  /\ completed_members 100
       (@on_reaction_add quiet_discord Bot4Py quest_signal
          (mk_User 1 false) quest_world).2 = Some [1].
Proof.
  destruct (@completion_awards_once quiet_discord Bot4Py quest_signal
              (mk_User 1 false) quest_world
              (set_quests {[ 100 := mk_quest_row 10 5 "quest" "text" [] ]}
                 (set_users {[ 1 := mk_user_row 10 120 2 ]} empty_database))
              (mk_quest_row 10 5 "quest" "text" []))
    as (Hxp & Hdone & _); try reflexivity.
  - apply not_elem_of_nil.
  - intros row Hrow. vm_compute in Hrow. by injection Hrow as <-.
  - by vm_compute.
  - split; [exact Hxp|exact Hdone].
Defined.

(** X6. A reaction changes nothing and sends nothing when it comes from a
    bot, carries another emoji than the literal the revision tests for, is
    on a message that is no stored quest (or the bot has no connection), or
    comes from a member already among the completed users.  In [main.py]
    the check mark U+2705 is such another emoji. *)
Theorem reaction_without_effect `{Discord} (rev : revision) (r : Reaction)
  (u : User) (w : World)
  (Hcase : usr_bot u = true
           \/ reaction_emoji r ≠ CHECK_MARK rev
           \/ completed_members (reaction_message_id r) w = None
           \/ exists members,
                completed_members (reaction_message_id r) w = Some members
                /\ usr_id u ∈ members) :
  on_reaction_add rev r u w = (Ok tt, w).
Proof.
  destruct Hcase as [Hbot|[Hemoji|[Hnone|(members & Hsome & Hin)]]].
  - by apply on_reaction_add_bot.
  - unfold on_reaction_add. destruct (usr_bot u); [done|].
    by rewrite bool_decide_false.
  - unfold completed_members, select_quest in Hnone.
    destruct (db_connection (bot w)) as [db|] eqn:Hdb.
    + eapply on_reaction_add_unknown_quest; [done|].
      by destruct (quests db !! reaction_message_id r).
    + unfold on_reaction_add. destruct (usr_bot u); [done|].
      case_bool_decide; [|done]. unfold bind, gets. by rewrite Hdb.
  - unfold completed_members, select_quest in Hsome.
    destruct (db_connection (bot w)) as [db|] eqn:Hdb; [|done].
    destruct (quests db !! reaction_message_id r) as [q|] eqn:Hq; [|done].
    injection Hsome as <-. by eapply on_reaction_add_already_completed.
Qed.

Lemma reaction_without_effect_witness :
  @on_reaction_add quiet_discord Bot4Py quest_signal (mk_User 1 true) quest_world
  = (Ok tt, quest_world)
  /\ @on_reaction_add quiet_discord Bot4Py
       (mk_Reaction WHITE_HEAVY_CHECK_MARK 999 10 5) (mk_User 1 false) quest_world
     = (Ok tt, quest_world)
  /\ @on_reaction_add quiet_discord MainPy quest_signal (mk_User 1 false)
       quest_world
     = (Ok tt, quest_world).
Proof.
  split; [|split].
  - apply (@reaction_without_effect quiet_discord). by left.
  - apply (@reaction_without_effect quiet_discord). right. right. left.
    vm_compute. reflexivity.
  - apply (@reaction_without_effect quiet_discord). right. left.
    vm_compute. discriminate.
Defined.

(** ** The ledger, call by call *)

(** X7. What [get_user_data] returned it returns again, from a state it no
    longer changes: a record it created is there for the next read.  And
    after [update_user_xp] has returned [(newXp, newLevel)],
    [get_user_data] returns exactly these.  A read that raises leaves the
    state as it was; an [update_user_xp] that raises leaves the state as
    its read left it (with the record the read created, when the [UPDATE]
    is what raised). *)
Theorem get_user_data_reads_back (rev : revision) (u g d : Z) (w : World) :
  match get_user_data u g w with
  | (Ok ud, w1) => get_user_data u g w1 = (Ok ud, w1)
  | (Raise _, w1) => w1 = w
  end
  /\ match update_user_xp rev u g d w with
     | (Ok (newXp, newLevel), w1) =>
         get_user_data u g w1 = (Ok (mk_user_data newXp newLevel), w1)
     | (Raise _, w1) => w1 = (get_user_data u g w).2
     end.
Proof.
  destruct (db_connection (bot w)) as [db|] eqn:Hdb.
  - rewrite (get_user_data_cases u g w db Hdb),
      (update_user_xp_cases rev u g d w db Hdb).
    assert (forall us ts r,
      us !! u = Some r -> u_guild_id r = g ->
      get_user_data u g (set_loop_tasks ts (set_ledger us w))
      = (Ok (mk_user_data (u_xp r) (u_level r)),
         set_loop_tasks ts (set_ledger us w))) as Hread.
    { intros us ts r Hr Hg.
      rewrite (get_user_data_cases u g _ (set_users us db)).
      - cbn [users set_users]. rewrite Hr. by rewrite bool_decide_true.
      - unfold set_loop_tasks, set_ledger, set_bot. cbn. by rewrite Hdb. }
    destruct (users db !! u) as [r|] eqn:Hu; [case_bool_decide as Hg|]; cbn zeta.
    + split.
      * rewrite (get_user_data_cases u g w db Hdb), Hu. by rewrite bool_decide_true.
      * case_bool_decide; [|done].
        by rewrite (Hread _ _ (mk_user_row g _ _)) by (by rewrite ?lookup_insert_eq).
    + done.
    + split.
      * pose proof (Hread (<[u:=mk_user_row g 0 1]> (users db)) (loop_tasks w)
                      (mk_user_row g 0 1)) as Hr.
        rewrite lookup_insert_eq in Hr. specialize (Hr eq_refl eq_refl).
        by destruct w.
      * case_bool_decide; [|done].
        by rewrite (Hread _ _ (mk_user_row g _ _)) by (by rewrite ?lookup_insert_eq).
  - unfold update_user_xp, get_user_data, bind, gets. rewrite Hdb. cbn.
    by rewrite Hdb.
Qed.

(** X8. Whether it returns or raises, [update_user_xp] for one user leaves
    alone the records of every other user, the quests, the stored settings
    of every guild, the settings kept in memory and the platform. *)
Theorem update_user_xp_touches_one_record (rev : revision) (u g d : Z)
  (w : World) :
  let w' := (update_user_xp rev u g d w).2 in
  (forall u' g', u' ≠ u -> stored_record u' g' w' = stored_record u' g' w)
  /\ quest_table w' = quest_table w
  /\ (forall g', stored_settings g' w' = stored_settings g' w)
  /\ (forall g', cached_settings g' w' = cached_settings g' w)
  /\ client w' = client w.
Proof.
  intros w'. subst w'. destruct (db_connection (bot w)) as [db|] eqn:Hdb.
  - rewrite (update_user_xp_cases rev u g d w db Hdb).
    destruct (users db !! u) as [r|] eqn:Hu; [case_bool_decide; [|done]|];
      cbn zeta; (case_bool_decide; [|try done]); cbn [snd];
      unfold stored_record, quest_table, stored_settings, cached_settings,
        set_loop_tasks, set_ledger, set_bot, select_user; cbn; rewrite Hdb; cbn;
      (repeat split; [|done..]); intros u' g' Hne; by rewrite lookup_insert_ne.
  - unfold update_user_xp, bind, gets. by rewrite Hdb.
Qed.

(** X9. The ledger raises in two cases only.  [IntegrityError], exactly
    when the user holds a record under another guild: then [get_user_data],
    [update_user_xp] and [calculate_total_user_xp] all raise it and leave
    the state as it was.  Otherwise both reads return, and [update_user_xp]
    returns unless the new xp exceeds 2 ** 63 - 1 on a connected bot: then
    it raises [OverflowError] and leaves the state as the read left it. *)
Theorem ledger_raises_on_foreign_record_or_overflow (rev : revision)
  (u g d : Z) (w : World) :
  let foreign := exists g' x l, g' ≠ g /\ stored_record u g' w = Some (x, l) in
  (foreign ->
     get_user_data u g w = (Raise IntegrityError, w)
     /\ update_user_xp rev u g d w = (Raise IntegrityError, w)
     /\ calculate_total_user_xp u g w = (Raise IntegrityError, w))
  /\ (~ foreign ->
        exists ud w1,
          get_user_data u g w = (Ok ud, w1)
          /\ (exists total, calculate_total_user_xp u g w = (Ok total, w1))
          /\ (Z.max 0 (xp ud + d) <= INT64_MAX \/ db_connection (bot w) = None ->
                exists res w2, update_user_xp rev u g d w = (Ok res, w2))
          /\ (INT64_MAX < Z.max 0 (xp ud + d) ->
              is_Some (db_connection (bot w)) ->
                update_user_xp rev u g d w = (Raise OverflowError, w1))).
Proof.
  intros foreign. split.
  - intros (g' & x & l & Hne & Hrec).
    destruct (stored_record_inv _ _ _ _ _ Hrec) as (db & Hdb & Hrow).
    assert (get_user_data u g w = (Raise IntegrityError, w)) as Hget
      by by eapply get_user_data_other_guild.
    split; [done|]. split; [by eapply update_user_xp_other_guild|].
    unfold calculate_total_user_xp, try_except.
    unfold bind at 1, gets at 1. cbn beta iota.
    destruct (client w !! g) as [gd|]; [destruct (guild_members gd !! u)|];
      unfold bind; rewrite Hget; cbn beta iota; by rewrite Hget.
  - intros Hnot.
    assert (exists ud w1, get_user_data u g w = (Ok ud, w1)) as (ud & w1 & Hget).
    { destruct (db_connection (bot w)) as [db|] eqn:Hdb.
      - rewrite (get_user_data_cases u g w db Hdb).
        destruct (users db !! u) as [[g' x l]|] eqn:Hu; [|by eexists _, _].
        case_bool_decide as Hg; [by eexists _, _|]. cbn in Hg.
        destruct Hnot. exists g', x, l. split; [done|].
        by apply (stored_record_users _ _ _ _ _ _ Hdb).
      - unfold get_user_data, bind, gets. rewrite Hdb. by eexists _, _. }
    exists ud, w1. split; [done|].
    split; [eexists; by apply calculate_total_user_xp_of_get|].
    destruct (db_connection (bot w)) as [db|] eqn:Hdb.
    + rewrite (update_user_xp_cases rev u g d w db Hdb).
      rewrite (get_user_data_cases u g w db Hdb) in Hget.
      destruct (users db !! u) as [r|]; [case_bool_decide; [|done]|];
        injection Hget as <- <-; cbn [xp]; cbn zeta; split.
      * intros [Hfit|?]; [|done]. rewrite bool_decide_true by done. by eexists _, _.
      * intros Hover _. by rewrite bool_decide_false by lia.
      * intros [Hfit|?]; [|done]. rewrite bool_decide_true by done. by eexists _, _.
      * intros Hover _. by rewrite bool_decide_false by lia.
    + split.
      * intros _. unfold update_user_xp, bind, gets. rewrite Hdb. by eexists _, _.
      * intros _ [? ?]. done.
Qed.

Section StaffCommands.
Context `{Discord}.

Lemma add_xp_stored rev ctx m n w u g :
  stored_record u g (add_xp rev ctx m n w).2
  = stored_record u g (update_user_xp rev m (ctx_guild_id ctx) n w).2.
Proof.
  unfold add_xp, bind, await.
  destruct (update_user_xp rev m (ctx_guild_id ctx) n w) as [[res|e] w']; [|done].
  by destruct (send (ctx_channel_id ctx) (client w')).
Qed.

Lemma remove_xp_stored rev ctx m n w u g :
  stored_record u g (remove_xp rev ctx m n w).2
  = stored_record u g (update_user_xp rev m (ctx_guild_id ctx) (- n) w).2.
Proof.
  unfold remove_xp, bind, await.
  destruct (update_user_xp rev m (ctx_guild_id ctx) (- n) w) as [[res|e] w']; [|done].
  by destruct (send (ctx_channel_id ctx) (client w')).
Qed.

Lemma update_user_xp_stored rev m g d w x l :
  stored_record m g w = Some (x, l) ->
  clamp_add x d <= INT64_MAX ->
  stored_record m g (update_user_xp rev m g d w).2
  = Some (clamp_add x d, level_cascade (clamp_add x d)).
Proof.
  intros Hrec Hfit. destruct (stored_record_inv _ _ _ _ _ Hrec) as (db & Hdb & Hrow).
  rewrite (update_user_xp_cases rev m g d w db Hdb), Hrow.
  cbn [u_guild_id u_xp u_level]. rewrite bool_decide_true by done. cbn zeta.
  rewrite bool_decide_true by done.
  cbn [snd]. unfold stored_record, set_loop_tasks, set_ledger, set_bot, select_user.
  cbn. rewrite Hdb. cbn. rewrite lookup_insert_eq. cbn.
  by rewrite bool_decide_true.
Qed.

Lemma update_user_xp_refused rev m g d w x l :
  stored_record m g w = Some (x, l) ->
  INT64_MAX < clamp_add x d ->
  update_user_xp rev m g d w = (Raise OverflowError, w).
Proof.
  intros Hrec Hover. destruct (stored_record_inv _ _ _ _ _ Hrec) as (db & Hdb & Hrow).
  rewrite (update_user_xp_cases rev m g d w db Hdb), Hrow.
  cbn [u_guild_id u_xp u_level]. rewrite bool_decide_true by done. cbn zeta.
  unfold clamp_add in Hover. by rewrite bool_decide_false by lia.
Qed.

(** X10. On a stored record with xp [x >= 0] and for [n >= 0]: when
    [x + n] is at most 2 ** 63 - 1, [-addXP n] followed by [-removeXP n]
    brings the record back to xp [x], with the level of [x]; in the other
    order the record ends at [max x n] (when that is within the range):
    what the clamp at 0 swallowed is not given back.  When [x + n] is
    beyond the range, [-addXP n] raises [OverflowError] and the record
    stays as it was. *)
Theorem add_then_remove_restores (rev : revision) (ctx : Context)
  (m n x l : Z) (w : World)
  (Hrec : stored_record m (ctx_guild_id ctx) w = Some (x, l))
  (Hx : 0 <= x) (Hn : 0 <= n) :
  let g := ctx_guild_id ctx in
  (x + n <= INT64_MAX ->
     stored_record m g (add_xp rev ctx m n w).2
     = Some (x + n, level_cascade (x + n))
     /\ stored_record m g (remove_xp rev ctx m n (add_xp rev ctx m n w).2).2
        = Some (x, level_cascade x))
  /\ (Z.max x n <= INT64_MAX ->
        stored_record m g (add_xp rev ctx m n (remove_xp rev ctx m n w).2).2
        = Some (Z.max x n, level_cascade (Z.max x n)))
  /\ (INT64_MAX < x + n ->
        add_xp rev ctx m n w = (Raise OverflowError, w)).
Proof.
  intros g. subst g. split; [|split].
  - intros Hfit.
    assert (stored_record m (ctx_guild_id ctx) (add_xp rev ctx m n w).2
            = Some (x + n, level_cascade (x + n))) as Hadd.
    { rewrite add_xp_stored, (update_user_xp_stored _ _ _ _ _ _ _ Hrec);
        unfold clamp_add; [|lia]. by rewrite Z.max_r by lia. }
    split; [exact Hadd|].
    rewrite remove_xp_stored, (update_user_xp_stored _ _ _ _ _ _ _ Hadd);
      unfold clamp_add; [|unfold INT64_MAX in *; lia].
    by replace (Z.max 0 (x + n + - n)) with x by lia.
  - intros Hfit.
    assert (stored_record m (ctx_guild_id ctx) (remove_xp rev ctx m n w).2
            = Some (Z.max 0 (x - n), level_cascade (Z.max 0 (x - n)))) as Hremove.
    { rewrite remove_xp_stored, (update_user_xp_stored _ _ _ _ _ _ _ Hrec);
        unfold clamp_add; [|unfold INT64_MAX in *; lia]. by rewrite Z.add_opp_r. }
    rewrite add_xp_stored, (update_user_xp_stored _ _ _ _ _ _ _ Hremove);
      unfold clamp_add; [|lia].
    by replace (Z.max 0 (Z.max 0 (x - n) + n)) with (Z.max x n) by lia.
  - intros Hover. unfold add_xp, bind.
    rewrite (update_user_xp_refused rev m (ctx_guild_id ctx) n w x l Hrec); [done|].
    unfold clamp_add. lia.
Qed.

End StaffCommands.

Lemma add_then_remove_restores_witness :
  stored_record 1 10 (world_with_record 1 10 50 1) = Some (50, 1)
  /\ stored_record 1 10
       (@remove_xp quiet_discord Bot4Py (mk_Context 10 5) 1 80
          (@add_xp quiet_discord Bot4Py (mk_Context 10 5) 1 80
             (world_with_record 1 10 50 1)).2).2 = Some (50, 1)
  /\ stored_record 1 10
       (@add_xp quiet_discord Bot4Py (mk_Context 10 5) 1 80
          (@remove_xp quiet_discord Bot4Py (mk_Context 10 5) 1 80
             (world_with_record 1 10 50 1)).2).2 = Some (80, 1).
Proof.
  split; [reflexivity|].
  destruct (@add_then_remove_restores quiet_discord Bot4Py (mk_Context 10 5)
              1 80 50 1 (world_with_record 1 10 50 1) eq_refl
              ltac:(lia) ltac:(lia)) as (Hback & Hmore & _).
  split; [apply Hback; by vm_compute|apply Hmore; by vm_compute].
Defined.

(** ** The figures of [-checkXP] *)

Lemma level_cascade_brackets xp :
  (xp < 100 /\ level_cascade xp = 1)
  \/ (100 <= xp < 500 /\ level_cascade xp = 2)
  \/ (500 <= xp < 1200 /\ level_cascade xp = 3)
  \/ (1200 <= xp < 2200 /\ level_cascade xp = 4)
  \/ (2200 <= xp < 3500 /\ level_cascade xp = 5)
  \/ (3500 <= xp < 5100 /\ level_cascade xp = 6)
  \/ (5100 <= xp < 7000 /\ level_cascade xp = 7)
  \/ (7000 <= xp < 9200 /\ level_cascade xp = 8)
  \/ (9200 <= xp < 11700 /\ level_cascade xp = 9)
  \/ (11700 <= xp /\ level_cascade xp = 10).
Proof. level_cases; lia. Qed.

(** Evaluate the closed look-ups and minima of the goal. *)
Ltac close_terms :=
  repeat match goal with
  | |- context [Z.min ?a ?b] =>
      let v := eval vm_compute in (Z.min a b) in change (Z.min a b) with v
  | |- context [LEVEL_THRESHOLDS !! ?k] =>
      let v := eval vm_compute in (LEVEL_THRESHOLDS !! k) in
      change (LEVEL_THRESHOLDS !! k) with v
  end; cbn [default from_option id]; unfold id.

(** X11. For every total (also a negative one) [check_xp] finds a level in
    [calculate_level]; below level 10 the next level is the level plus one
    and the XP needed is positive and exact: adding it reaches the threshold
    of the next level and that level, adding one less stays on the current
    level.  At level 10 the next level is 10 and nothing is needed. *)
Theorem xp_needed_reaches_next_level (current_xp : Z) :
  exists s,
    check_xp_stats current_xp = Ok s
    /\ calculate_level current_xp = Ok (current_level s)
    /\ (current_level s < 10 ->
          next_level s = current_level s + 1
          /\ 0 < xp_needed s
          /\ LEVEL_THRESHOLDS !! next_level s = Some (current_xp + xp_needed s)
          /\ calculate_level (current_xp + xp_needed s) = Ok (next_level s)
          /\ calculate_level (current_xp + xp_needed s - 1) = Ok (current_level s))
    /\ (current_level s = 10 -> next_level s = 10 /\ xp_needed s = 0).
Proof.
  unfold check_xp_stats. rewrite calculate_level_cascade.
  change (LEVEL_THRESHOLDS !! 10) with (Some 11700). cbn beta iota zeta.
  eexists. split; [reflexivity|].
  cbn [current_level next_level xp_needed next_level_xp].
  split; [reflexivity|].
  destruct (level_cascade_brackets current_xp)
    as [[Hxp ->]|[[Hxp ->]|[[Hxp ->]|[[Hxp ->]|[[Hxp ->]|[[Hxp ->]|[[Hxp ->]|
        [[Hxp ->]|[[Hxp ->]|[Hxp ->]]]]]]]]]];
    close_terms; (split; [intros Hlt|intros Heq]; try lia).
  1-9: split; [reflexivity|]; split; [lia|]; split; [f_equal; lia|];
       split;
       match goal with
       | |- calculate_level ?e = _ =>
           match e with
           | context [Z.max 0 (?T - _)] =>
               first [ replace e with T by lia | replace e with (T - 1) by lia ]
           end
       end; reflexivity.
Qed.

(** ** Settings: what a command stores *)

Lemma save_settings_connected g w db :
  db_connection (bot w) = Some db ->
  save_settings g w =
    (Ok tt,
     set_bot (set_db_connection
                (Some (set_settings (<[g := cached_settings g w]> (settings db)) db)))
       w).
Proof.
  intros Hdb. unfold save_settings, bind, gets, execute, replace_settings.
  reduce_with Hdb. reflexivity.
Qed.

Section SettingsStored.
Context `{Discord}.

Lemma set_quest_ping_found ctx role w db r :
  db_connection (bot w) = Some db ->
  get_role (ctx_guild_id ctx) role w = Some r ->
  exists c,
    (set_quest_ping ctx role w).2 =
      set_client c
        (set_bot (set_db_connection
           (Some (set_settings
                    (<[ctx_guild_id ctx :=
                         cached_settings (ctx_guild_id ctx)
                           (set_bot (set_quest_ping_role_id (Some role)) w)]>
                       (settings db)) db)))
           (set_bot (set_quest_ping_role_id (Some role)) w)).
Proof.
  intros Hdb Hrole. unfold set_quest_ping. unfold bind at 1, gets at 1.
  cbn beta iota. rewrite Hrole. unfold bind at 1, modify at 1. cbn beta iota.
  unfold bind at 1.
  rewrite (save_settings_connected _ _ db) by done. cbn beta iota.
  unfold await. destruct (send _ _) as [res c]. by exists c.
Qed.

Lemma set_quest_channel_found ctx channel w db ch :
  db_connection (bot w) = Some db ->
  get_channel channel w = Some ch ->
  exists c,
    (set_quest_channel ctx channel w).2 =
      set_client c
        (set_bot (set_db_connection
           (Some (set_settings
                    (<[ctx_guild_id ctx :=
                         cached_settings (ctx_guild_id ctx)
                           (set_bot (set_quest_channel_id (Some channel)) w)]>
                       (settings db)) db)))
           (set_bot (set_quest_channel_id (Some channel)) w)).
Proof.
  intros Hdb Hch. unfold set_quest_channel. unfold bind at 1, gets at 1.
  cbn beta iota. rewrite Hch. unfold bind at 1, modify at 1. cbn beta iota.
  unfold bind at 1.
  rewrite (save_settings_connected _ _ db) by done. cbn beta iota.
  unfold await. destruct (send _ _) as [res c]. by exists c.
Qed.

Lemma assign_role_xp_connected ctx role amount w db :
  db_connection (bot w) = Some db ->
  let g := ctx_guild_id ctx in
  let w2 :=
    set_bot (fun b =>
      set_role_xp_assignments
        (<[g := <[pretty (role_id role) := amount]>
                  (default ∅ (role_xp_assignments b !! g))]>
           (role_xp_assignments b)) b) w in
  exists c,
    (assign_role_xp ctx role amount w).2 =
      set_client c
        (set_bot (set_db_connection
           (Some (set_settings (<[g := cached_settings g w2]> (settings db)) db)))
           w2).
Proof.
  intros Hdb g w2. unfold assign_role_xp.
  unfold bind at 1, modify at 1. cbn beta iota.
  unfold bind at 1, modify at 1. cbn beta iota.
  unfold bind at 1.
  assert (set_bot (fun b =>
            set_role_xp_assignments
              (<[ctx_guild_id ctx :=
                   <[pretty (role_id role) := amount]>
                     (default ∅ (role_xp_assignments b !! ctx_guild_id ctx))]>
                 (role_xp_assignments b)) b)
            (set_bot (fun b =>
               match role_xp_assignments b !! ctx_guild_id ctx with
               | Some _ => b
               | None =>
                   set_role_xp_assignments
                     (<[ctx_guild_id ctx := ∅]> (role_xp_assignments b)) b
               end) w) = w2) as ->.
  { subst w2 g. unfold set_bot. cbn.
    destruct (role_xp_assignments (bot w) !! ctx_guild_id ctx) eqn:Hg;
      cbn; rewrite ?Hg; [done|].
    rewrite lookup_insert_eq, insert_insert_eq. cbn. by rewrite ?Hg. }
  rewrite (save_settings_connected _ _ db) by done. cbn beta iota.
  unfold await. destruct (send _ _) as [res c]. by exists c.
Qed.

(** X12. On a connected bot, a settings command that takes effect leaves
    the stored row of its guild equal to the settings kept in memory:
    [-questping] with a role of the guild stores and keeps that role,
    [-questchannel] with a known channel stores and keeps that channel,
    [-assignroleXP] stores and keeps the amount under the role's id.  With
    an unknown role or channel nothing is changed in the bot. *)
Theorem settings_command_is_stored (ctx : Context) (w : World) (db : Database)
  (Hdb : db_connection (bot w) = Some db) :
  let g := ctx_guild_id ctx in
  (forall role,
     let w' := (set_quest_ping ctx role w).2 in
     match get_role g role w with
     | Some _ =>
         stored_settings g w' = Some (cached_settings g w')
         /\ quest_ping_role_id (bot w') = Some role
     | None => bot w' = bot w
     end)
  /\ (forall channel,
        let w' := (set_quest_channel ctx channel w).2 in
        match get_channel channel w with
        | Some _ =>
            stored_settings g w' = Some (cached_settings g w')
            /\ quest_channel_id (bot w') = Some channel
        | None => bot w' = bot w
        end)
  /\ (forall role amount,
        let w' := (assign_role_xp ctx role amount w).2 in
        stored_settings g w' = Some (cached_settings g w')
        /\ s_role_xp_assignments (cached_settings g w') !! pretty (role_id role)
           = Some amount).
Proof.
  intros g. subst g. split; [|split].
  - intros role w'. subst w'.
    destruct (get_role (ctx_guild_id ctx) role w) as [r|] eqn:Hrole.
    + destruct (set_quest_ping_found ctx role w db r Hdb Hrole) as [c ->].
      unfold stored_settings, select_settings, cached_settings. cbn.
      by rewrite lookup_insert_eq.
    + unfold set_quest_ping, bind, gets, await. rewrite Hrole.
      by destruct (send _ _).
  - intros channel w'. subst w'.
    destruct (get_channel channel w) as [ch|] eqn:Hch.
    + destruct (set_quest_channel_found ctx channel w db ch Hdb Hch) as [c ->].
      unfold stored_settings, select_settings, cached_settings. cbn.
      by rewrite lookup_insert_eq.
    + unfold set_quest_channel, bind, gets, await. rewrite Hch.
      by destruct (send _ _).
  - intros role amount w'. subst w'.
    destruct (assign_role_xp_connected ctx role amount w db Hdb) as [c ->].
    unfold stored_settings, select_settings, cached_settings. cbn.
    rewrite !lookup_insert_eq. cbn. by rewrite lookup_insert_eq.
Qed.

(** X13. A settings command for one guild leaves the stored settings row of
    every other guild and its entry of [role_xp_assignments] as they were. *)
Theorem settings_of_other_guilds_are_kept (ctx : Context) (b : Z) (w : World)
  (Hother : ctx_guild_id ctx ≠ b) :
  let kept w' :=
    stored_settings b w' = stored_settings b w
    /\ role_xp_assignments (bot w') !! b = role_xp_assignments (bot w) !! b in
  (forall role, kept (set_quest_ping ctx role w).2)
  /\ (forall channel, kept (set_quest_channel ctx channel w).2)
  /\ (forall role amount, kept (assign_role_xp ctx role amount w).2).
Proof.
  intros kept. subst kept. cbn beta. split; [|split]; intros.
  - by apply (kept_set_quest_ping b _ _ ctx role Hother w).
  - by apply (kept_set_quest_channel b _ _ ctx channel Hother w).
  - by apply (kept_assign_role_xp b _ _ ctx role amount Hother w).
Qed.

End SettingsStored.

Lemma settings_command_is_stored_witness :
  stored_settings 1 (@set_quest_ping quiet_discord ctx_a 9 (init_world two_guilds)).2
  = Some (mk_settings_row (Some 9) None ∅)
  /\ quest_ping_role_id
       (bot (@set_quest_ping quiet_discord ctx_a 9 (init_world two_guilds)).2)
     = Some 9.
Proof.
  destruct (@settings_command_is_stored quiet_discord ctx_a (init_world two_guilds)
              empty_database eq_refl) as (Hping & _).
  specialize (Hping 9). cbn zeta in Hping.
  change (get_role (ctx_guild_id ctx_a) 9 (init_world two_guilds))
    with (Some (mk_Role 9 "quests-a")) in Hping.
  destruct Hping as [Hstored Hcached]. split; [|exact Hcached].
  refine (eq_trans Hstored _). vm_compute. reflexivity.
Defined.

Lemma settings_of_other_guilds_are_kept_witness :
  stored_settings 2 (@set_quest_ping quiet_discord ctx_a 9 settings_world_1).2
  = stored_settings 2 settings_world_1.
Proof.
  destruct (@settings_of_other_guilds_are_kept quiet_discord ctx_a 2
              settings_world_1 ltac:(done)) as (Hping & _).
  exact (proj1 (Hping 9)).
Defined.

(** ** Start-up *)

Lemma load_settings_connected g w db :
  db_connection (bot w) = Some db ->
  load_settings g w =
    (Ok tt,
     match settings db !! g with
     | Some row =>
         set_bot (fun b =>
           set_role_xp_assignments
             (<[g := s_role_xp_assignments row]> (role_xp_assignments b))
             (set_quest_channel_id (s_quest_channel_id row)
                (set_quest_ping_role_id (s_quest_ping_role_id row) b))) w
     | None => w
     end).
Proof.
  intros Hdb. unfold load_settings, bind, gets, fetchone, select_settings.
  reduce_with Hdb. by destruct (settings db !! g).
Qed.

Section StartUpProperties.
Context `{Discord}.
Variables (rev : revision) (db : Database).

Lemma on_ready_guild g w :
  db_connection (bot w) = Some db ->
  exists w1,
    (do* load_settings g in
     match rev with
     | MainPy => ret tt
     | Bot4Py => create_level_roles g
     end) w = (Ok tt, w1)
    /\ bot w1 = bot (load_settings g w).2.
Proof.
  intros Hdb. unfold bind. rewrite (load_settings_connected g w db Hdb). cbn [snd].
  destruct rev; [by eexists|].
  set (w0 := match settings db !! g with Some _ => _ | None => _ end).
  assert ((create_level_roles g w0).1 = Ok tt) as Hret
    by apply try_except_returns.
  pose proof (bot_kept_create_level_roles (bot w0) (loop_tasks w0) g w0
                (conj eq_refl eq_refl)) as [Hbot _].
  destruct (create_level_roles g w0) as [res w1]. cbn in *. subst res.
  by exists w1.
Qed.

Lemma on_ready_loop gs w :
  db_connection (bot w) = Some db ->
  exists w1,
    for_each gs (fun guild_id =>
      do* load_settings guild_id in
      match rev with
      | MainPy => ret tt
      | Bot4Py => create_level_roles guild_id
      end) w = (Ok tt, w1)
    /\ db_connection (bot w1) = Some db
    /\ (forall g row,
          settings db !! g = Some row ->
          g ∈ gs \/ role_xp_assignments (bot w) !! g = Some (s_role_xp_assignments row) ->
          role_xp_assignments (bot w1) !! g = Some (s_role_xp_assignments row))
    /\ (forall g row,
          last gs = Some g -> settings db !! g = Some row ->
          quest_ping_role_id (bot w1) = s_quest_ping_role_id row
          /\ quest_channel_id (bot w1) = s_quest_channel_id row).
Proof.
  revert w. induction gs as [|g' gs IH]; intros w Hdb.
  - exists w. split; [done|]. split; [done|]. split; [|done].
    intros g row _ [Hin|Hhad]; [by apply elem_of_nil in Hin|done].
  - cbn [for_each]. unfold bind at 1.
    destruct (on_ready_guild g' w Hdb) as (w0 & -> & Hbot0).
    rewrite (load_settings_connected g' w db Hdb) in Hbot0. cbn [snd] in Hbot0.
    assert (db_connection (bot w0) = Some db) as Hdb0.
    { rewrite Hbot0. by destruct (settings db !! g'). }
    destruct (IH w0 Hdb0) as (w1 & Hrun & Hdb1 & Hmaps & Hlast).
    exists w1. split; [done|]. split; [done|]. split.
    + intros g row Hrow Hcase. apply (Hmaps g row Hrow).
      destruct (decide (g ∈ gs)) as [|Hnotin]; [by left|right].
      rewrite Hbot0. destruct (decide (g = g')) as [->|Hne].
      * rewrite Hrow. cbn. by rewrite lookup_insert_eq.
      * destruct Hcase as [Hin|Hhad];
          [by apply elem_of_cons in Hin as [?|?]|].
        destruct (settings db !! g'); [|done]. cbn. by rewrite lookup_insert_ne.
    + intros g row Hg Hrow. destruct gs as [|g'' gs].
      * cbn in Hg. injection Hg as ->. cbn in Hrun. injection Hrun as <-.
        rewrite Hbot0, Hrow. done.
      * by apply (Hlast g row).
Qed.

(** X14. After a restart on a database file, [on_ready] returns; it leaves
    the database as it is, and for every guild of [bot.guilds] with a
    stored settings row the role-XP map kept in memory is the stored one.
    The ping role and the quest channel kept in memory are those of the
    last guild of [bot.guilds], when that guild has a stored row. *)
Theorem on_ready_restores_settings (guilds : gmap Z Guild) (bot_guilds : list Z)
  (sync : gmap Z Guild -> result unit * gmap Z Guild) (g : Z) (row : settings_row)
  (Hin : g ∈ bot_guilds) (Hrow : settings db !! g = Some row) :
  let out := on_ready rev bot_guilds sync (boot db guilds) in
  out.1 = Ok tt
  /\ db_connection (bot out.2) = Some db
  /\ role_xp_assignments (bot out.2) !! g = Some (s_role_xp_assignments row)
  /\ (last bot_guilds = Some g ->
        quest_ping_role_id (bot out.2) = s_quest_ping_role_id row
        /\ quest_channel_id (bot out.2) = s_quest_channel_id row).
Proof.
  intros out.
  destruct (on_ready_loop bot_guilds (boot db guilds) eq_refl)
    as (w1 & Hrun & Hdb1 & Hmaps & Hlast).
  assert (exists c, out = (Ok tt, set_client c w1)) as [c ->].
  { subst out. unfold on_ready. unfold bind at 1. rewrite Hrun.
    unfold try_except, await.
    destruct (sync (client w1)) as [[[]|e] c]; by exists c. }
  cbn. split; [done|]. split; [done|]. split.
  - apply (Hmaps g row Hrow). by left.
  - intros Hg. by apply (Hlast g row).
Qed.

End StartUpProperties.

Lemma on_ready_restores_settings_witness :
  role_xp_assignments
    (bot (@on_ready quiet_discord Bot4Py [2; 1] (fun c => (Raise HTTPException, c))
            (boot settings_database ∅)).2) !! 1
  = Some {[ pretty 9 := 30 ]}
  /\ quest_ping_role_id
       (bot (@on_ready quiet_discord Bot4Py [2; 1] (fun c => (Raise HTTPException, c))
               (boot settings_database ∅)).2) = Some 9.
Proof.
  destruct (@on_ready_restores_settings quiet_discord Bot4Py settings_database ∅
              [2; 1] (fun c => (Raise HTTPException, c)) 1
              (mk_settings_row (Some 9) (Some 91) {[ pretty 9 := 30 ]}))
    as (_ & _ & Hmap & Hlast).
  - apply elem_of_cons. right. apply elem_of_cons. by left.
  - vm_compute. reflexivity.
  - split; [exact Hmap|]. exact (proj1 (Hlast eq_refl)).
Defined.

(** ** Level roles *)

Lemma for_each_no_effect {A} (l : list A) (body : A -> M unit) w :
  (forall x, x ∈ l -> body x w = (Ok tt, w)) -> for_each l body w = (Ok tt, w).
Proof.
  induction l as [|x l IH]; intros Hbody; [done|].
  cbn [for_each]. unfold bind. rewrite Hbody by (by left).
  apply IH. intros y Hy. apply Hbody. by right.
Qed.

(** X15. When the guild already has a role named "Level n" for each n of
    1..10, [create_level_roles] makes no call to the platform and returns
    with the state unchanged. *)
Theorem create_level_roles_when_all_exist `{Discord} (g : Z) (w : World)
  (Hall : forall n, 1 <= n <= 10 ->
            is_Some (utils_get (roles_of g w) (level_role_name n))) :
  create_level_roles g w = (Ok tt, w).
Proof.
  unfold create_level_roles, try_except.
  rewrite for_each_no_effect; [done|].
  intros n Hn. apply elem_of_seqZ in Hn.
  destruct (Hall n ltac:(lia)) as [r Hr].
  unfold bind, gets. cbn zeta. by rewrite Hr.
Qed.

Lemma create_level_roles_when_all_exist_witness :
  @create_level_roles forbidding_discord 10 level_roles_world
  = (Ok tt, level_roles_world).
Proof.
  apply (@create_level_roles_when_all_exist forbidding_discord).
  intros n Hn.
  assert (n = 1 \/ n = 2 \/ n = 3 \/ n = 4 \/ n = 5 \/ n = 6 \/ n = 7 \/ n = 8
          \/ n = 9 \/ n = 10) as Hcases by lia.
  repeat (destruct Hcases as [->|Hcases]; [vm_compute; eauto|]).
  subst n. vm_compute. eauto.
Defined.

(** X16. In [update_user_level_role], for a cached member who holds the
    role of the old level: when the removal of that role raises, the role
    of the new level is not granted, the handler returns normally with the
    cache as the failed call left it; when the removal succeeds and the
    role of the new level exists, that role is granted next. *)
Theorem failed_removal_skips_the_grant `{Discord} (u g old new : Z) (w : World)
  (gd : Guild) (member_roles : list Role) (old_role : Role)
  (Hguild : client w !! g = Some gd)
  (Hmember : guild_members gd !! u = Some member_roles)
  (Hold : utils_get (guild_roles gd) (level_role_name old) = Some old_role)
  (Hheld : role_in old_role member_roles = true) :
  match remove_roles g u old_role (client w) with
  | (Raise _, c) => update_user_level_role u g old new w = (Ok tt, set_client c w)
  | (Ok _, c) =>
      forall new_role,
        utils_get (roles_of g (set_client c w)) (level_role_name new)
        = Some new_role ->
        update_user_level_role u g old new w
        = (Ok tt, set_client (add_roles g u new_role c).2 w)
  end.
Proof.
  assert (update_user_level_role u g old new w
            = try_except
                (do* await (remove_roles g u old_role) in
                 let* roles := gets (roles_of g) in
                 match utils_get roles (level_role_name new) with
                 | Some new_role => await (add_roles g u new_role)
                 | None =>
                     do* create_level_roles g in
                     let* roles := gets (roles_of g) in
                     match utils_get roles (level_role_name new) with
                     | Some new_role => await (add_roles g u new_role)
                     | None => ret tt
                     end
                 end) (fun _ => ret tt) w) as Hbody.
  { unfold update_user_level_role, try_except.
    unfold bind at 1, gets at 1. cbn beta iota. rewrite Hguild, Hmember.
    cbn zeta. by rewrite Hold, Hheld. }
  rewrite Hbody. clear Hbody.
  unfold try_except, bind, await, gets.
  destruct (remove_roles g u old_role (client w)) as [[[]|e] c]; [|reflexivity].
  intros new_role Hnew. rewrite Hnew. cbn [client set_client].
  by destruct (add_roles g u new_role c) as [[[]|e] c'].
Qed.

Lemma failed_removal_skips_the_grant_witness :
  @update_user_level_role forbidding_discord 1 10 1 2 level_up_world
  = (Ok tt, level_up_world).
Proof.
  exact (@failed_removal_skips_the_grant forbidding_discord 1 10 1 2
           level_up_world
           (mk_Guild [mk_Role 21 "Level 1"] [] {[ 1 := [mk_Role 21 "Level 1"] ]})
           [mk_Role 21 "Level 1"] (mk_Role 21 "Level 1")
           eq_refl eq_refl eq_refl eq_refl).
Defined.

(** ** Level roles in the aggregator *)

Lemma level_role_step_named acc r n :
  role_name r = level_role_name n -> 1 <= n <= 10 ->
  exists t, LEVEL_THRESHOLDS !! n = Some t /\ level_role_step acc r = Z.max acc t.
Proof.
  intros Hname Hn. unfold level_role_step. rewrite Hname.
  assert (n = 1 \/ n = 2 \/ n = 3 \/ n = 4 \/ n = 5 \/ n = 6 \/ n = 7 \/ n = 8
          \/ n = 9 \/ n = 10) as Hcases by lia.
  repeat (destruct Hcases as [->|Hcases];
          [eexists; split; vm_compute; reflexivity|]).
  subst n. eexists; split; vm_compute; reflexivity.
Qed.

Lemma level_role_step_ge acc r : acc <= level_role_step acc r.
Proof. unfold level_role_step. repeat case_match; lia. Qed.

Lemma level_role_fold_ge rs acc : acc <= fold_left level_role_step rs acc.
Proof.
  revert acc. induction rs as [|r rs IH]; intros acc; cbn; [lia|].
  pose proof (level_role_step_ge acc r). pose proof (IH (level_role_step acc r)).
  lia.
Qed.

Lemma level_role_fold_member rs r t :
  r ∈ rs -> (forall acc, t <= level_role_step acc r) ->
  forall acc, t <= fold_left level_role_step rs acc.
Proof.
  intros Hin Hstep. induction rs as [|r' rs IH]; intros acc.
  - by apply elem_of_nil in Hin.
  - cbn. apply elem_of_cons in Hin as [->|Hin].
    + pose proof (Hstep acc). pose proof (level_role_fold_ge rs (level_role_step acc r')).
      lia.
    + by apply IH.
Qed.

Lemma custom_role_fold_nonneg ra rs acc :
  map_Forall (fun _ a => 0 <= a) ra -> 0 <= acc ->
  0 <= fold_left (custom_role_step ra) rs acc.
Proof.
  intros Hra. revert acc. induction rs as [|r rs IH]; intros acc Hacc; [done|].
  cbn. apply IH. unfold custom_role_step.
  destruct (ra !! pretty (role_id r)) as [a|] eqn:Ha; [|done].
  pose proof (map_Forall_lookup_1 _ _ _ _ Hra Ha) as Hnonneg. cbn in Hnonneg. lia.
Qed.

Lemma auto_role_fold_nonneg rs acc :
  0 <= acc -> 0 <= fold_left auto_role_step rs acc.
Proof.
  revert acc. induction rs as [|r rs IH]; intros acc Hacc; [done|].
  cbn. apply IH. unfold auto_role_step. repeat case_match; lia.
Qed.

(** X17. A member who holds a role named "Level n" (1 <= n <= 10), in a
    guild whose assigned role amounts are all non-negative, is reported by
    [calculate_total_user_xp] with a total whose level is at least n,
    whatever xp the ledger holds; the total is never below the ledger's. *)
Theorem level_role_holder_is_at_least_that_level (w w1 : World) (u g n : Z)
  (gd : Guild) (member_roles : list Role) (r : Role) (ud : user_data)
  (Hguild : client w !! g = Some gd)
  (Hmember : guild_members gd !! u = Some member_roles)
  (Hheld : r ∈ member_roles)
  (Hname : role_name r = level_role_name n)
  (Hn : 1 <= n <= 10)
  (Hamounts : forall ra, role_xp_assignments (bot w) !! g = Some ra ->
                         map_Forall (fun _ a => 0 <= a) ra)
  (Hget : get_user_data u g w = (Ok ud, w1)) :
  exists total,
    calculate_total_user_xp u g w = (Ok total, w1)
    /\ xp ud <= total
    /\ n <= level_cascade total.
Proof.
  exists (total_xp_of w u g (xp ud)).
  split; [by apply calculate_total_user_xp_of_get|].
  split; [apply total_xp_of_ge|].
  destruct (level_role_step_named 0 r n Hname Hn) as (t & Ht & _).
  apply (level_cascade_greatest _ n t Ht).
  unfold total_xp_of. rewrite Hguild, Hmember.
  assert (t <= level_role_xp_of member_roles) as Hlevel.
  { apply (level_role_fold_member member_roles r t Hheld).
    intros acc. destruct (level_role_step_named acc r n Hname Hn) as (t' & Ht' & ->).
    rewrite Ht in Ht'. injection Ht' as <-. lia. }
  assert (0 <= custom_role_xp_of (role_xp_assignments (bot w)) g member_roles)
    as Hcustom.
  { unfold custom_role_xp_of.
    destruct (role_xp_assignments (bot w) !! g) as [ra|] eqn:Hra; [|done].
    apply custom_role_fold_nonneg; [by apply Hamounts|done]. }
  assert (0 <= auto_role_xp_of member_roles) as Hauto
    by by apply auto_role_fold_nonneg.
  lia.
Qed.

Lemma level_role_holder_is_at_least_that_level_witness :
  exists total,
    calculate_total_user_xp 1 10 level_five_world
    = (Ok total, (get_user_data 1 10 level_five_world).2)
    /\ 0 <= total /\ 5 <= level_cascade total.
Proof.
  apply (level_role_holder_is_at_least_that_level level_five_world
           (get_user_data 1 10 level_five_world).2 1 10 5
           (mk_Guild [] [] {[ 1 := [mk_Role 25 "Level 5"] ]})
           [mk_Role 25 "Level 5"] (mk_Role 25 "Level 5") (mk_user_data 0 1)).
  - reflexivity.
  - reflexivity.
  - apply elem_of_cons. by left.
  - reflexivity.
  - lia.
  - intros ra Hra. vm_compute in Hra. discriminate Hra.
  - vm_compute. reflexivity.
Defined.

(** ** Role grants *)

Lemma elem_of_role_set r l : r ∈ role_set l -> r ∈ l.
Proof.
  induction l as [|r' l IH]; cbn; [done|].
  destruct (role_in r' l).
  - intros Hin. right. by apply IH.
  - intros Hin. apply elem_of_cons in Hin as [->|Hin]; [by left|right; by apply IH].
Qed.

Lemma filter_nothing {A} (f : A -> bool) (l : list A) :
  (forall x, x ∈ l -> f x = false) -> List.filter f l = [].
Proof.
  induction l as [|x l IH]; intros Hall; [done|].
  cbn. rewrite (Hall x) by by left. apply IH. intros y Hy. apply Hall. by right.
Qed.

Lemma fold_clamp_add_nonneg rewards x :
  0 <= x -> Forall (fun a => 0 <= a) rewards ->
  fold_left clamp_add rewards x = x + foldr Z.add 0 rewards.
Proof.
  intros Hx Hall. revert x Hx.
  induction Hall as [|a rewards Ha _ IH]; intros x Hx; cbn; [lia|].
  rewrite IH by (unfold clamp_add; lia). unfold clamp_add. lia.
Qed.

Lemma sum_Permutation (l1 l2 : list Z) :
  l1 ≡ₚ l2 -> foldr Z.add 0 l1 = foldr Z.add 0 l2.
Proof. induction 1; cbn; lia. Qed.

Lemma role_rewards_nonneg ra roles :
  map_Forall (fun _ a => 0 <= a) ra -> Forall (fun a => 0 <= a) (role_rewards ra roles).
Proof.
  intros Hra. apply Forall_forall. intros a Ha.
  apply list_elem_of_omap in Ha as (r & _ & Ha).
  exact (map_Forall_lookup_1 _ _ _ _ Hra Ha).
Qed.

Section RoleGrants.
Context `{Discord}.

(** X18. [on_member_update] awards nothing, sends nothing and stores
    nothing when every role the member holds after the update was held
    before it (compared by id): a role lost, or roles unchanged, never move
    the member's xp. *)
Theorem no_new_role_no_award (rev : revision) (before after : Member) (w : World)
  (Hheld : forall r, r ∈ mem_roles after ->
                     role_id r ∈ map role_id (mem_roles before)) :
  on_member_update rev before after w = (Ok tt, w).
Proof.
  unfold on_member_update, bind, gets. cbn zeta beta iota.
  destruct (role_xp_assignments (bot w) !! mem_guild_id after); [|done].
  assert (new_roles before after = []) as ->; [|done].
  apply Permutation_nil_r. unfold new_roles. rewrite set_order_elements.
  unfold gained_roles. rewrite filter_nothing; [done|].
  intros r Hr. apply elem_of_role_set in Hr.
  unfold role_in. by rewrite bool_decide_true by by apply Hheld.
Qed.

Lemma update_user_xp_returns rev m g d w x l :
  stored_record m g w = Some (x, l) ->
  clamp_add x d <= INT64_MAX ->
  exists res w1,
    update_user_xp rev m g d w = (Ok res, w1)
    /\ stored_record m g w1
       = Some (clamp_add x d, level_cascade (clamp_add x d)).
Proof.
  intros Hrec Hfit.
  pose proof (update_user_xp_stored rev m g d w x l Hrec Hfit) as Hstored.
  destruct (stored_record_inv _ _ _ _ _ Hrec) as (db & Hdb & Hrow).
  rewrite (update_user_xp_cases rev m g d w db Hdb), Hrow in Hstored |- *.
  cbn [u_guild_id u_xp] in *. rewrite bool_decide_true in Hstored |- * by done.
  cbn zeta in *. rewrite bool_decide_true in Hstored |- * by done.
  by eexists _, _.
Qed.

Lemma stored_record_set_client u g c w :
  stored_record u g (set_client c w) = stored_record u g w.
Proof. reflexivity. Qed.

Lemma role_award_step rev m g ra r w x l :
  (forall ch c, (send ch c).1 = Ok tt) ->
  stored_record m g w = Some (x, l) ->
  fold_left clamp_add (role_rewards ra [r]) x <= INT64_MAX ->
  exists w1 l1,
    match ra !! pretty (role_id r) with
    | Some xp_reward =>
        let* _ := update_user_xp rev m g xp_reward in
        let* channels := gets (text_channels g) in
        match find (fun c => channel_can_send c) channels with
        | Some c => await (send (channel_id c))
        | None => ret tt
        end
    | None => ret tt
    end w = (Ok tt, w1)
    /\ stored_record m g w1
       = Some (fold_left clamp_add (role_rewards ra [r]) x, l1).
Proof.
  intros Hsend Hrec. unfold role_rewards. cbn [omap list_omap].
  destruct (ra !! pretty (role_id r)) as [a|]; [|by exists w, l].
  cbn [fold_left app]. intros Hfit.
  destruct (update_user_xp_returns rev m g a w x l Hrec Hfit)
    as (res & w1 & Hrun & Hrec1).
  unfold bind at 1. rewrite Hrun. unfold bind, gets.
  destruct (find (fun c => channel_can_send c) (text_channels g w1)) as [c|].
  - unfold await. pose proof (Hsend (channel_id c) (client w1)) as Hok.
    destruct (send (channel_id c) (client w1)) as [res' c'].
    cbn in Hok. subst res'.
    by exists (set_client c' w1), (level_cascade (clamp_add x a)).
  - by exists w1, (level_cascade (clamp_add x a)).
Qed.

Lemma role_awards_in_turn rev m g ra rs :
  (forall ch c, (send ch c).1 = Ok tt) ->
  forall w x l,
    stored_record m g w = Some (x, l) ->
    (forall k, fold_left clamp_add (take k (role_rewards ra rs)) x <= INT64_MAX) ->
    exists w1 l1,
      for_each rs (fun role =>
        match ra !! pretty (role_id role) with
        | Some xp_reward =>
            let* _ := update_user_xp rev m g xp_reward in
            let* channels := gets (text_channels g) in
            match find (fun c => channel_can_send c) channels with
            | Some c => await (send (channel_id c))
            | None => ret tt
            end
        | None => ret tt
        end) w = (Ok tt, w1)
      /\ stored_record m g w1
         = Some (fold_left clamp_add (role_rewards ra rs) x, l1).
Proof.
  intros Hsend. induction rs as [|r rs IH]; intros w x l Hrec Hfit.
  - by exists w, l.
  - cbn [for_each]. unfold bind at 1.
    assert (role_rewards ra (r :: rs) = role_rewards ra [r] ++ role_rewards ra rs)
      as Hsplit by (change (r :: rs) with ([r] ++ rs); apply omap_app).
    rewrite Hsplit in Hfit.
    destruct (role_award_step rev m g ra r w x l Hsend Hrec)
      as (w0 & l0 & -> & Hrec0).
    { specialize (Hfit (length (role_rewards ra [r]))).
      by rewrite take_app_length in Hfit. }
    destruct (IH w0 _ l0 Hrec0) as (w1 & l1 & -> & Hrec1).
    { intros k. specialize (Hfit (length (role_rewards ra [r]) + k)%nat).
      by rewrite take_app_add, fold_left_app in Hfit. }
    exists w1, l1. split; [done|]. by rewrite Hrec1, Hsplit, fold_left_app.
Qed.

(** X19. When every message to a channel goes through,
    [on_member_update] on a member with a stored record meets the gained
    roles (those held after and not before, each once) in an order of the
    run time's choosing and applies the amounts assigned to them in that
    order, each step clamped at 0, as long as no step exceeds 2 ** 63 - 1;
    it returns normally and the member's xp is the result.  Gained roles
    without an assigned amount add nothing.  When no assigned amount is
    negative the order does not matter: the xp ends at the old xp plus the
    sum of the amounts. *)
Theorem gained_roles_are_awarded_in_turn (rev : revision) (before after : Member)
  (w : World) (ra : gmap string Z) (x l : Z)
  (Hsend : forall ch c, (send ch c).1 = Ok tt)
  (Hra : role_xp_assignments (bot w) !! mem_guild_id after = Some ra)
  (Hrec : stored_record (mem_id after) (mem_guild_id after) w = Some (x, l))
  (Hfit : forall k,
            fold_left clamp_add
              (take k (role_rewards ra (new_roles before after))) x
            <= INT64_MAX) :
  let out := on_member_update rev before after w in
  let gained := gained_roles (mem_roles before) (mem_roles after) in
  new_roles before after ≡ₚ gained
  /\ out.1 = Ok tt
  /\ stored_xp (mem_id after) (mem_guild_id after) out.2
     = Some (fold_left clamp_add (role_rewards ra (new_roles before after)) x)
  /\ (0 <= x -> map_Forall (fun _ a => 0 <= a) ra ->
        stored_xp (mem_id after) (mem_guild_id after) out.2
        = Some (x + foldr Z.add 0 (role_rewards ra gained))).
Proof.
  intros out gained.
  destruct (role_awards_in_turn rev (mem_id after) (mem_guild_id after) ra
              (new_roles before after) Hsend w x l Hrec Hfit)
    as (w1 & l1 & Hrun & Hrec1).
  assert (out = (Ok tt, w1)) as ->.
  { subst out. unfold on_member_update.
    unfold bind at 1, gets at 1. cbn zeta beta iota. by rewrite Hra. }
  assert (new_roles before after ≡ₚ gained) as Hperm
    by apply set_order_elements.
  cbn [fst snd]. unfold stored_xp. rewrite Hrec1. cbn.
  split; [done|]. split; [done|]. split; [done|].
  intros Hx Hnonneg. f_equal.
  rewrite fold_clamp_add_nonneg by (by try apply role_rewards_nonneg).
  f_equal. apply sum_Permutation. unfold role_rewards. by rewrite Hperm.
Qed.

End RoleGrants.

Lemma no_new_role_no_award_witness :
  @on_member_update reversing_discord Bot4Py
    (mk_Member 1 10 [mk_Role 7 "vip"; mk_Role 8 "late"])
    (mk_Member 1 10 [mk_Role 7 "vip"]) grant_world
  = (Ok tt, grant_world).
Proof.
  apply (@no_new_role_no_award reversing_discord).
  intros r Hr. apply elem_of_cons in Hr as [->|Hr]; [|by apply elem_of_nil in Hr].
  cbn. apply elem_of_cons. by left.
Defined.

(** Member 1 at 50 XP gains role 8 (minus 100) and role 7 (plus 30): met as
    [member.roles] lists them the xp ends at 30, met in the reverse order it
    ends at 0. *)
Lemma gained_roles_are_awarded_in_turn_witness :
  stored_xp 1 10
    (@on_member_update quiet_discord Bot4Py
       (mk_Member 1 10 [mk_Role 3 "old"])
       (mk_Member 1 10 [mk_Role 3 "old"; mk_Role 8 "late"; mk_Role 7 "vip";
                        mk_Role 6 "plain"]) grant_world).2
  = Some 30
  /\ stored_xp 1 10
       (@on_member_update reversing_discord Bot4Py
          (mk_Member 1 10 [mk_Role 3 "old"])
          (mk_Member 1 10 [mk_Role 3 "old"; mk_Role 8 "late"; mk_Role 7 "vip";
                           mk_Role 6 "plain"]) grant_world).2
     = Some 0.
Proof.
  split.
  - destruct (@gained_roles_are_awarded_in_turn quiet_discord Bot4Py
                (mk_Member 1 10 [mk_Role 3 "old"])
                (mk_Member 1 10 [mk_Role 3 "old"; mk_Role 8 "late";
                                 mk_Role 7 "vip"; mk_Role 6 "plain"])
                grant_world {[ pretty 7 := 30; pretty 8 := -100 ]} 50 1)
      as (_ & _ & Hxp & _).
    + intros ch c. reflexivity.
    + vm_compute. reflexivity.
    + vm_compute. reflexivity.
    + intros [|[|[|k]]]; by vm_compute.
    + refine (eq_trans Hxp _). vm_compute. reflexivity.
  - destruct (@gained_roles_are_awarded_in_turn reversing_discord Bot4Py
                (mk_Member 1 10 [mk_Role 3 "old"])
                (mk_Member 1 10 [mk_Role 3 "old"; mk_Role 8 "late";
                                 mk_Role 7 "vip"; mk_Role 6 "plain"])
                grant_world {[ pretty 7 := 30; pretty 8 := -100 ]} 50 1)
      as (_ & _ & Hxp & _).
    + intros ch c. reflexivity.
    + vm_compute. reflexivity.
    + vm_compute. reflexivity.
    + intros [|[|[|k]]]; by vm_compute.
    + refine (eq_trans Hxp _). vm_compute. reflexivity.
Defined.

(** ** The life of a quest *)

(** X20. After the [DELETE] of [remove_quest], the quest is no longer
    stored, the other quests and every member's record are as before (xp
    already awarded stays), and a reaction on the removed message, by
    anyone and with any emoji, changes nothing. *)
Theorem removed_quest_awards_nothing `{Discord} (rev : revision) (message_id : Z)
  (w : World) (r : Reaction) (u : User)
  (Hr : reaction_message_id r = message_id) :
  let out := remove_quest_record message_id w in
  out.1 = Ok tt
  /\ completed_members message_id out.2 = None
  /\ (forall other, other ≠ message_id ->
        completed_members other out.2 = completed_members other w)
  /\ ledger out.2 = ledger w
  /\ on_reaction_add rev r u out.2 = (Ok tt, out.2).
Proof.
  intros out. subst out. unfold remove_quest_record, bind, gets. cbn beta iota.
  destruct (db_connection (bot w)) as [db|] eqn:Hdb.
  - unfold execute, delete_quest. rewrite Hdb. cbn.
    unfold completed_members, select_quest, ledger. cbn.
    rewrite lookup_delete_eq. split; [done|]. split; [done|]. split.
    + intros other Hother. rewrite Hdb. by rewrite lookup_delete_ne.
    + split; [by rewrite Hdb|].
      eapply on_reaction_add_unknown_quest; [reflexivity|].
      cbn. rewrite Hr. apply lookup_delete_eq.
  - cbn. unfold completed_members, ledger. rewrite Hdb.
    split; [done|]. split; [done|]. split; [done|]. split; [done|].
    unfold on_reaction_add. destruct (usr_bot u); [done|].
    case_bool_decide; [|done]. unfold bind, gets. by rewrite Hdb.
Qed.

Lemma removed_quest_awards_nothing_witness :
  @on_reaction_add quiet_discord Bot4Py quest_signal (mk_User 2 false)
    (remove_quest_record 100 quest_world).2
  = (Ok tt, (remove_quest_record 100 quest_world).2).
Proof.
  exact (proj2 (proj2 (proj2 (proj2
    (@removed_quest_awards_nothing quiet_discord Bot4Py 100 quest_world
       quest_signal (mk_User 2 false) eq_refl))))).
Defined.

(** X21. The [INSERT] of [add_quest] for a message id not yet stored leaves
    a quest with no completed users; the first reaction on it carrying the
    emoji the revision tests for (U+2705 in [bot 4.py], the literal of the
    file in [main.py]), by a member who is not a bot, has no record in
    another guild and whose new xp is at most 2 ** 63 - 1, then awards 50
    XP and lists the member.  The same [INSERT] once more raises
    [IntegrityError] and changes nothing. *)
Theorem new_quest_awards_first_signal `{Discord} (rev : revision)
  (message_id guild_id channel_id : Z) (title content : string)
  (r : Reaction) (u : User) (w : World) (db : Database)
  (Hdb : db_connection (bot w) = Some db)
  (Hfresh : quests db !! message_id = None)
  (Hr : reaction_message_id r = message_id)
  (Hbot : usr_bot u = false)
  (Hemoji : reaction_emoji r = CHECK_MARK rev)
  (Hrow : forall row, users db !! usr_id u = Some row ->
                      u_guild_id row = reaction_guild_id r)
  (Hfit : Z.max 0 (default 0 (u_xp <$> users db !! usr_id u) + 50)
          <= INT64_MAX) :
  let w1 := (add_quest_record message_id guild_id channel_id title content w).2 in
  let w2 := (on_reaction_add rev r u w1).2 in
  let old := default 0 (u_xp <$> users db !! usr_id u) in
  completed_members message_id w1 = Some []
  /\ stored_xp (usr_id u) (reaction_guild_id r) w2 = Some (Z.max 0 (old + 50))
  /\ completed_members message_id w2 = Some [usr_id u]
  /\ add_quest_record message_id guild_id channel_id title content w1
     = (Raise IntegrityError, w1).
Proof.
  intros w1 w2 old.
  set (q := mk_quest_row guild_id channel_id title content []).
  set (db1 := set_quests (<[message_id := q]> (quests db)) db).
  assert (w1 = set_bot (set_db_connection (Some db1)) w) as Hw1.
  { subst w1. unfold add_quest_record, bind, gets. cbn beta iota. rewrite Hdb.
    unfold execute, insert_quest. by rewrite Hdb, Hfresh. }
  assert (db_connection (bot w1) = Some db1) as Hdb1 by by rewrite Hw1.
  assert (quests db1 !! reaction_message_id r = Some q) as Hq1
    by (rewrite Hr; apply lookup_insert_eq).
  destruct (on_reaction_add_award rev r u w1 db1 q Hbot Hemoji Hdb1 Hq1)
    as (Hxp & Hdone & _).
  { cbn. apply not_elem_of_nil. }
  { exact Hrow. }
  { exact Hfit. }
  fold w2 in Hxp, Hdone. rewrite Hr in Hdone.
  split; [|split; [exact Hxp|split; [exact Hdone|]]].
  - unfold completed_members, select_quest. rewrite Hdb1, <- Hr, Hq1. done.
  - unfold add_quest_record, bind, gets. cbn beta iota. rewrite Hdb1.
    unfold execute, insert_quest. rewrite Hdb1, <- Hr, Hq1. done.
Qed.

Lemma new_quest_awards_first_signal_witness :
  stored_xp 1 10
    (@on_reaction_add quiet_discord Bot4Py
       (mk_Reaction WHITE_HEAVY_CHECK_MARK 200 10 5) (mk_User 1 false)
       (add_quest_record 200 10 5 "second" "text" quest_world).2).2
  = Some 170.
Proof.
  destruct (@new_quest_awards_first_signal quiet_discord Bot4Py 200 10 5
              "second" "text" (mk_Reaction WHITE_HEAVY_CHECK_MARK 200 10 5)
              (mk_User 1 false)
              quest_world
              (set_quests
                 {[ 100 := mk_quest_row 10 5 "quest" "text" [] ]}
                 (set_users {[ 1 := mk_user_row 10 120 2 ]} empty_database)))
    as (_ & Hxp & _).
  - vm_compute. reflexivity.
  - vm_compute. reflexivity.
  - reflexivity.
  - reflexivity.
  - reflexivity.
  - intros row Hrow. vm_compute in Hrow. injection Hrow as <-. reflexivity.
  - by vm_compute.
  - refine (eq_trans Hxp _). vm_compute. reflexivity.
Defined.
